(** * analysis_engine/scripts/run_backtest_and_plot_history.py

    A shallow embedding of [run_backtest_and_plot_history]: the command
    line options it reads, the way it finalizes the algorithm config
    dictionary, the parsing of the dataset locations ([file:/], [s3://],
    [redis://]), the two algorithm runs and the preparation of the plot.

    Python values are embedded as follows.
    - [str] is [string] (one byte per character), [float] is the kernel's
      binary64 [float], a [dict] is a [gmap string _].
    - A local variable that Python only binds inside an [if] is an
      [option]; reading it while unbound raises [UnboundLocalError].
    - The function runs in the monad [M]: a computation lists the
      observable calls it made (logger, collaborators, plot) and either
      goes on with a value or stops with an [outcome] ([sys.exit],
      [return] or an exception that nobody catches).
    - What lives outside this file (the file system, [json.loads], the two
      algorithm runners, [to_json]) is a field of the record [world]; the
      runners are taken to return an envelope and to leave [config_dict]
      as it is. *)

From Stdlib Require Import String Ascii ZArith List Bool Floats Lia.
From stdpp Require Import gmap strings list fin_maps.

Set Warnings "-inexact-float,-register-all".
Local Open Scope string_scope.

(* ===================================================================== *)
(** ** Strings as Python uses them here *)
(* ===================================================================== *)

Module PyStr.

(** [sub in s] *)
Fixpoint contains (sub s : string) : bool :=
  if String.prefix sub s then true
  else match s with
       | EmptyString => false
       | String _ s' => contains sub s'
       end.

(** [s.split(sep)] for a separator of one character: never empty. *)
Fixpoint split (sep : ascii) (s : string) : list string :=
  match s with
  | EmptyString => [EmptyString]
  | String c s' =>
      if Ascii.eqb c sep then EmptyString :: split sep s'
      else match split sep s' with
           | h :: t => String c h :: t
           | [] => [String c EmptyString]
           end
  end.

(** [l[-k]] for [k >= 1]; [None] stands for [IndexError]. *)
Definition from_end {A} (l : list A) (k : nat) : option A :=
  match k with
  | O => None
  | S k' => rev l !! k'
  end.

Definition upper_ascii (c : ascii) : ascii :=
  let n := nat_of_ascii c in
  if (97 <=? n)%nat && (n <=? 122)%nat then ascii_of_nat (n - 32) else c.

(** [s.upper()], on the ASCII letters. *)
Fixpoint upper (s : string) : string :=
  match s with
  | EmptyString => EmptyString
  | String c s' => String (upper_ascii c) (upper s')
  end.

(** Truth value of a string: [if s:]. *)
Definition truthy (s : string) : bool :=
  match s with EmptyString => false | _ => true end.

(** Truth value of an optional command line string ([None] when the
    option was not given). *)
Definition given (o : option string) : bool :=
  match o with Some s => truthy s | None => false end.

Definition nl : string := String (ascii_of_nat 10) EmptyString.

End PyStr.

(* ===================================================================== *)
(** ** [datetime.datetime.strptime(s, ae_consts.COMMON_DATE_FORMAT)] *)
(* ===================================================================== *)

Module PyDate.

Definition digit (c : ascii) : option Z :=
  let n := nat_of_ascii c in
  if (48 <=? n)%nat && (n <=? 57)%nat then Some (Z.of_nat (n - 48)) else None.

(** [%Y]: exactly four digits. *)
Definition take_year (s : string) : option (Z * string) :=
  match s with
  | String a (String b (String c (String d rest))) =>
      match digit a, digit b, digit c, digit d with
      | Some x, Some y, Some z, Some w =>
          Some (1000 * x + 100 * y + 10 * z + w, rest)%Z
      | _, _, _, _ => None
      end
  | _ => None
  end.

(** [%m]: the alternatives [1[0-2]], [0[1-9]], [[1-9]], in this order. *)
Definition take_month (s : string) : option (Z * string) :=
  match s with
  | String a rest1 =>
      match digit a with
      | Some x =>
          let two :=
            match rest1 with
            | String b rest2 =>
                match digit b with
                | Some y =>
                    if ((x =? 1) && (y <=? 2) || (x =? 0) && (1 <=? y))%Z
                    then Some (10 * x + y, rest2)%Z else None
                | None => None
                end
            | EmptyString => None
            end in
          match two with
          | Some r => Some r
          | None => if (1 <=? x)%Z then Some (x, rest1) else None
          end
      | None => None
      end
  | EmptyString => None
  end.

(** [%d]: the alternatives [3[0-1]], [[1-2]\d], [0[1-9]], [[1-9]],
    [ [1-9]], in this order. *)
Definition take_day (s : string) : option (Z * string) :=
  match s with
  | String a rest1 =>
      match digit a with
      | Some x =>
          let two :=
            match rest1 with
            | String b rest2 =>
                match digit b with
                | Some y =>
                    if ((x =? 3) && (y <=? 1)
                        || (1 <=? x) && (x <=? 2)
                        || (x =? 0) && (1 <=? y))%Z
                    then Some (10 * x + y, rest2)%Z else None
                | None => None
                end
            | EmptyString => None
            end in
          match two with
          | Some r => Some r
          | None => if (1 <=? x)%Z then Some (x, rest1) else None
          end
      | None =>
          if Ascii.eqb a " "%char then
            match rest1 with
            | String b rest2 =>
                match digit b with
                | Some y => if (1 <=? y)%Z then Some (y, rest2) else None
                | None => None
                end
            | EmptyString => None
            end
          else None
      end
  | EmptyString => None
  end.

Definition take_dash (s : string) : option string :=
  match s with
  | String c rest => if Ascii.eqb c "-"%char then Some rest else None
  | EmptyString => None
  end.

Definition is_leap (y : Z) : bool :=
  ((y mod 4 =? 0) && (negb (y mod 100 =? 0) || (y mod 400 =? 0)))%Z.

Definition days_in_month (y m : Z) : Z :=
  if (m =? 2)%Z then (if is_leap y then 29 else 28)%Z
  else if ((m =? 4) || (m =? 6) || (m =? 9) || (m =? 11))%Z then 30%Z
  else 31%Z.

(** Modelled from the spec: [ae_consts.COMMON_DATE_FORMAT] is declared
    outside this file; the spec and the help texts of [-s], [-n] and
    [-j] give it as [YYYY-MM-DD], that is ['%Y-%m-%d'].  The function
    follows CPython's [_strptime] for that format on ASCII input: the
    regular expression of the format must match, nothing may remain
    after it, and the fields must make a date ([year >= 1], the day
    within the month).  [None] stands for the [ValueError]. *)
Definition strptime (s : string) : option (Z * Z * Z) :=
  match take_year s with
  | Some (y, s1) =>
      match take_dash s1 with
      | Some s2 =>
          match take_month s2 with
          | Some (m, s3) =>
              match take_dash s3 with
              | Some s4 =>
                  match take_day s4 with
                  | Some (d, EmptyString) =>
                      if ((1 <=? y) && (d <=? days_in_month y m))%Z
                      then Some (y, m, d) else None
                  | _ => None
                  end
              | None => None
              end
          | None => None
          end
      | None => None
      end
  | None => None
  end.

End PyDate.

(* ===================================================================== *)
(** ** Python values, dictionaries and the frames of a trading history *)
(* ===================================================================== *)

Inductive pyval :=
| PNone
| PBool (b : bool)
| PInt (z : Z)
| PFloat (f : float)
| PStr (s : string)
| PList (l : list pyval)
| PDict (d : gmap string pyval).

Abbreviation pydict := (gmap string pyval).

(** Truth value of a Python object in [if v:]. *)
Definition truth (v : pyval) : bool :=
  match v with
  | PNone => false
  | PBool b => b
  | PInt z => negb (z =? 0)%Z
  | PFloat f => negb (PrimFloat.eqb f 0)
  | PStr s => PyStr.truthy s
  | PList l => match l with [] => false | _ => true end
  | PDict d => negb (bool_decide (d = ∅))
  end.

(** [d.get(k, default)] *)
Definition dict_get (d : pydict) (k : string) (default : pyval) : pyval :=
  match d !! k with Some v => v | None => default end.

(** [v == s] for a string literal [s]. *)
Definition is_str (v : pyval) (s : string) : bool :=
  match v with PStr s' => String.eqb s' s | _ => false end.

(** One period of a trading history.  A frame is taken to carry the
    columns the function reads: [date], [minute], [close] and
    [balance]; the time stamps are kept as the text [str.format] gives. *)
Record row := Row {
  r_date : string;
  r_minute : string;
  r_close : float;
  r_balance : float
}.

(** A value of the dictionary [algo_obj.get_history_dataset()] returns:
    a pandas frame (the only kind of value with a [to_json] attribute)
    or any other object. *)
Inductive hval :=
| HFrame (rows : list row)
| HPlain (v : pyval).

(* ===================================================================== *)
(** ** The command line, the constants and the collaborators *)
(* ===================================================================== *)

(** [args = parser.parse_args()], restricted to the destinations the
    function reads.  An option that was not given is [None]; a
    [store_true] flag is a [bool]. *)
Record args := Args {
  a_ticker : string;                      (* -t, required *)
  a_algo_extract_loc : option string;     (* -e *)
  a_history_json_file : option string;    (* -f *)
  a_backtest_loc : option string;         (* -b *)
  a_run_on_engine : bool;                 (* -w *)
  a_s3_access_key : option string;        (* -k *)
  a_s3_secret_key : option string;        (* -K *)
  a_s3_address : option string;           (* -a *)
  a_s3_secure : option string;            (* -Z *)
  a_start_date : option string;           (* -s *)
  a_end_date : option string;             (* -n *)
  a_s3_region_name : option string;       (* -G *)
  a_run_algo_in_file : option string;     (* -g *)
  a_algo_history_loc : option string;     (* -p *)
  a_algo_report_loc : option string;      (* -o *)
  a_redis_address : option string;        (* -r *)
  a_redis_db : option string;             (* -m *)
  a_redis_expire : option string;         (* -x *)
  a_config_file : option string;          (* -c *)
  a_verbose_algo : bool;                  (* -v *)
  a_verbose_processor : bool;             (* -P *)
  a_verbose_indicators : bool;            (* -I *)
  a_inspect_datasets : bool;              (* -V *)
  a_run_this_date : option string;        (* -j *)
  a_debug : bool                          (* -d *)
}.

(** The constants of [analysis_engine.consts] the function reads. *)
Record consts := Consts {
  TICKER : string;
  SUCCESS : Z;
  S3_ACCESS_KEY : pyval;
  S3_SECRET_KEY : pyval;
  S3_REGION_NAME : pyval;
  S3_ADDRESS : pyval;
  S3_BUCKET : pyval;
  S3_SECURE : pyval;
  REDIS_ADDRESS : pyval;
  REDIS_PASSWORD : pyval;
  REDIS_DB : pyval;
  REDIS_EXPIRE : pyval
}.

(** The connection settings after the command line has been applied. *)
Record conn := Conn {
  s3_access_key : pyval;
  s3_secret_key : pyval;
  s3_region_name : pyval;
  s3_address : pyval;
  s3_bucket_name : pyval;
  s3_secure : pyval;
  redis_address : pyval;
  redis_password : pyval;
  redis_db : pyval;
  redis_expire : pyval
}.

(** The four location fields of one dataset channel
    ([load_from_s3_bucket], [load_from_s3_key], [load_from_redis_key],
    [load_from_file], and the same for history, report and extract). *)
Record channel := Channel {
  ch_s3_bucket : option string;
  ch_s3_key : option string;
  ch_redis_key : option string;
  ch_file : option string
}.

Definition no_channel : channel := Channel None None None None.

(** The envelope an algorithm run returns: [status], [err] and, of
    [rec], the two keys the function reads; [rec_history] is the list
    under ['history'] when the key is there. *)
Record envelope := Envelope {
  status : Z;
  err : pyval;
  rec_task_id : option string;
  rec_history : option (list pyval)
}.

(** The keyword arguments of [run_custom_algo.run_custom_algo] that
    depend on the inputs (the constant ones are left out). *)
Record custom_call := CustomCall {
  cc_mod_path : pyval;
  cc_ticker : pyval;
  cc_balance : pyval;
  cc_commission : pyval;
  cc_name : pyval;
  cc_start_date : option string;
  cc_end_date : option string;
  cc_auto_fill : pyval;
  cc_config_dict : pydict;
  cc_load : channel;
  cc_report : channel;
  cc_history : channel;
  cc_extract : channel;
  cc_conn : conn;
  cc_run_on_engine : bool;
  cc_timeseries : pyval;
  cc_trade_strategy : pyval;
  cc_verbose : bool
}.

(** [ExampleCustomAlgo(ticker=..., config_dict=...)] and the arguments of
    [run_algo.run_algo]. *)
Record algo_call := AlgoCall {
  ac_algo_ticker : pyval;
  ac_algo_config : pydict;
  ac_ticker : string;
  ac_start_date : option string;
  ac_end_date : option string;
  ac_raise_on_err : bool
}.

(** The keyword arguments of [plot_trading_history.plot_trading_history]. *)
Record plot_call := PlotCall {
  pc_title : string;
  pc_df : list row;
  pc_red : option string;
  pc_blue : option string;
  pc_green : option string;
  pc_orange : option string;
  pc_date_col : string;
  pc_date_format : string;
  pc_xlabel : string;
  pc_ylabel : string;
  pc_df_filter : list bool;
  pc_show_plot : bool;
  pc_dropna_for_all : bool
}.

(** Everything outside the function. *)
Record world := World {
  path_exists : string -> bool;            (* os.path.exists on a path *)
  fd_exists : Z -> bool;                   (* os.path.exists on an int *)
  load_json : string -> option pyval;      (* json.loads(open(f).read()) *)
  run_custom_algo : custom_call -> envelope;
  run_algo : algo_call -> envelope;
  get_history_dataset : algo_call -> gmap string hval;
  to_json : string -> list row -> bool;    (* false: the write raised *)
  str_of : hval -> string                  (* '{}'.format(v) *)
}.

(* ===================================================================== *)
(** ** Outcomes, the trace and the monad *)
(* ===================================================================== *)

Inductive exn :=
| UnboundLocalError (name : string)
| KeyError (key : string)
| IndexError
| TypeError
| AttributeError
| LoadError            (* open / read / json.loads raised *)
| WriteError.          (* to_json raised *)

(** How a call of the function ends. *)
Inductive outcome :=
| Returned
| Exited (code : Z)
| Raised (e : exn).

(** The exit status of the interpreter when the function is the whole
    program, as under [__main__]. *)
Definition exit_code (o : outcome) : Z :=
  match o with
  | Returned => 0
  | Exited c => c
  | Raised _ => 1
  end.

Inductive chan_name := Backtest | History | Report | Extract.

(** What a [log.error] reports. *)
Inductive failure :=
| BadStartDate
| BadEndDate
| MissingAlgoModule
| MissingConfigFile
| MissingAlgoModuleFromConfig
| InvalidLocation (c : chan_name)
| CustomAlgoFailed
| CustomAlgoNotSuccess      (* the error line of the debug branch *)
| BacktestFailed.

(** The observable calls, in the order they happen ([log.info] and
    [log.debug] lines are not recorded). *)
Inductive event :=
| LogError (f : failure) (detail : pyval)
| RunCustomAlgo (c : custom_call)
| RunAlgo (c : algo_call)
| ToJson (path : string) (rows : list row)
| Plot (p : plot_call).

Inductive step (A : Type) :=
| Next (a : A)
| Stop (o : outcome).
Arguments Next {A} a.
Arguments Stop {A} o.

(** A computation yields its next value or stops, and lists the calls it
    made. *)
Definition M (A : Type) : Type := (step A * list event)%type.

Definition ret {A} (a : A) : M A := (Next a, []).
Definition bind {A B} (k : A -> M B) (m : M A) : M B :=
  match m with
  | (Next a, l) => match k a with (r, l') => (r, (l ++ l')%list) end
  | (Stop o, l) => (Stop o, l)
  end.
Definition emit (e : event) : M unit := (Next tt, [e]).
Definition stop {A} (o : outcome) : M A := (Stop o, []).
Definition sys_exit {A} (code : Z) : M A := stop (Exited code).
Definition raise {A} (e : exn) : M A := stop (Raised e).

#[export] Instance M_ret : MRet M := @ret.
#[export] Instance M_bind : MBind M := @bind.

(** The outcome and the trace of a whole run: falling off the end of
    the function is a plain return. *)
Definition run (m : M unit) : outcome * list event :=
  match m with
  | (Next _, t) => (Returned, t)
  | (Stop o, t) => (o, t)
  end.

(* ===================================================================== *)
(** ** [build_example_algo_config] *)
(* ===================================================================== *)

Definition willr_close_path : string :=
  "analysis_engine/mocks/example_indicator_williamsr.py".
Definition willr_open_path : string :=
  "analysis_engine/mocks/example_indicator_williamsr_open.py".

(** One entry of ['indicators']; [value_key] is ['willr_value'] or
    ['willr_open_value'], and only the first entry has a ['verbose'] key. *)
Definition willr_indicator (name module_path value_key : string)
    (num_points buy_below sell_above : Z) (with_verbose : bool) : pyval :=
  let d : pydict :=
    <["name" := PStr name]> (
    <["module_path" := PStr module_path]> (
    <["category" := PStr "technical"]> (
    <["type" := PStr "momentum"]> (
    <["uses_data" := PStr "minute"]> (
    <["high" := PInt 0]> (
    <["low" := PInt 0]> (
    <["close" := PInt 0]> (
    <["open" := PInt 0]> (
    <[value_key := PInt 0]> (
    <["num_points" := PInt num_points]> (
    <["buy_below" := PInt buy_below]> (
    <["sell_above" := PInt sell_above]> (
    <["is_buy" := PBool false]> (
    <["is_sell" := PBool false]> ∅)))))))))))))) in
  PDict (if with_verbose then <["verbose" := PBool false]> d else d).

Definition example_rules : pyval :=
  PDict (<["confidence" := PInt 75]> (<["min_indicators" := PInt 3]> ∅)).

Definition build_example_algo_config (ticker timeseries : string) : pydict :=
  <["name" := PStr "backtest"]> (
  <["timeseries" := PStr timeseries]> (
  <["trade_horizon" := PInt 5]> (
  <["num_owned" := PInt 10]> (
  <["buy_shares" := PInt 10]> (
  <["balance" := PFloat 10000.0]> (
  <["commission" := PFloat 6.0]> (
  <["ticker" := PStr ticker]> (
  <["algo_module_path" := PNone]> (
  <["algo_version" := PInt 1]> (
  <["verbose" := PBool false]> (
  <["verbose_processor" := PBool false]> (
  <["verbose_indicators" := PBool false]> (
  <["verbose_trading" := PBool false]> (
  <["inspect_datasets" := PBool false]> (
  <["positions" :=
      PDict {[ ticker :=
        PDict (<["shares" := PInt 10]> (
               <["buys" := PList []]> (
               <["sells" := PList []]> ∅))) ]}]> (
  <["buy_rules" := example_rules]> (
  <["sell_rules" := example_rules]> (
  <["indicators" := PList [
      willr_indicator "willr_-70_-30" willr_close_path "willr_value"
        80 (-70) (-30) true;
      willr_indicator "willr_-80_-20" willr_close_path "willr_value"
        30 (-80) (-20) false;
      willr_indicator "willr_-90_-10" willr_close_path "willr_value"
        60 (-90) (-10) false;
      willr_indicator "willr_open_-80_-20" willr_open_path "willr_open_value"
        80 (-80) (-20) false ]]> (
  <["slack" := PDict {[ "webhook" := PNone ]}]> ∅))))))))))))))))))).

(* ===================================================================== *)
(** ** [run_backtest_and_plot_history] *)
(* ===================================================================== *)

(** The values the function starts from. *)
Definition use_balance : float := 10000.0.
Definition use_commission : float := 6.0.
Definition close_floor : float := 0.01.

(** [if args.x: x = args.x] *)
Definition override (o : option string) (default : pyval) : pyval :=
  match o with
  | Some s => if PyStr.truthy s then PStr s else default
  | None => default
  end.

(** [config_dict[k]] *)
Definition getitem (d : pydict) (k : string) : M pyval :=
  match d !! k with
  | Some v => mret v
  | None => raise (KeyError k)
  end.

(** [l[-k]] *)
Definition item (l : list string) (k : nat) : M string :=
  match PyStr.from_end l k with
  | Some x => mret x
  | None => raise IndexError
  end.

(** Reading a local that is only bound under [if args.x:]. *)
Definition local (name : string) (arg : option string) : M string :=
  match arg with
  | Some s => if PyStr.truthy s then mret s else raise (UnboundLocalError name)
  | None => raise (UnboundLocalError name)
  end.

(** The test that guards each location (lines 841-843 and the like). *)
Definition unsupported (loc : string) : bool :=
  negb (PyStr.contains "file:/" loc)
  && negb (PyStr.contains "s3://" loc)
  && negb (PyStr.contains "redis://" loc).

(** The [if]/[elif] chain that follows it (lines 853-859). *)
Definition parse_location (loc : string) : M channel :=
  if PyStr.contains "s3://" loc then
    b ← item (PyStr.split "/" loc) 2;
    k ← item (PyStr.split "/" loc) 1;
    mret (Channel (Some b) (Some k) None None)
  else if PyStr.contains "redis://" loc then
    k ← item (PyStr.split "/" loc) 1;
    mret (Channel None None (Some k) None)
  else if PyStr.contains "file:/" loc then
    p ← item (PyStr.split ":" loc) 1;
    mret (Channel None None None (Some p))
  else mret no_channel.

(** One of the blocks [if args.<x>_loc: ...] of lines 839-933 and
    1094-1121. *)
Definition resolve_channel (c : chan_name) (arg : option string) : M channel :=
  match arg with
  | Some loc =>
      if PyStr.truthy loc then
        if unsupported loc then
          emit (LogError (InvalidLocation c) (PStr loc));; sys_exit 1
        else parse_location loc
      else mret no_channel
  | None => mret no_channel
  end.

(** The request [build_publish_request.build_publish_request] returns,
    as the spec describes it. *)
Record publish_request := PublishRequest {
  pr_ticker : string;
  pr_label : string;
  pr_output_file : option string;
  pr_s3_bucket : option string;
  pr_s3_key : option string;
  pr_redis_key : option string;
  pr_file_enabled : bool;
  pr_s3_enabled : bool;
  pr_redis_enabled : bool;
  pr_redis_address : pyval;
  pr_redis_db : pyval;
  pr_redis_password : pyval;
  pr_redis_expire : pyval;
  pr_s3_address : pyval;
  pr_s3_access_key : pyval;
  pr_s3_secret_key : pyval;
  pr_s3_region_name : pyval;
  pr_s3_secure : pyval;
  pr_verbose : bool
}.

(** Modelled from the spec: [build_publish_request] is defined in
    [analysis_engine/build_publish_request.py], which is not part of this
    file.  Per the spec's RequestBuilder: the ticker, the label and the
    connection parameters are copied into a new request; the fields of
    the channel whose location is present are populated and its enabled
    flag is set; the other channels stay null with their flag false; and
    with no location at all every flag is false. *)
Definition build_publish_request (ticker : string) (ch : channel)
    (cn : conn) (verbose : bool) (label : string) : publish_request :=
  {| pr_ticker := ticker;
     pr_label := label;
     pr_output_file := ch_file ch;
     pr_s3_bucket := ch_s3_bucket ch;
     pr_s3_key := ch_s3_key ch;
     pr_redis_key := ch_redis_key ch;
     pr_file_enabled := bool_decide (is_Some (ch_file ch));
     pr_s3_enabled :=
       bool_decide (is_Some (ch_s3_bucket ch))
       && bool_decide (is_Some (ch_s3_key ch));
     pr_redis_enabled := bool_decide (is_Some (ch_redis_key ch));
     pr_redis_address := redis_address cn;
     pr_redis_db := redis_db cn;
     pr_redis_password := redis_password cn;
     pr_redis_expire := redis_expire cn;
     pr_s3_address := s3_address cn;
     pr_s3_access_key := s3_access_key cn;
     pr_s3_secret_key := s3_secret_key cn;
     pr_s3_region_name := s3_region_name cn;
     pr_s3_secure := s3_secure cn;
     pr_verbose := verbose |}.

(** [load_config['output_file'] = v] and the other item assignments of
    lines 1141-1149. *)
Definition set_output_file (v : option string) (r : publish_request) :=
  PublishRequest (pr_ticker r) (pr_label r) v (pr_s3_bucket r) (pr_s3_key r)
    (pr_redis_key r) (pr_file_enabled r) (pr_s3_enabled r)
    (pr_redis_enabled r) (pr_redis_address r) (pr_redis_db r)
    (pr_redis_password r) (pr_redis_expire r) (pr_s3_address r)
    (pr_s3_access_key r) (pr_s3_secret_key r) (pr_s3_region_name r)
    (pr_s3_secure r) (pr_verbose r).
Definition set_redis_key (v : option string) (r : publish_request) :=
  PublishRequest (pr_ticker r) (pr_label r) (pr_output_file r)
    (pr_s3_bucket r) (pr_s3_key r) v (pr_file_enabled r) (pr_s3_enabled r)
    (pr_redis_enabled r) (pr_redis_address r) (pr_redis_db r)
    (pr_redis_password r) (pr_redis_expire r) (pr_s3_address r)
    (pr_s3_access_key r) (pr_s3_secret_key r) (pr_s3_region_name r)
    (pr_s3_secure r) (pr_verbose r).
Definition set_redis_enabled (v : bool) (r : publish_request) :=
  PublishRequest (pr_ticker r) (pr_label r) (pr_output_file r)
    (pr_s3_bucket r) (pr_s3_key r) (pr_redis_key r) (pr_file_enabled r)
    (pr_s3_enabled r) v (pr_redis_address r) (pr_redis_db r)
    (pr_redis_password r) (pr_redis_expire r) (pr_s3_address r)
    (pr_s3_access_key r) (pr_s3_secret_key r) (pr_s3_region_name r)
    (pr_s3_secure r) (pr_verbose r).
Definition set_s3_bucket (v : option string) (r : publish_request) :=
  PublishRequest (pr_ticker r) (pr_label r) (pr_output_file r)
    v (pr_s3_key r) (pr_redis_key r) (pr_file_enabled r) (pr_s3_enabled r)
    (pr_redis_enabled r) (pr_redis_address r) (pr_redis_db r)
    (pr_redis_password r) (pr_redis_expire r) (pr_s3_address r)
    (pr_s3_access_key r) (pr_s3_secret_key r) (pr_s3_region_name r)
    (pr_s3_secure r) (pr_verbose r).
Definition set_s3_key (v : option string) (r : publish_request) :=
  PublishRequest (pr_ticker r) (pr_label r) (pr_output_file r)
    (pr_s3_bucket r) v (pr_redis_key r) (pr_file_enabled r) (pr_s3_enabled r)
    (pr_redis_enabled r) (pr_redis_address r) (pr_redis_db r)
    (pr_redis_password r) (pr_redis_expire r) (pr_s3_address r)
    (pr_s3_access_key r) (pr_s3_secret_key r) (pr_s3_region_name r)
    (pr_s3_secure r) (pr_verbose r).
Definition set_s3_enabled (v : bool) (r : publish_request) :=
  PublishRequest (pr_ticker r) (pr_label r) (pr_output_file r)
    (pr_s3_bucket r) (pr_s3_key r) (pr_redis_key r) (pr_file_enabled r)
    v (pr_redis_enabled r) (pr_redis_address r) (pr_redis_db r)
    (pr_redis_password r) (pr_redis_expire r) (pr_s3_address r)
    (pr_s3_access_key r) (pr_s3_secret_key r) (pr_s3_region_name r)
    (pr_s3_secure r) (pr_verbose r).

Section Program.

Variable ae : consts.
Variable w : world.

(** Lines 722-737. *)
Definition resolve_conn (a : args) : conn :=
  {| s3_access_key := override (a_s3_access_key a) (S3_ACCESS_KEY ae);
     s3_secret_key := override (a_s3_secret_key a) (S3_SECRET_KEY ae);
     s3_region_name := override (a_s3_region_name a) (S3_REGION_NAME ae);
     s3_address := override (a_s3_address a) (S3_ADDRESS ae);
     s3_bucket_name := S3_BUCKET ae;
     s3_secure := override (a_s3_secure a) (S3_SECURE ae);
     redis_address := override (a_redis_address a) (REDIS_ADDRESS ae);
     redis_password := REDIS_PASSWORD ae;
     redis_db := override (a_redis_db a) (REDIS_DB ae);
     redis_expire := override (a_redis_expire a) (REDIS_EXPIRE ae) |}.

(** Lines 669 and 740-741. *)
Definition resolve_ticker (a : args) : string :=
  if PyStr.truthy (a_ticker a) then PyStr.upper (a_ticker a) else TICKER ae.

(** Lines 738-739 and 752-753: [None] unless the option is given. *)
Definition keep_given (o : option string) : option string :=
  if PyStr.given o then o else None.

(** Lines 754-771 and 772-789. *)
Definition check_date (f : failure) (o : option string) : M (option string) :=
  match o with
  | Some s =>
      if PyStr.truthy s then
        match PyDate.strptime s with
        | Some _ => mret (Some (s ++ " 00:00:00"))
        | None => emit (LogError f (PStr s));; sys_exit 1
        end
      else mret None
  | None => mret None
  end.

(** [os.path.exists(v)]: a path, a file descriptor, or a [TypeError]. *)
Definition os_path_exists (v : pyval) : M bool :=
  match v with
  | PStr s => mret (path_exists w s)
  | PInt z => mret (fd_exists w z)
  | PBool b => mret (fd_exists w (if b then 1 else 0)%Z)
  | _ => raise TypeError
  end.

(** Lines 790-797. *)
Definition algo_module_from_args (a : args) : M pyval :=
  match a_run_algo_in_file a with
  | Some f =>
      if PyStr.truthy f then
        if negb (path_exists w f) then
          emit (LogError MissingAlgoModule (PStr f));; sys_exit 1
        else mret (PStr f)
      else mret PNone
  | None => mret PNone
  end.

(** Lines 798-813: the config file replaces [config_dict] as a whole. *)
Definition apply_config_file (a : args) (algo_mod_path : pyval)
    (config_dict : pydict) : M (pyval * pydict) :=
  match a_config_file a with
  | Some use_config_file =>
      if PyStr.truthy use_config_file then
        if negb (path_exists w use_config_file) then
          emit (LogError MissingConfigFile (PStr use_config_file));;
          sys_exit 1
        else
          match load_json w use_config_file with
          | None => raise LoadError
          | Some (PDict d) =>
              let algo_mod_path := dict_get d "algo_path" algo_mod_path in
              found ← os_path_exists algo_mod_path;
              if negb found then
                emit (LogError MissingAlgoModuleFromConfig algo_mod_path);;
                sys_exit 1
              else mret (algo_mod_path, d)
          | Some _ => raise AttributeError
          end
      else mret (algo_mod_path, config_dict)
  | None => mret (algo_mod_path, config_dict)
  end.

(** Lines 819-832, "Finalize the algo config". *)
Definition finalize_config (a : args) (ticker : string)
    (config_dict : pydict) : pydict :=
  let c := <["ticker" := PStr ticker]> config_dict in
  let c := <["balance" := PFloat use_balance]> c in
  let c := <["commission" := PFloat use_commission]> c in
  let c := if a_verbose_algo a then <["verbose" := PBool true]> c else c in
  let c := if a_verbose_processor a
           then <["verbose_processor" := PBool true]> c else c in
  let c := if a_verbose_indicators a
           then <["verbose_indicators" := PBool true]> c else c in
  let c := if a_inspect_datasets a
           then <["inspect_datasets" := PBool true]> c else c in
  match keep_given (a_run_this_date a) with
  | Some d => <["run_this_date" := PStr d]> c
  | None => c
  end.

(** Lines 839-1030: the four locations, then the keyword arguments of
    [run_custom_algo]. *)
Definition custom_call_of (a : args) (cn : conn)
    (use_start_date use_end_date : option string)
    (algo_mod_path : pyval) (config_dict : pydict) : M custom_call :=
  load ← resolve_channel Backtest (a_backtest_loc a);
  history ← resolve_channel History (a_algo_history_loc a);
  report ← resolve_channel Report (a_algo_report_loc a);
  extract ← resolve_channel Extract (a_algo_extract_loc a);
  let run_on_engine := a_run_on_engine a in
  let use_name := dict_get config_dict "name" (PStr "missing-algo-name") in
  let auto_fill := dict_get config_dict "auto_fill" (PBool true) in
  let timeseries := dict_get config_dict "timeseries" (PStr "minute") in
  let trade_strategy :=
    dict_get config_dict "trade_strategy" (PStr "count") in
  arg_ticker ← getitem config_dict "ticker";
  arg_balance ← getitem config_dict "balance";
  arg_commission ← getitem config_dict "balance";          (* line 957 *)
  mret {| cc_mod_path := algo_mod_path;
          cc_ticker := arg_ticker;
          cc_balance := arg_balance;
          cc_commission := arg_commission;
          cc_name := use_name;
          cc_start_date := use_start_date;
          cc_end_date := use_end_date;
          cc_auto_fill := auto_fill;
          cc_config_dict := config_dict;
          cc_load := load;
          cc_report := report;
          cc_history := history;
          cc_extract := extract;
          cc_conn := cn;
          cc_run_on_engine := run_on_engine;
          cc_timeseries := timeseries;
          cc_trade_strategy := trade_strategy;
          cc_verbose := a_verbose_algo a |}.

(** Lines 1032-1090: the labels (the three [..._loc] locals are bound
    only when the option was given), then the status of the envelope. *)
Definition after_custom (a : args) (algo_res : envelope) : M unit :=
  _ ← local "algo_extract_loc" (a_algo_extract_loc a);
  _ ← local "algo_history_loc" (a_algo_history_loc a);
  _ ← local "algo_report_loc" (a_algo_report_loc a);
  if a_debug a then
    if (status algo_res =? SUCCESS ae)%Z then mret tt
    else emit (LogError CustomAlgoNotSuccess (err algo_res))
  else
    if (status algo_res =? SUCCESS ae)%Z then mret tt
    else emit (LogError CustomAlgoFailed (err algo_res));; sys_exit 1.

(** Lines 837-1091, the body of [if algo_mod_path:]. *)
Definition run_custom (a : args) (cn : conn)
    (use_start_date use_end_date : option string)
    (algo_mod_path : pyval) (config_dict : pydict) : M unit :=
  call ← custom_call_of a cn use_start_date use_end_date
           algo_mod_path config_dict;
  emit (RunCustomAlgo call);;
  after_custom a (run_custom_algo w call).

(** Lines 1094-1149: the load request of the backtest dataset;
    [None] when [-b] is not given ([load_config] stays [None]). *)
Definition resolve_load_config (a : args) (ticker : string) (cn : conn)
    : M (option publish_request) :=
  match a_backtest_loc a with
  | Some backtest_loc =>
      if PyStr.truthy backtest_loc then
        load ← resolve_channel Backtest (Some backtest_loc);
        let load_config :=
          build_publish_request ticker load cn (a_debug a)
            ("load-" ++ backtest_loc) in
        let load_config :=
          if PyStr.given (ch_file load)
          then set_output_file (ch_file load) load_config
          else load_config in
        let load_config :=
          if PyStr.given (ch_redis_key load)
          then set_redis_enabled true
                 (set_redis_key (ch_redis_key load) load_config)
          else load_config in
        let load_config :=
          if PyStr.given (ch_s3_bucket load) && PyStr.given (ch_s3_key load)
          then set_s3_enabled true
                 (set_s3_key (ch_s3_key load)
                    (set_s3_bucket (ch_s3_bucket load) load_config))
          else load_config in
        mret (Some load_config)
      else mret None
  | None => mret None
  end.

(** [history_df[df_filter]] is what the plot keeps: the mask of
    line 1214, one truth value per row. *)
Definition df_filter (rows : list row) : list bool :=
  map (fun r => PrimFloat.ltb close_floor (r_close r)) rows.

(** ['{}'.format(v)] for a value of the history dictionary. *)
Definition fmt (v : hval) : string :=
  match v with
  | HPlain (PStr s) => s
  | _ => str_of w v
  end.

(** [trading_history_dict[k]] *)
Definition hgetitem (d : gmap string hval) (k : string) : M hval :=
  match d !! k with
  | Some v => mret v
  | None => raise (KeyError k)
  end.

(** [history_df['date'].iloc[0]] and [.iloc[-1]] *)
Definition iloc_first (rows : list row) : M string :=
  match rows with
  | r :: _ => mret (r_date r)
  | [] => raise IndexError
  end.
Definition iloc_last (rows : list row) : M string :=
  match PyStr.from_end rows 1 with
  | Some r => mret (r_date r)
  | None => raise IndexError
  end.

(** Lines 1185-1192: nothing catches what [to_json] raises. *)
Definition save_history (history_json_file : option string)
    (rows : list row) : M unit :=
  match history_json_file with
  | Some f =>
      emit (ToJson f rows);;
      if to_json w f rows then mret tt else raise WriteError
  | None => mret tt
  end.

(** Lines 1194-1243 (the loop under [if debug:] only logs). *)
Definition plot_history (trading_history_dict : gmap string hval)
    (ticker : string) (config_dict : pydict) (rows : list row) : M unit :=
  first_date ← iloc_first rows;
  end_date ← iloc_last rows;
  algo_name ← hgetitem trading_history_dict "algo_name";
  let title :=
    "Trading History " ++ ticker ++ " for Algo " ++ fmt algo_name
    ++ PyStr.nl ++ "Backtest dates from " ++ first_date
    ++ " to " ++ end_date in
  timeseries ← getitem config_dict "timeseries";
  let minute := is_str timeseries "minute" in
  let use_xcol := if minute then "minute" else "date" in
  let use_as_date_format :=
    if minute then "%d %H:%M:%S" ++ PyStr.nl ++ "%b"
    else "%d" ++ PyStr.nl ++ "%b" in
  let xlabel := "Dates vs " ++ fmt algo_name ++ " values" in
  let ylabel := "Algo " ++ fmt algo_name ++ PyStr.nl ++ "values" in
  emit (Plot {| pc_title := title;
                pc_df := rows;
                pc_red := Some "close";
                pc_blue := Some "balance";
                pc_green := None;
                pc_orange := None;
                pc_date_col := use_xcol;
                pc_date_format := use_as_date_format;
                pc_xlabel := xlabel;
                pc_ylabel := ylabel;
                pc_df_filter := df_filter rows;
                pc_show_plot := true;
                pc_dropna_for_all := true |}).

(** Lines 1180-1243: from the history of the run to the plot. *)
Definition present (call : algo_call) (ticker : string)
    (config_dict : pydict) (history_json_file : option string) : M unit :=
  let trading_history_dict := get_history_dataset w call in
  history_df ← hgetitem trading_history_dict ticker;
  match history_df with
  | HPlain _ => stop Returned          (* lines 1182-1183: no to_json *)
  | HFrame rows =>
      save_history history_json_file rows;;
      plot_history trading_history_dict ticker config_dict rows
  end.

(** Lines 1154-1163: [ExampleCustomAlgo(...)] and the arguments of
    [run_algo]. *)
Definition algo_call_of (ticker : string)
    (use_start_date use_end_date : option string)
    (config_dict : pydict) : M algo_call :=
  arg_ticker ← getitem config_dict "ticker";
  mret {| ac_algo_ticker := arg_ticker;
          ac_algo_config := config_dict;
          ac_ticker := ticker;
          ac_start_date := use_start_date;
          ac_end_date := use_end_date;
          ac_raise_on_err := true |}.

(** Lines 1165-1243: the status of the envelope, then [present]. *)
Definition after_default (call : algo_call) (ticker : string)
    (config_dict : pydict) (history_json_file : option string) : M unit :=
  let algo_res := run_algo w call in
  if negb (status algo_res =? SUCCESS ae)%Z then
    emit (LogError BacktestFailed (err algo_res));;
    stop Returned                                   (* line 1172 *)
  else present call ticker config_dict history_json_file.

(** Lines 1154-1243. *)
Definition run_default (ticker : string)
    (use_start_date use_end_date : option string)
    (config_dict : pydict) (history_json_file : option string) : M unit :=
  call ← algo_call_of ticker use_start_date use_end_date config_dict;
  emit (RunAlgo call);;
  after_default call ticker config_dict history_json_file.

(** The locals the function has when it reaches line 834. *)
Record settings := Settings {
  st_ticker : string;
  st_conn : conn;
  st_history_json_file : option string;
  st_start_date : option string;
  st_end_date : option string;
  st_algo_mod_path : pyval;
  st_config_dict : pydict
}.

(** Lines 667-832. *)
Definition resolve_settings (a : args) (config_dict : pydict) : M settings :=
  let cn := resolve_conn a in
  let history_json_file := keep_given (a_history_json_file a) in
  let ticker := resolve_ticker a in
  use_start_date ← check_date BadStartDate (a_start_date a);
  use_end_date ← check_date BadEndDate (a_end_date a);
  algo_mod_path ← algo_module_from_args a;
  '(algo_mod_path, config_dict) ←
    apply_config_file a algo_mod_path config_dict;
  mret {| st_ticker := ticker;
          st_conn := cn;
          st_history_json_file := history_json_file;
          st_start_date := use_start_date;
          st_end_date := use_end_date;
          st_algo_mod_path := algo_mod_path;
          st_config_dict := finalize_config a ticker config_dict |}.

(** Lines 837-1092: [if algo_mod_path:]. *)
Definition custom_stage (a : args) (st : settings) : M unit :=
  if truth (st_algo_mod_path st) then
    run_custom a (st_conn st) (st_start_date st) (st_end_date st)
      (st_algo_mod_path st) (st_config_dict st)
  else mret tt.

(** Lines 1094-1243: the load request, which no later line reads, and
    the run of the example algorithm. *)
Definition default_stage (a : args) (st : settings) : M unit :=
  _ ← resolve_load_config a (st_ticker st) (st_conn st);
  run_default (st_ticker st) (st_start_date st) (st_end_date st)
    (st_config_dict st) (st_history_json_file st).

(** Lines 638-1243: the function from the parsed options [a] on.
    [parser.parse_args()] (line 637) has returned them; what argparse
    does on a usage error or on [-h] comes before and is not embedded. *)
Definition run_backtest_and_plot_history (a : args) (config_dict : pydict)
    : M unit :=
  st ← resolve_settings a config_dict;
  custom_stage a st;;
  default_stage a st.

(** [start_backtest_with_plot_history], the entry point. *)
Definition start_backtest_with_plot_history (a : args) : M unit :=
  run_backtest_and_plot_history a (build_example_algo_config "SPY" "minute").

End Program.

(* ===================================================================== *)
(** ** The kept rows, and what the spec says a location holds *)
(* ===================================================================== *)

(** [df[mask]]: the rows of a frame that a boolean mask selects, which
    is how the mask of line 1214, handed to the plot as its row filter,
    excludes periods. *)
Fixpoint keep_rows (mask : list bool) (rows : list row) : list row :=
  match mask, rows with
  | b :: mask', r :: rows' =>
      if b then r :: keep_rows mask' rows' else keep_rows mask' rows'
  | _, _ => []
  end.

(** The rows of a history that reach the plot. *)
Definition plotted_rows (rows : list row) : list row :=
  keep_rows (df_filter rows) rows.

(** A close price that is a number. *)
Definition is_number (f : float) : bool := negb (PrimFloat.is_nan f).

(** The spec's reading of a local reference: the text after the first
    occurrence of the separator (the whole text when there is none). *)
Fixpoint after_first (sep : ascii) (s : string) : string :=
  match s with
  | EmptyString => EmptyString
  | String c s' => if Ascii.eqb c sep then s' else after_first sep s'
  end.

(** No occurrence of the character [c] in [s]. *)
Fixpoint free_of (c : ascii) (s : string) : bool :=
  match s with
  | EmptyString => true
  | String c' s' => negb (Ascii.eqb c' c) && free_of c s'
  end.

(** The text after the last separator (the whole text without one). *)
Fixpoint after_last (sep : ascii) (s : string) : string :=
  match s with
  | EmptyString => EmptyString
  | String c s' => if free_of sep s then s else after_last sep s'
  end.

(** A channel of a load request is active when it is populated and its
    enabled flag is set. *)
Definition file_active (r : publish_request) : bool :=
  PyStr.given (pr_output_file r) && pr_file_enabled r.
Definition s3_active (r : publish_request) : bool :=
  PyStr.given (pr_s3_bucket r) && PyStr.given (pr_s3_key r)
  && pr_s3_enabled r.
Definition redis_active (r : publish_request) : bool :=
  PyStr.given (pr_redis_key r) && pr_redis_enabled r.

Definition active_channels (r : publish_request) : nat :=
  (if file_active r then 1 else 0)
  + (if s3_active r then 1 else 0)
  + (if redis_active r then 1 else 0).

(** Event classes. *)
Definition is_log_error (e : event) : bool :=
  match e with LogError _ _ => true | _ => false end.
Definition is_execution (e : event) : bool :=
  match e with RunCustomAlgo _ | RunAlgo _ => true | _ => false end.
Definition is_run_algo (e : event) : bool :=
  match e with RunAlgo _ => true | _ => false end.
Definition is_plot (e : event) : bool :=
  match e with Plot _ => true | _ => false end.

(** A computation that made no call and goes on; one that stopped with
    exit status 1 having logged errors only; the steps that come before
    an algorithm runs are one or the other. *)
Definition quiet {A} (m : M A) : Prop := exists a, m = (Next a, []).
Definition fatal {A} (m : M A) : Prop :=
  exists o l, m = (Stop o, l) /\ exit_code o = 1%Z
              /\ forallb is_log_error l = true.
Definition guard {A} (m : M A) : Prop := quiet m \/ fatal m.

(** The outcome of a run from its last step. *)
Definition outcome_of (r : step unit) : outcome :=
  match r with Next _ => Returned | Stop o => o end.

(** The custom run [c] of a run with the settings [st]. *)
Definition custom_call_at (a : args) (st : settings) (c : custom_call)
    : Prop :=
  truth (st_algo_mod_path st) = true
  /\ custom_call_of a (st_conn st) (st_start_date st) (st_end_date st)
       (st_algo_mod_path st) (st_config_dict st) = (Next c, []).

(** What came before the example algorithm: nothing, or a custom run
    that let the function go on. *)
Definition went_on (ae : consts) (w : world) (a : args) (st : settings)
    (pre : list event) : Prop :=
  pre = []
  \/ exists c l, pre = RunCustomAlgo c :: l
                 /\ custom_call_at a st c
                 /\ after_custom ae a (run_custom_algo w c) = (Next tt, l).

(** What saving the history left in the trace when it did not raise. *)
Definition saved (w : world) (history_json_file : option string)
    (rows : list row) (sv : list event) : Prop :=
  (history_json_file = None /\ sv = [])
  \/ exists f, history_json_file = Some f /\ to_json w f rows = true
               /\ sv = [ToJson f rows].

(** The rejection of the backtest location, and the other events. *)
Definition is_backtest_rejection (e : event) : bool :=
  match e with LogError (InvalidLocation Backtest) _ => true | _ => false end.
Definition not_backtest_rejection (e : event) : bool :=
  negb (is_backtest_rejection e).

(** Every event of a computation satisfies [P]. *)
Definition emits {A} (P : event -> bool) (m : M A) : Prop :=
  forallb P m.2 = true.


(** The keys "Finalize the algo config" may write. *)
Definition finalized_keys : list string :=
  ["ticker"; "balance"; "commission"; "verbose"; "verbose_processor";
   "verbose_indicators"; "inspect_datasets"; "run_this_date"].

(* ===================================================================== *)
(** ** Concrete command lines and worlds *)
(* ===================================================================== *)

Module Sample.

Definition ae : consts :=
  {| TICKER := "SPY";
     SUCCESS := 0;
     S3_ACCESS_KEY := PStr "trexaccesskey";
     S3_SECRET_KEY := PStr "trex123321";
     S3_REGION_NAME := PStr "us-east-1";
     S3_ADDRESS := PStr "localhost:9000";
     S3_BUCKET := PStr "pricing";
     S3_SECURE := PBool false;
     REDIS_ADDRESS := PStr "localhost:6379";
     REDIS_PASSWORD := PNone;
     REDIS_DB := PInt 0;
     REDIS_EXPIRE := PNone |}.

(** [-t ticker] with the other options as arguments. *)
Definition cli (ticker : string)
    (backtest history report extract : option string)
    (algo_file config_file : option string)
    (start_date end_date run_date : option string)
    (history_json : option string) (debug : bool) : args :=
  {| a_ticker := ticker;
     a_algo_extract_loc := extract;
     a_history_json_file := history_json;
     a_backtest_loc := backtest;
     a_run_on_engine := false;
     a_s3_access_key := None;
     a_s3_secret_key := None;
     a_s3_address := None;
     a_s3_secure := None;
     a_start_date := start_date;
     a_end_date := end_date;
     a_s3_region_name := None;
     a_run_algo_in_file := algo_file;
     a_algo_history_loc := history;
     a_algo_report_loc := report;
     a_redis_address := None;
     a_redis_db := None;
     a_redis_expire := None;
     a_config_file := config_file;
     a_verbose_algo := false;
     a_verbose_processor := false;
     a_verbose_indicators := false;
     a_inspect_datasets := false;
     a_run_this_date := run_date;
     a_debug := debug |}.

(** [-t spy] and nothing else. *)
Definition plain : args :=
  cli "spy" None None None None None None None None None None false.

Definition ok : envelope := Envelope 0 PNone (Some "task-1") (Some []).
Definition failed : envelope :=
  Envelope 1 (PStr "no data") (Some "task-1") (Some []).

Definition bar (date : string) (close balance : float) : row :=
  Row date date close balance.

Definition rows : list row :=
  [ bar "2018-11-29 09:30:00" 273.5 10000.0;
    bar "2018-11-29 09:31:00" 273.75 9994.0 ].

Definition history (v : hval) : gmap string hval :=
  <["SPY" := v]> {[ "algo_name" := HPlain (PStr "backtest") ]}.

(** A world in which every path exists, the config file holds [json],
    the runs return [custom_res] and [algo_res], the history is [hist]
    and writing the history succeeds or not. *)
Definition world_of (json : option pyval) (custom_res algo_res : envelope)
    (hist : gmap string hval) (write_ok : bool) : world :=
  {| path_exists := fun _ => true;
     fd_exists := fun _ => false;
     load_json := fun _ => json;
     run_custom_algo := fun _ => custom_res;
     run_algo := fun _ => algo_res;
     get_history_dataset := fun _ => hist;
     to_json := fun _ _ => write_ok;
     str_of := fun _ => "?" |}.

Definition good_world : world :=
  world_of None ok ok (history (HFrame rows)) true.

(** The config file of the precedence example. *)
Definition file_config : pydict :=
  <["balance" := PFloat 5000.0]> (
  <["commission" := PFloat 1.0]> (
  <["ticker" := PStr "QQQ"]> (
  <["timeseries" := PStr "daily"]> (
  <["algo_path" := PStr "/opt/sa/algo.py"]> ∅)))).

Definition custom_fails : world :=
  world_of None failed ok (history (HFrame rows)) true.
Definition default_fails : world :=
  world_of None ok failed (history (HFrame rows)) true.
Definition write_fails : world :=
  world_of None ok ok (history (HFrame rows)) false.
Definition empty_history : world :=
  world_of None ok ok (history (HFrame [])) true.
Definition no_history : world :=
  world_of None ok ok {[ "algo_name" := HPlain (PStr "backtest") ]} true.
Definition plain_history : world :=
  world_of None ok ok (history (HPlain PNone)) true.

(** [-t spy -g /opt/sa/algo.py] with the four locations on s3. *)
Definition custom_args : args :=
  cli "spy" (Some "s3://algoready/SPY-latest.json")
    (Some "s3://algohistory/SPY-history.json")
    (Some "s3://algoreport/SPY-report.json")
    (Some "s3://algoready/SPY-extract.json")
    (Some "/opt/sa/algo.py") None None None None None false.

(** The settings [custom_args] resolve to. *)
Definition custom_settings : settings :=
  {| st_ticker := "SPY";
     st_conn := resolve_conn ae custom_args;
     st_history_json_file := None;
     st_start_date := None;
     st_end_date := None;
     st_algo_mod_path := PStr "/opt/sa/algo.py";
     st_config_dict :=
       finalize_config custom_args "SPY"
         (build_example_algo_config "SPY" "minute") |}.

(** [-t spy -f /readonly/history.json] *)
Definition save_args : args :=
  cli "spy" None None None None None None None None None
    (Some "/readonly/history.json") false.

(** [-t spy -j 11/29/2018] *)
Definition run_date_args : args :=
  cli "spy" None None None None None None None None (Some "11/29/2018")
    None false.

(** [-t spy -b loc] *)
Definition backtest_args (loc : string) : args :=
  cli "spy" (Some loc) None None None None None None None None None false.

Definition file_world : world :=
  world_of (Some (PDict file_config)) ok ok (history (HFrame rows)) true.

(** [-t spy -c cfg.json] *)
Definition with_config : args :=
  cli "spy" None None None None None (Some "cfg.json") None None None None
    false.

(** The close prices of the row filter example. *)
Definition closes : list row :=
  [ bar "d1" 0.0 1.0; bar "d2" 0.005 1.0; bar "d3" 0.01 1.0;
    bar "d4" 0.02 1.0; bar "d5" 5.0 1.0 ].

End Sample.

(* ===================================================================== *)
(** ** Vocabulary for the properties of the whole run *)
(* ===================================================================== *)

(** A date option that gets past lines 754-789: not given, or parsed. *)
Definition valid_date_arg (o : option string) : bool :=
  match o with
  | Some s =>
      if PyStr.truthy s then
        match PyDate.strptime s with Some _ => true | None => false end
      else true
  | None => true
  end.

(** [use_start_date] and [use_end_date] for a date option. *)
Definition date_bound (o : option string) : option string :=
  match o with
  | Some s => if PyStr.truthy s then Some (s ++ " 00:00:00") else None
  | None => None
  end.

(** [algo_mod_path] after lines 790-797, when the file of [-g] exists. *)
Definition algo_arg (a : args) : pyval :=
  match a_run_algo_in_file a with
  | Some g => if PyStr.truthy g then PStr g else PNone
  | None => PNone
  end.

(** The file of [-g], when given, exists. *)
Definition algo_file_ok (w : world) (a : args) : bool :=
  match a_run_algo_in_file a with
  | Some g => if PyStr.truthy g then path_exists w g else true
  | None => true
  end.

(** The first of [algo_extract_loc], [algo_history_loc] and
    [algo_report_loc] (the order lines 1034-1039 read them in) that the
    command line left unbound. *)
Definition first_unbound (a : args) : option string :=
  if negb (PyStr.given (a_algo_extract_loc a)) then Some "algo_extract_loc"
  else if negb (PyStr.given (a_algo_history_loc a))
       then Some "algo_history_loc"
  else if negb (PyStr.given (a_algo_report_loc a)) then Some "algo_report_loc"
  else None.

(** A location option that is given and unsupported. *)
Definition rejected (o : option string) : option string :=
  match o with
  | Some loc =>
      if PyStr.truthy loc && unsupported loc then Some loc else None
  | None => None
  end.

(** The first location the custom path rejects, in the order of lines
    839-933: backtest, history, report, extract. *)
Definition first_rejected (a : args) : option (chan_name * string) :=
  match rejected (a_backtest_loc a) with
  | Some loc => Some (Backtest, loc)
  | None =>
      match rejected (a_algo_history_loc a) with
      | Some loc => Some (History, loc)
      | None =>
          match rejected (a_algo_report_loc a) with
          | Some loc => Some (Report, loc)
          | None =>
              match rejected (a_algo_extract_loc a) with
              | Some loc => Some (Extract, loc)
              | None => None
              end
          end
      end
  end.

(** The one call of the plot for a frame: what lines 1196-1243 pass. *)
Definition plot_of (w : world) (ticker : string) (algo_name : hval)
    (timeseries : pyval) (rows : list row) (first_date end_date : string)
    : plot_call :=
  {| pc_title :=
       "Trading History " ++ ticker ++ " for Algo " ++ fmt w algo_name
       ++ PyStr.nl ++ "Backtest dates from " ++ first_date
       ++ " to " ++ end_date;
     pc_df := rows;
     pc_red := Some "close";
     pc_blue := Some "balance";
     pc_green := None;
     pc_orange := None;
     pc_date_col := if is_str timeseries "minute" then "minute" else "date";
     pc_date_format :=
       if is_str timeseries "minute" then "%d %H:%M:%S" ++ PyStr.nl ++ "%b"
       else "%d" ++ PyStr.nl ++ "%b";
     pc_xlabel := "Dates vs " ++ fmt w algo_name ++ " values";
     pc_ylabel := "Algo " ++ fmt w algo_name ++ PyStr.nl ++ "values";
     pc_df_filter := df_filter rows;
     pc_show_plot := true;
     pc_dropna_for_all := true |}.

(** The settings of a run that gets to line 834. *)
Definition settings_of (ae : consts) (a : args) (p : pyval) (cd : pydict)
    : settings :=
  {| st_ticker := resolve_ticker ae a;
     st_conn := resolve_conn ae a;
     st_history_json_file := keep_given (a_history_json_file a);
     st_start_date := date_bound (a_start_date a);
     st_end_date := date_bound (a_end_date a);
     st_algo_mod_path := p;
     st_config_dict := finalize_config a (resolve_ticker ae a) cd |}.

(** A computation that, if it ends in [sys.exit], does so with status 1
    and right after logging an error. *)
Definition loud {A} (m : M A) : Prop :=
  forall c l, m = (Stop (Exited c), l) ->
    c = 1%Z /\ exists l' f d, l = (l' ++ [LogError f d])%list.

(** Two command lines that agree on what the path without a custom
    module reads: [-t], [-s], [-n], [-f], [-j], the four flags of the
    config, and the rejection of [-b]. *)
Definition same_plain_inputs (a a' : args) : Prop :=
  a_ticker a = a_ticker a'
  /\ a_start_date a = a_start_date a'
  /\ a_end_date a = a_end_date a'
  /\ a_history_json_file a = a_history_json_file a'
  /\ a_run_this_date a = a_run_this_date a'
  /\ a_verbose_algo a = a_verbose_algo a'
  /\ a_verbose_processor a = a_verbose_processor a'
  /\ a_verbose_indicators a = a_verbose_indicators a'
  /\ a_inspect_datasets a = a_inspect_datasets a'
  /\ a_debug a = a_debug a'
  /\ rejected (a_backtest_loc a) = rejected (a_backtest_loc a').

(** The place of a call in a run: [run_custom_algo], [run_algo],
    [to_json], the plot; 0 for a logged error, which has none. *)
Definition stage (e : event) : nat :=
  match e with
  | LogError _ _ => 0
  | RunCustomAlgo _ => 1
  | RunAlgo _ => 2
  | ToJson _ _ => 3
  | Plot _ => 4
  end.

(** The calls of a trace come in strictly increasing stages, all after
    stage [from]. *)
Fixpoint ordered (from : nat) (t : list event) : bool :=
  match t with
  | [] => true
  | e :: t' =>
      match stage e with
      | 0 => ordered from t'
      | s => Nat.ltb from s && ordered s t'
      end
  end.

(** The command line with every option that was given as the empty
    string taken as not given. *)
Definition without_empty_options (a : args) : args :=
  {| a_ticker := a_ticker a;
     a_algo_extract_loc := keep_given (a_algo_extract_loc a);
     a_history_json_file := keep_given (a_history_json_file a);
     a_backtest_loc := keep_given (a_backtest_loc a);
     a_run_on_engine := a_run_on_engine a;
     a_s3_access_key := keep_given (a_s3_access_key a);
     a_s3_secret_key := keep_given (a_s3_secret_key a);
     a_s3_address := keep_given (a_s3_address a);
     a_s3_secure := keep_given (a_s3_secure a);
     a_start_date := keep_given (a_start_date a);
     a_end_date := keep_given (a_end_date a);
     a_s3_region_name := keep_given (a_s3_region_name a);
     a_run_algo_in_file := keep_given (a_run_algo_in_file a);
     a_algo_history_loc := keep_given (a_algo_history_loc a);
     a_algo_report_loc := keep_given (a_algo_report_loc a);
     a_redis_address := keep_given (a_redis_address a);
     a_redis_db := keep_given (a_redis_db a);
     a_redis_expire := keep_given (a_redis_expire a);
     a_config_file := keep_given (a_config_file a);
     a_verbose_algo := a_verbose_algo a;
     a_verbose_processor := a_verbose_processor a;
     a_verbose_indicators := a_verbose_indicators a;
     a_inspect_datasets := a_inspect_datasets a;
     a_run_this_date := keep_given (a_run_this_date a);
     a_debug := a_debug a |}.

(* ===================================================================== *)
(** ** Further command lines and worlds *)
(* ===================================================================== *)

Module Case.

(** A world like [w] in which exactly the paths [ps] exist. *)
Definition only_paths (ps : list string) (w : world) : world :=
  {| path_exists := fun p => bool_decide (p ∈ ps);
     fd_exists := fd_exists w;
     load_json := load_json w;
     run_custom_algo := run_custom_algo w;
     run_algo := run_algo w;
     get_history_dataset := get_history_dataset w;
     to_json := to_json w;
     str_of := str_of w |}.

(** [-t spy -g /opt/sa/algo.py] *)
Definition module_args : args :=
  Sample.cli "spy" None None None None (Some "/opt/sa/algo.py") None
    None None None None false.

(** [-t spy -g /opt/sa/algo.py -c cfg.json] *)
Definition module_and_config : args :=
  Sample.cli "spy" None None None None (Some "/opt/sa/algo.py")
    (Some "cfg.json") None None None None false.

(** A world whose config file holds [json]. *)
Definition config_world (json : pyval) : world :=
  Sample.world_of (Some json) Sample.ok Sample.ok
    (Sample.history (HFrame Sample.rows)) true.

(** [-t spy -s 2018-11-01] *)
Definition dated_args : args :=
  Sample.cli "spy" None None None None None None
    (Some "2018-11-01") None None None false.

(** A config with the one key the plot reads. *)
Definition small_config : pydict := {[ "timeseries" := PStr "minute" ]}.

(** A config file that names its own module and a daily series. *)
Definition other_config : pydict :=
  <["algo_path" := PStr "/opt/sa/other.py"]> (
  <["timeseries" := PStr "daily"]> ∅).

(** A config file that only names the module. *)
Definition module_only : pydict := {[ "algo_path" := PStr "/opt/sa/algo.py" ]}.

(** [-t spy -c cfg.json] with the three output locations on s3. *)
Definition config_and_outputs (debug : bool) : args :=
  Sample.cli "spy" None (Some "s3://algohistory/SPY-history.json")
    (Some "s3://algoreport/SPY-report.json")
    (Some "s3://algoready/SPY-extract.json")
    None (Some "cfg.json") None None None None debug.

(** [-t spy -g /opt/sa/algo.py -p ftp://history -o report.json] *)
Definition two_bad_locations : args :=
  Sample.cli "spy" None (Some "ftp://history") (Some "report.json") None
    (Some "/opt/sa/algo.py") None None None None None false.

(** [-t qqq] *)
Definition other_ticker : args :=
  Sample.cli "qqq" None None None None None None None None None None false.

(** [-t spy -b s3://algoready/SPY-latest.json -p ftp://history
    -o report.json -k key] *)
Definition unread_options : args :=
  {| a_ticker := "spy";
     a_algo_extract_loc := None;
     a_history_json_file := None;
     a_backtest_loc := Some "s3://algoready/SPY-latest.json";
     a_run_on_engine := false;
     a_s3_access_key := Some "key";
     a_s3_secret_key := None;
     a_s3_address := None;
     a_s3_secure := None;
     a_start_date := None;
     a_end_date := None;
     a_s3_region_name := None;
     a_run_algo_in_file := None;
     a_algo_history_loc := Some "ftp://history";
     a_algo_report_loc := Some "report.json";
     a_redis_address := None;
     a_redis_db := None;
     a_redis_expire := None;
     a_config_file := None;
     a_verbose_algo := false;
     a_verbose_processor := false;
     a_verbose_indicators := false;
     a_inspect_datasets := false;
     a_run_this_date := None;
     a_debug := false |}.

End Case.

(* ===================================================================== *)
(** ** Strings: containment, splitting, the last segment *)
(* ===================================================================== *)

Module PyStrFacts.
Import PyStr.

Lemma append_nil (s : string) : "" ++ s = s.
Proof. reflexivity. Qed.

Lemma append_cons (c : ascii) (s1 s2 : string) :
  String c s1 ++ s2 = String c (s1 ++ s2).
Proof. reflexivity. Qed.

Lemma prefix_app (p s : string) : String.prefix p (p ++ s) = true.
Proof.
  induction p as [|c p IH]; rewrite ?append_nil, ?append_cons; simpl.
  - by destruct s.
  - destruct (ascii_dec c c) as [_|Hne]; [exact IH | by destruct Hne].
Qed.

(** A string contains whatever it starts with. *)
Lemma prefix_inv (p s : string) :
  String.prefix p s = true -> exists r, s = p ++ r.
Proof.
  revert s. induction p as [|c p IH]; intros s H.
  - by exists s.
  - destruct s as [|c' s]; [done|]. simpl in H.
    destruct (ascii_dec c c') as [<-|]; [|done].
    destruct (IH s H) as [r ->]. by exists r.
Qed.

Lemma contains_of_prefix (p s : string) :
  String.prefix p s = true -> contains p s = true.
Proof. intros H. destruct s; simpl in *; by rewrite H. Qed.

Lemma contains_prefix (p s : string) : contains p (p ++ s) = true.
Proof. apply contains_of_prefix, prefix_app. Qed.

Lemma contains_cons (sub : string) (c : ascii) (s : string) :
  contains sub s = true -> contains sub (String c s) = true.
Proof.
  intros H. cbn [contains]. rewrite H.
  by destruct (String.prefix sub (String c s)).
Qed.

(** ... and whatever occurs anywhere inside it. *)
Lemma contains_infix (sub before after : string) :
  contains sub (before ++ sub ++ after) = true.
Proof.
  induction before as [|c b IH]; rewrite ?append_nil, ?append_cons.
  - apply contains_prefix.
  - by apply contains_cons.
Qed.

Lemma split_nonempty (sep : ascii) (s : string) : split sep s <> [].
Proof.
  destruct s as [|c s]; simpl; [done|].
  destruct (Ascii.eqb c sep); [done|].
  by destruct (split sep s).
Qed.

Lemma split_cons_sep (sep : ascii) (s : string) :
  split sep (String sep s) = EmptyString :: split sep s.
Proof. simpl. by rewrite Ascii.eqb_refl. Qed.

Lemma split_free (sep : ascii) (s : string) :
  free_of sep s = true -> split sep s = [s].
Proof.
  induction s as [|c s IH]; simpl; [done|].
  intros [Hc Hs]%andb_prop. apply negb_true_iff in Hc.
  by rewrite Hc, (IH Hs).
Qed.

Lemma split_app (sep : ascii) (s1 s2 : string) :
  free_of sep s1 = true ->
  split sep (s1 ++ String sep s2) = s1 :: split sep s2.
Proof.
  induction s1 as [|c s1 IH]; rewrite ?append_nil, ?append_cons; simpl.
  - intros _. by rewrite Ascii.eqb_refl.
  - intros [Hc Hs]%andb_prop. apply negb_true_iff in Hc.
    by rewrite Hc, (IH Hs).
Qed.

Lemma split_single (sep : ascii) (s h : string) :
  split sep s = [h] -> free_of sep s = true /\ h = s.
Proof.
  revert h. induction s as [|c s IH]; simpl; intros h.
  - by intros [= <-].
  - destruct (Ascii.eqb c sep) eqn:Hc.
    + intros [= _ H]. by destruct (split_nonempty sep s).
    + destruct (split sep s) as [|h' t] eqn:E;
        [by destruct (split_nonempty sep s)|].
      intros [= <- ->]. destruct (IH h' eq_refl) as [Hf ->].
      by rewrite Hf.
Qed.

Lemma from_end_cons {A} (x : A) (l : list A) :
  from_end (x :: l) 1 = match l with [] => Some x | _ => from_end l 1 end.
Proof.
  destruct l as [|y l]; [done|]. unfold from_end.
  change (rev (x :: y :: l)) with (rev (y :: l) ++ [x])%list.
  apply lookup_app_l. rewrite length_rev. simpl. lia.
Qed.

Lemma from_end_last {A} (l : list A) (x : A) :
  from_end (l ++ [x])%list 1 = Some x.
Proof. unfold from_end. by rewrite rev_unit. Qed.

Lemma from_end_last_but_one {A} (l : list A) (x y : A) :
  from_end (l ++ [x; y])%list 2 = Some x.
Proof.
  unfold from_end.
  change (l ++ [x; y])%list with (l ++ [x] ++ [y])%list.
  by rewrite app_assoc, rev_unit, rev_unit.
Qed.

(** [s.split(sep)[-1]] is there for every [s]. *)
Lemma last_segment_total (sep : ascii) (s : string) :
  is_Some (from_end (split sep s) 1).
Proof.
  pose proof (split_nonempty sep s) as Hne.
  destruct (split sep s) as [|h t] using rev_ind; [done|].
  rewrite from_end_last. by eexists.
Qed.

Lemma split_length_cons (sep c : ascii) (s : string) :
  length (split sep s) <= length (split sep (String c s)).
Proof.
  simpl. destruct (Ascii.eqb c sep); simpl; [lia|].
  pose proof (split_nonempty sep s). by destruct (split sep s).
Qed.

(** With ["s3://"] inside, [s.split('/')] has three items or more, so
    [[-2]] is there as well. *)
Lemma split_s3_length (s : string) :
  contains "s3://" s = true -> 3 <= length (split "/" s).
Proof.
  induction s as [|c s IH]; [done|].
  intros H. cbn [contains] in H.
  destruct (String.prefix "s3://" (String c s)) eqn:Hp.
  - clear IH H. destruct (prefix_inv _ _ Hp) as [r ->].
    change ("s3://" ++ r) with (String "s" (String "3" (String ":"
      (String "/" (String "/" r))))).
    cbn [split Ascii.eqb Bool.eqb].
    pose proof (split_nonempty "/" r). destruct (split "/" r); [done|].
    simpl. lia.
  - specialize (IH H). pose proof (split_length_cons "/" c s). lia.
Qed.

Lemma from_end_some {A} (l : list A) (k : nat) :
  1 <= k <= length l -> is_Some (from_end l k).
Proof.
  intros Hk. destruct k as [|k]; [lia|]. unfold from_end.
  apply lookup_lt_is_Some. rewrite length_rev. lia.
Qed.

Lemma last_segment (sep : ascii) (s : string) :
  from_end (split sep s) 1 = Some (after_last sep s).
Proof.
  induction s as [|c s IH]; [done|].
  cbn [split after_last free_of].
  destruct (Ascii.eqb c sep) eqn:Hc; cbn [negb andb].
  - rewrite from_end_cons.
    pose proof (split_nonempty sep s). by destruct (split sep s).
  - destruct (split sep s) as [|h t] eqn:E;
      [by destruct (split_nonempty sep s)|].
    rewrite from_end_cons. destruct t as [|h' t].
    + destruct (split_single sep s h E) as [-> ->]. done.
    + rewrite from_end_cons in IH. rewrite IH.
      destruct (free_of sep s) eqn:Hf; [|done].
      rewrite (split_free sep s Hf) in E. discriminate.
Qed.

Lemma after_last_free (sep : ascii) (s : string) :
  free_of sep s = true -> after_last sep s = s.
Proof. destruct s; simpl; [done|]. by intros ->. Qed.

Lemma after_first_app (sep : ascii) (s1 s2 : string) :
  free_of sep s1 = true -> after_first sep (s1 ++ String sep s2) = s2.
Proof.
  induction s1 as [|c s1 IH]; rewrite ?append_nil, ?append_cons; simpl.
  - intros _. by rewrite Ascii.eqb_refl.
  - intros [Hc Hs]%andb_prop. apply negb_true_iff in Hc.
    by rewrite Hc, (IH Hs).
Qed.

End PyStrFacts.

(* ===================================================================== *)
(** ** The monad *)
(* ===================================================================== *)

Lemma bind_next {A B} (m : M A) (k : A -> M B) a l :
  m = (Next a, l) -> m ≫= k = (let (r, l') := k a in (r, (l ++ l')%list)).
Proof. intros ->. reflexivity. Qed.

Lemma bind_quiet {A B} (m : M A) (k : A -> M B) a :
  m = (Next a, []) -> m ≫= k = k a.
Proof. intros ->. unfold mbind, M_bind, bind. by destruct (k a). Qed.

Lemma bind_stop {A B} (m : M A) (k : A -> M B) o l :
  m = (Stop o, l) -> m ≫= k = (Stop o, l).
Proof. intros ->. reflexivity. Qed.

Lemma bind_next_inv {A B} (m : M A) (k : A -> M B) b l :
  m ≫= k = (Next b, l) ->
  exists a l1 l2, m = (Next a, l1) /\ k a = (Next b, l2) /\ l = (l1 ++ l2)%list.
Proof.
  destruct m as [[a|o] l1]; unfold mbind, M_bind, bind; [|done].
  destruct (k a) as [r l2] eqn:E. intros [= -> <-]. by exists a, l1, l2.
Qed.

Lemma run_bind {A} (m : M A) (k : A -> M unit) :
  run (m ≫= k) =
  match m with
  | (Stop o, l) => (o, l)
  | (Next a, l) => let (o, l') := run (k a) in (o, (l ++ l')%list)
  end.
Proof.
  destruct m as [[a|o] l]; unfold mbind, M_bind, bind, run; [|done].
  by destruct (k a) as [[[]|o'] l'].
Qed.

Lemma guard_ret {A} (a : A) : guard (mret a).
Proof. left. by exists a. Qed.

Lemma guard_raise {A} (e : exn) : guard (raise e : M A).
Proof. right. by exists (Raised e), []. Qed.

Lemma guard_log_exit {A} (f : failure) (d : pyval) :
  guard (emit (LogError f d);; sys_exit 1 : M A).
Proof. right. by exists (Exited 1), [LogError f d]. Qed.

Lemma guard_bind {A B} (m : M A) (k : A -> M B) :
  guard m -> (forall a, guard (k a)) -> guard (m ≫= k).
Proof.
  intros [[a ->]|(o & l & -> & Ho & Hl)] Hk.
  - by rewrite (bind_quiet _ _ a).
  - right. by exists o, l.
Qed.

Create HintDb guard.
#[export] Hint Resolve guard_ret guard_raise guard_log_exit : guard.

Ltac guard_step :=
  first
    [ solve [auto with guard]
    | match goal with
      | |- guard (_ ≫= _) => apply guard_bind; [|intros]
      | |- guard (match ?x with _ => _ end) => destruct x
      | |- guard (if ?b then _ else _) => destruct b
      end ].
Ltac guard_tac := repeat guard_step.

Lemma guard_getitem (d : pydict) (k : string) : guard (getitem d k).
Proof. unfold getitem. guard_tac. Qed.

Lemma guard_item (l : list string) (k : nat) : guard (item l k).
Proof. unfold item. guard_tac. Qed.

Lemma guard_local (n : string) (o : option string) : guard (local n o).
Proof. unfold local. guard_tac. Qed.

#[export] Hint Resolve guard_getitem guard_item guard_local : guard.

Lemma guard_parse_location (loc : string) : guard (parse_location loc).
Proof. unfold parse_location. guard_tac. Qed.
#[export] Hint Resolve guard_parse_location : guard.

Lemma guard_resolve_channel (c : chan_name) (o : option string) :
  guard (resolve_channel c o).
Proof. unfold resolve_channel. guard_tac. Qed.
#[export] Hint Resolve guard_resolve_channel : guard.

Section Guards.

Variable ae : consts.
Variable w : world.

Lemma guard_check_date f o : guard (check_date f o).
Proof. unfold check_date. guard_tac. Qed.

Lemma guard_os_path_exists v : guard (os_path_exists w v).
Proof. unfold os_path_exists. guard_tac. Qed.

Lemma guard_algo_module_from_args a : guard (algo_module_from_args w a).
Proof. unfold algo_module_from_args. guard_tac. Qed.

Hint Resolve guard_check_date guard_os_path_exists
  guard_algo_module_from_args : guard.

Lemma guard_apply_config_file a p cd : guard (apply_config_file w a p cd).
Proof. unfold apply_config_file. guard_tac. Qed.
Hint Resolve guard_apply_config_file : guard.

Lemma guard_resolve_settings a cd : guard (resolve_settings ae w a cd).
Proof. unfold resolve_settings. guard_tac. Qed.

Lemma guard_custom_call_of a cn sd ed p cd :
  guard (custom_call_of a cn sd ed p cd).
Proof. unfold custom_call_of. guard_tac. Qed.

Lemma guard_resolve_load_config a tk cn :
  guard (resolve_load_config a tk cn).
Proof. unfold resolve_load_config. guard_tac. Qed.

Lemma guard_algo_call_of tk sd ed cd : guard (algo_call_of tk sd ed cd).
Proof. unfold algo_call_of. guard_tac. Qed.

End Guards.

(* ===================================================================== *)
(** ** The stages of the run *)
(* ===================================================================== *)

Lemma getitem_next (d : pydict) (k : string) v l :
  getitem d k = (Next v, l) -> d !! k = Some v /\ l = [].
Proof. unfold getitem. destruct (d !! k); [by intros [= -> <-]|done]. Qed.

Lemma getitem_some (d : pydict) (k : string) v :
  d !! k = Some v -> getitem d k = (Next v, []).
Proof. unfold getitem. by intros ->. Qed.

Lemma quiet_next {A} (m : M A) a l : guard m -> m = (Next a, l) -> l = [].
Proof.
  intros [[a' ->]|(o & l' & -> & _)]; [by intros [= _ <-]|done].
Qed.

Lemma fatal_run (m : M unit) :
  fatal m -> exit_code (run m).1 = 1%Z /\ forallb is_log_error (run m).2 = true.
Proof. by intros (o & l & -> & Ho & Hl). Qed.

Lemma log_errors_only (l : list event) (e : event) :
  forallb is_log_error l = true -> In e l -> is_log_error e = true.
Proof. rewrite forallb_forall. auto. Qed.

Section Finalize.

Variable ae : consts.
Variable a : args.
Variable ticker : string.
Variable cd : pydict.

Ltac finalize_cases :=
  unfold finalize_config;
  destruct (keep_given (a_run_this_date a));
  destruct (a_inspect_datasets a), (a_verbose_indicators a),
    (a_verbose_processor a), (a_verbose_algo a).

Lemma finalize_ticker :
  finalize_config a ticker cd !! "ticker" = Some (PStr ticker).
Proof. finalize_cases; by simplify_map_eq. Qed.

Lemma finalize_balance :
  finalize_config a ticker cd !! "balance" = Some (PFloat use_balance).
Proof. finalize_cases; by simplify_map_eq. Qed.

Lemma finalize_commission :
  finalize_config a ticker cd !! "commission"
  = Some (PFloat use_commission).
Proof. finalize_cases; by simplify_map_eq. Qed.

Lemma finalize_run_this_date d :
  keep_given (a_run_this_date a) = Some d ->
  finalize_config a ticker cd !! "run_this_date" = Some (PStr d).
Proof. intros H. unfold finalize_config. rewrite H. by simplify_map_eq. Qed.

Lemma finalize_other k :
  k ∉ finalized_keys -> finalize_config a ticker cd !! k = cd !! k.
Proof.
  intros Hk. unfold finalized_keys in Hk.
  repeat (apply not_elem_of_cons in Hk as [? Hk]).
  finalize_cases; by simplify_map_eq.
Qed.

End Finalize.

Section Stages.

Variable ae : consts.
Variable w : world.

(** What the settings hold when the function gets past line 832. *)
Lemma resolve_settings_next a cd st l :
  resolve_settings ae w a cd = (Next st, l) ->
  l = []
  /\ st_ticker st = resolve_ticker ae a
  /\ st_conn st = resolve_conn ae a
  /\ st_history_json_file st = keep_given (a_history_json_file a)
  /\ exists cd',
       st_config_dict st = finalize_config a (resolve_ticker ae a) cd'
       /\ (PyStr.given (a_config_file a) = false -> cd' = cd)
       /\ (forall f, a_config_file a = Some f -> PyStr.truthy f = true ->
           load_json w f = Some (PDict cd')).
Proof.
  intros H. split; [exact (quiet_next _ _ _ (guard_resolve_settings _ _ _ _) H)|].
  unfold resolve_settings in H.
  apply bind_next_inv in H as (sd & l1 & l2 & _ & H & _).
  apply bind_next_inv in H as (ed & l3 & l4 & _ & H & _).
  apply bind_next_inv in H as (p & l5 & l6 & _ & H & _).
  apply bind_next_inv in H as ([p' cd'] & l7 & l8 & Hc & H & _).
  injection H as <- _. cbn. repeat split. exists cd'. split; [done|].
  unfold apply_config_file in Hc.
  destruct (a_config_file a) as [f|] eqn:Hf; cbn.
  - destruct (PyStr.truthy f) eqn:Ht.
    + split; [done|]. intros f' [= <-] _.
      destruct (path_exists w f); cbn in Hc; [|done].
      destruct (load_json w f) as [[]|]; try done.
      apply bind_next_inv in Hc as (found & l9 & l10 & _ & Hc & _).
      destruct found; cbn in Hc; [|done]. by injection Hc as _ <- _.
    + injection Hc as _ <- _. split; [done|]. intros f' [= <-]. congruence.
  - injection Hc as _ <- _. split; [done|]. done.
Qed.

(** The arguments [run_custom_algo] is called with. *)
Lemma custom_call_of_next a cn sd ed p cd c l :
  custom_call_of a cn sd ed p cd = (Next c, l) ->
  l = []
  /\ cc_mod_path c = p
  /\ cc_config_dict c = cd
  /\ cd !! "ticker" = Some (cc_ticker c)
  /\ cd !! "balance" = Some (cc_balance c)
  /\ cd !! "balance" = Some (cc_commission c)
  /\ cc_start_date c = sd /\ cc_end_date c = ed.
Proof.
  intros H. split; [exact (quiet_next _ _ _ (guard_custom_call_of _ _ _ _ _ _) H)|].
  unfold custom_call_of in H.
  apply bind_next_inv in H as (c1 & ? & ? & _ & H & _).
  apply bind_next_inv in H as (c2 & ? & ? & _ & H & _).
  apply bind_next_inv in H as (c3 & ? & ? & _ & H & _).
  apply bind_next_inv in H as (c4 & ? & ? & _ & H & _).
  apply bind_next_inv in H as (v1 & ? & ? & [H1 _]%getitem_next & H & _).
  apply bind_next_inv in H as (v2 & ? & ? & [H2 _]%getitem_next & H & _).
  apply bind_next_inv in H as (v3 & ? & ? & [H3 _]%getitem_next & H & _).
  injection H as <- _. by cbn.
Qed.

(** How the part after the custom run ends. *)
Lemma after_custom_cases a (res : envelope) :
  (exists n, after_custom ae a res = (Stop (Raised (UnboundLocalError n)), []))
  \/ (status res = SUCCESS ae /\ after_custom ae a res = (Next tt, []))
  \/ (status res <> SUCCESS ae /\ a_debug a = true
      /\ after_custom ae a res
         = (Next tt, [LogError CustomAlgoNotSuccess (err res)]))
  \/ (status res <> SUCCESS ae /\ a_debug a = false
      /\ after_custom ae a res
         = (Stop (Exited 1), [LogError CustomAlgoFailed (err res)])).
Proof.
  unfold after_custom, local.
  destruct (a_algo_extract_loc a) as [[|? ?]|]; cbn; eauto.
  destruct (a_algo_history_loc a) as [[|? ?]|]; cbn; eauto.
  destruct (a_algo_report_loc a) as [[|? ?]|]; cbn; eauto.
  destruct (a_debug a), (Z.eqb_spec (status res) (SUCCESS ae)); cbn; eauto 10.
Qed.

Lemma custom_stage_cases a st :
  (truth (st_algo_mod_path st) = false /\ custom_stage ae w a st = (Next tt, []))
  \/ fatal (custom_stage ae w a st)
  \/ exists c r l,
       truth (st_algo_mod_path st) = true
       /\ custom_call_of a (st_conn st) (st_start_date st) (st_end_date st)
            (st_algo_mod_path st) (st_config_dict st) = (Next c, [])
       /\ after_custom ae a (run_custom_algo w c) = (r, l)
       /\ custom_stage ae w a st = (r, RunCustomAlgo c :: l).
Proof.
  unfold custom_stage. destruct (truth (st_algo_mod_path st)); [|by left].
  right. unfold run_custom.
  destruct (guard_custom_call_of a (st_conn st) (st_start_date st)
              (st_end_date st) (st_algo_mod_path st) (st_config_dict st))
    as [[c Hc]|(o & l & Hc & Ho & Hl)]; rewrite Hc.
  - right. destruct (after_custom ae a (run_custom_algo w c)) as [r l] eqn:E.
    exists c, r, l. repeat split; try done.
    rewrite (bind_quiet _ _ c eq_refl). unfold mbind, M_bind, bind, emit.
    by rewrite E.
  - left. by exists o, l.
Qed.

Lemma algo_call_of_next tk sd ed cd c l :
  algo_call_of tk sd ed cd = (Next c, l) ->
  l = [] /\ ac_ticker c = tk /\ ac_algo_config c = cd
  /\ cd !! "ticker" = Some (ac_algo_ticker c)
  /\ ac_start_date c = sd /\ ac_end_date c = ed.
Proof.
  unfold algo_call_of. intros H.
  apply bind_next_inv in H as (v & ? & ? & [Hv ->]%getitem_next & H & ->).
  by injection H as <- <-.
Qed.

Lemma default_stage_cases a st :
  fatal (default_stage ae w a st)
  \/ exists c r l,
       algo_call_of (st_ticker st) (st_start_date st) (st_end_date st)
         (st_config_dict st) = (Next c, [])
       /\ after_default ae w c (st_ticker st) (st_config_dict st)
            (st_history_json_file st) = (r, l)
       /\ default_stage ae w a st = (r, RunAlgo c :: l).
Proof.
  unfold default_stage, run_default.
  destruct (guard_resolve_load_config a (st_ticker st) (st_conn st))
    as [[rq Hq]|(o & l & Hq & Ho & Hl)]; rewrite Hq.
  - rewrite (bind_quiet _ _ rq eq_refl).
    destruct (guard_algo_call_of (st_ticker st) (st_start_date st)
                (st_end_date st) (st_config_dict st))
      as [[c Hc]|(o & l & Hc & Ho & Hl)]; rewrite Hc.
    + right.
      destruct (after_default ae w c (st_ticker st) (st_config_dict st)
                  (st_history_json_file st)) as [r l] eqn:E.
      exists c, r, l. repeat split; try done.
      rewrite (bind_quiet _ _ c eq_refl). unfold mbind, M_bind, bind, emit.
      by rewrite E.
    + left. by exists o, l.
  - left. by exists o, l.
Qed.

(** How the part after the history is saved ends: an exception before
    anything is drawn, or the one call of the plot. *)
Lemma plot_history_cases d tk cd rows :
  (exists e, plot_history w d tk cd rows = (Stop (Raised e), []))
  \/ exists p, plot_history w d tk cd rows = (Next tt, [Plot p])
               /\ pc_df p = rows /\ pc_df_filter p = df_filter rows.
Proof.
  unfold plot_history, iloc_first, iloc_last, hgetitem, getitem.
  destruct rows as [|r0 rows]; [left; by eexists|].
  destruct (PyStr.from_end (r0 :: rows) 1); [|left; by eexists].
  destruct (d !! "algo_name"); [|left; by eexists].
  destruct (cd !! "timeseries"); [|left; by eexists].
  right. eexists. by cbn.
Qed.

Lemma save_history_cases hj rows :
  (hj = None /\ save_history w hj rows = (Next tt, []))
  \/ (exists f, hj = Some f /\ to_json w f rows = true
                /\ save_history w hj rows = (Next tt, [ToJson f rows]))
  \/ (exists f, hj = Some f /\ to_json w f rows = false
                /\ save_history w hj rows
                   = (Stop (Raised WriteError), [ToJson f rows])).
Proof.
  unfold save_history. destruct hj as [f|]; [|by left].
  right. destruct (to_json w f rows) eqn:E; [left|right]; by exists f.
Qed.

End Stages.

Section Shape.

Variable ae : consts.
Variable w : world.

(** The ways a run can go: the settings are not resolved; or they are
    and the run stops with status 1 before the example algorithm is
    called, having logged errors only since the custom run (if any);
    or the custom run ends it; or the example algorithm is called and
    what follows decides. *)
Lemma run_shape a cd o t :
  run (run_backtest_and_plot_history ae w a cd) = (o, t) ->
  (fatal (resolve_settings ae w a cd)
   /\ exit_code o = 1%Z /\ forallb is_log_error t = true)
  \/ exists st,
       resolve_settings ae w a cd = (Next st, [])
       /\ ((exists pre l,
              t = (pre ++ l)%list /\ went_on ae w a st pre
              /\ exit_code o = 1%Z /\ forallb is_log_error l = true)
           \/ (exists c l,
                 t = RunCustomAlgo c :: l /\ custom_call_at a st c
                 /\ after_custom ae a (run_custom_algo w c) = (Stop o, l))
           \/ (exists pre c r l,
                 t = (pre ++ RunAlgo c :: l)%list /\ went_on ae w a st pre
                 /\ algo_call_of (st_ticker st) (st_start_date st)
                      (st_end_date st) (st_config_dict st) = (Next c, [])
                 /\ after_default ae w c (st_ticker st) (st_config_dict st)
                      (st_history_json_file st) = (r, l)
                 /\ o = outcome_of r)).
Proof.
  unfold run_backtest_and_plot_history. rewrite run_bind.
  destruct (guard_resolve_settings ae w a cd)
    as [[st Hst]|(o' & l' & Hst & Ho & Hl)]; rewrite Hst.
  2:{ intros [= <- <-]. left. split; [|done]. by exists o', l'. }
  intros H. right. exists st. split; [done|]. revert H.
  rewrite run_bind.
  destruct (custom_stage_cases ae w a st)
    as [[_ Hc]|[(o' & l' & Hc & Ho & Hl)|(c & r & l & Ht & Hcall & Ha & Hc)]];
    rewrite Hc.
  - destruct (default_stage_cases ae w a st)
      as [(o' & l' & Hd & Ho & Hl)|(c & r & l & Hcall & Ha & Hd)];
      rewrite Hd; cbn.
    + intros [= <- <-]. left. exists [], l'. repeat split; try done. by left.
    + intros H. right. right. exists [], c, r, l.
      repeat split; try done; [|by left|]; destruct r as [[]|]; by injection H.
  - intros [= <- <-]. left. exists [], l'. repeat split; try done. by left.
  - destruct r as [[]|o'].
    2:{ intros [= <- <-]. right. left. by exists c, l. }
    assert (Hpre : went_on ae w a st (RunCustomAlgo c :: l))
      by (right; by exists c, l).
    assert (Hlog : forallb is_log_error l = true).
    { destruct (after_custom_cases ae a (run_custom_algo w c))
        as [[n E]|[[_ E]|[(_ & _ & E)|(_ & _ & E)]]];
        rewrite E in Ha; by inversion Ha. }
    destruct (default_stage_cases ae w a st)
      as [(o' & l' & Hd & Ho & Hl)|(c' & r & l' & Hcall' & Ha' & Hd)];
      rewrite Hd; cbn.
    + intros [= <- <-]. left. exists (RunCustomAlgo c :: l), l'.
      by rewrite <- app_comm_cons.
    + intros H. right. right. exists (RunCustomAlgo c :: l), c', r, l'.
      rewrite <- app_comm_cons.
      repeat split; try done; destruct r as [[]|]; by injection H.
Qed.

End Shape.

Section Default.

Variable ae : consts.
Variable w : world.

Lemma after_default_cases c tk cd hj :
  (status (run_algo w c) <> SUCCESS ae
   /\ after_default ae w c tk cd hj
      = (Stop Returned, [LogError BacktestFailed (err (run_algo w c))]))
  \/ (status (run_algo w c) = SUCCESS ae
      /\ after_default ae w c tk cd hj = present w c tk cd hj).
Proof.
  unfold after_default.
  destruct (Z.eqb_spec (status (run_algo w c)) (SUCCESS ae)); [right|left]; done.
Qed.

(** The five ways [present] ends. *)
Lemma present_cases c tk cd hj :
  (get_history_dataset w c !! tk = None
   /\ present w c tk cd hj = (Stop (Raised (KeyError tk)), []))
  \/ (exists v, get_history_dataset w c !! tk = Some (HPlain v)
                /\ present w c tk cd hj = (Stop Returned, []))
  \/ (exists rows f,
        get_history_dataset w c !! tk = Some (HFrame rows)
        /\ hj = Some f /\ to_json w f rows = false
        /\ present w c tk cd hj
           = (Stop (Raised WriteError), [ToJson f rows]))
  \/ (exists rows sv e,
        get_history_dataset w c !! tk = Some (HFrame rows)
        /\ saved w hj rows sv
        /\ present w c tk cd hj = (Stop (Raised e), sv))
  \/ (exists rows sv p,
        get_history_dataset w c !! tk = Some (HFrame rows)
        /\ saved w hj rows sv
        /\ present w c tk cd hj = (Next tt, (sv ++ [Plot p])%list)
        /\ pc_df p = rows /\ pc_df_filter p = df_filter rows).
Proof.
  unfold present, hgetitem.
  destruct (get_history_dataset w c !! tk) as [[rows|v]|] eqn:E;
    [|right; left; by exists v|by left].
  rewrite (bind_quiet _ _ (HFrame rows) eq_refl).
  do 2 right.
  destruct (save_history_cases w hj rows)
    as [[-> Hs]|[(f & -> & Hj & Hs)|(f & -> & Hj & Hs)]]; rewrite Hs.
  - right.
    destruct (plot_history_cases w (get_history_dataset w c) tk cd rows)
      as [[e Hp]|(p & Hp & Hdf & Hfl)]; rewrite (bind_quiet _ _ tt eq_refl), Hp.
    + left. exists rows, [], e. repeat split; try done. by left.
    + right. exists rows, [], p. repeat split; try done. by left.
  - right.
    destruct (plot_history_cases w (get_history_dataset w c) tk cd rows)
      as [[e Hp]|(p & Hp & Hdf & Hfl)];
      rewrite (bind_next _ _ tt [ToJson f rows] eq_refl), Hp.
    + left. exists rows, [ToJson f rows], e.
      repeat split; try done. right. by exists f.
    + right. exists rows, [ToJson f rows], p.
      repeat split; try done. right. by exists f.
  - left. by exists rows, f.
Qed.

(** After the example algorithm was called no algorithm is called. *)
Lemma after_default_no_execution c tk cd hj r l e :
  after_default ae w c tk cd hj = (r, l) -> In e l -> is_execution e = false.
Proof.
  intros H He.
  destruct (after_default_cases c tk cd hj) as [[_ E]|[_ E]];
    rewrite E in H; [injection H as <- <-; by destruct He as [<-|[]]|].
  destruct (present_cases c tk cd hj)
    as [[_ P]|[(v & _ & P)|[(rows & f & _ & _ & _ & P)
       |[(rows & sv & x & _ & Hs & P)|(rows & sv & p & _ & Hs & P & _)]]]];
    rewrite P in H; injection H as <- <-.
  - done.
  - done.
  - by destruct He as [<-|[]].
  - destruct Hs as [[_ ->]|(f & _ & _ & ->)]; [done|by destruct He as [<-|[]]].
  - destruct Hs as [[_ ->]|(f & _ & _ & ->)]; cbn in He.
    + by destruct He as [<-|[]].
    + by destruct He as [<-|[<-|[]]].
Qed.

(** What precedes the example algorithm holds no plot and no call of
    it, and a custom run in it was successful or run under [-d]. *)
Lemma went_on_events a st pre e :
  went_on ae w a st pre -> In e pre ->
  is_run_algo e = false /\ is_plot e = false
  /\ (is_log_error e = true
      \/ exists c, e = RunCustomAlgo c /\ custom_call_at a st c
                   /\ (status (run_custom_algo w c) = SUCCESS ae
                       \/ a_debug a = true)).
Proof.
  intros [->|(c & l & -> & Hcall & Ha)] He; [done|].
  destruct (after_custom_cases ae a (run_custom_algo w c))
    as [[n E]|[[Hs E]|[(Hs & Hd & E)|(Hs & Hd & E)]]];
    rewrite E in Ha; inversion Ha; subst l.
  - destruct He as [<-|[]]. repeat split; try done. right. exists c. eauto.
  - destruct He as [<-|[<-|[]]]; repeat split; try done; [|by left].
    right. exists c. eauto.
Qed.


End Default.

(** [parse_location] never raises: the items it reads are there. *)
Lemma parse_location_s3 (loc : string) :
  PyStr.contains "s3://" loc = true ->
  exists b,
    PyStr.from_end (PyStr.split "/" loc) 2 = Some b
    /\ parse_location loc
       = (Next (Channel (Some b) (Some (after_last "/" loc)) None None), []).
Proof.
  intros H. unfold parse_location, item. rewrite H.
  destruct (PyStrFacts.from_end_some (PyStr.split "/" loc) 2) as [b Hb].
  { pose proof (PyStrFacts.split_s3_length loc H). lia. }
  exists b. split; [done|]. by rewrite Hb, PyStrFacts.last_segment.
Qed.

Lemma parse_location_redis (loc : string) :
  PyStr.contains "s3://" loc = false ->
  PyStr.contains "redis://" loc = true ->
  parse_location loc
  = (Next (Channel None None (Some (after_last "/" loc)) None), []).
Proof.
  intros H1 H2. unfold parse_location, item.
  by rewrite H1, H2, PyStrFacts.last_segment.
Qed.

Lemma parse_location_file (loc : string) :
  PyStr.contains "s3://" loc = false ->
  PyStr.contains "redis://" loc = false ->
  PyStr.contains "file:/" loc = true ->
  parse_location loc
  = (Next (Channel None None None (Some (after_last ":" loc))), []).
Proof.
  intros H1 H2 H3. unfold parse_location, item.
  by rewrite H1, H2, H3, PyStrFacts.last_segment.
Qed.

Lemma parse_location_total (loc : string) :
  exists ch, parse_location loc = (Next ch, []).
Proof.
  destruct (PyStr.contains "s3://" loc) eqn:H1.
  { destruct (parse_location_s3 loc H1) as (b & _ & ->). by eexists. }
  destruct (PyStr.contains "redis://" loc) eqn:H2.
  { rewrite (parse_location_redis loc H1 H2). by eexists. }
  destruct (PyStr.contains "file:/" loc) eqn:H3.
  { rewrite (parse_location_file loc H1 H2 H3). by eexists. }
  unfold parse_location. rewrite H1, H2, H3. by eexists.
Qed.

(** A location is rejected exactly when it is given and unsupported. *)
Lemma resolve_channel_rejects (c : chan_name) (loc : string) :
  PyStr.truthy loc = true -> unsupported loc = true ->
  resolve_channel c (Some loc)
  = (Stop (Exited 1), [LogError (InvalidLocation c) (PStr loc)]).
Proof. intros Ht Hu. unfold resolve_channel. by rewrite Ht, Hu. Qed.

Lemma resolve_channel_accepts (c : chan_name) (o : option string) :
  (forall loc, o = Some loc -> unsupported loc = false) ->
  exists ch, resolve_channel c o = (Next ch, []).
Proof.
  intros H. unfold resolve_channel. destruct o as [loc|]; [|by eexists].
  destruct (PyStr.truthy loc); [|by eexists].
  rewrite (H loc eq_refl). apply parse_location_total.
Qed.

Section Origins.

Variable ae : consts.
Variable w : world.

Lemma after_custom_logs a res r l :
  after_custom ae a res = (r, l) -> forallb is_log_error l = true.
Proof.
  intros H.
  destruct (after_custom_cases ae a res)
    as [[n E]|[[_ E]|[(_ & _ & E)|(_ & _ & E)]]];
    rewrite E in H; by injection H as <- <-.
Qed.

Ltac not_logged Hl Hin :=
  let X := fresh in
  pose proof (log_errors_only _ _ Hl Hin) as X; cbn in X; discriminate X.

(** Where a call of [run_custom_algo] in the trace comes from, and what
    follows it. *)
Lemma custom_run_inv a cd o t c :
  run (run_backtest_and_plot_history ae w a cd) = (o, t) ->
  In (RunCustomAlgo c) t ->
  exists st,
    resolve_settings ae w a cd = (Next st, [])
    /\ custom_call_at a st c
    /\ ((exists l, after_custom ae a (run_custom_algo w c) = (Stop o, l)
                   /\ t = RunCustomAlgo c :: l)
        \/ (exists l rest,
              after_custom ae a (run_custom_algo w c) = (Next tt, l)
              /\ t = (RunCustomAlgo c :: l ++ rest)%list)).
Proof.
  intros H Hin.
  destruct (run_shape ae w a cd o t H)
    as [(_ & _ & Hl)|(st & Hst & [(pre & l & -> & Hpre & Ho & Hl)
       |[(c' & l & -> & Hcall & Ha)|(pre & c' & r & l & -> & Hpre & Hc & Ha & Ho)]])].
  - not_logged Hl Hin.
  - exists st. split; [done|].
    apply in_app_or in Hin as [Hin|Hin];
      [|not_logged Hl Hin].
    destruct Hpre as [->|(c' & l' & -> & Hcall & Ha)]; [done|].
    destruct Hin as [[= ->]|Hin];
      [|not_logged (after_custom_logs _ _ _ _ Ha) Hin].
    split; [done|]. right. by exists l', l.
  - exists st. split; [done|].
    destruct Hin as [[= ->]|Hin];
      [|not_logged (after_custom_logs _ _ _ _ Ha) Hin].
    split; [done|]. left. by exists l.
  - exists st. split; [done|].
    apply in_app_or in Hin as [Hin|[Hin|Hin]]; [|done|].
    + destruct Hpre as [->|(c'' & l' & -> & Hcall & Ha')]; [done|].
      destruct Hin as [[= ->]|Hin];
        [|not_logged (after_custom_logs _ _ _ _ Ha') Hin].
      split; [done|]. right. exists l', (RunAlgo c' :: l).
      split; [done|]. by rewrite <- app_comm_cons.
    + by pose proof (after_default_no_execution ae w _ _ _ _ _ _ _ Ha Hin).
Qed.

(** Where a call of [run_algo] in the trace comes from, and what
    follows it. *)
Lemma algo_run_inv a cd o t c :
  run (run_backtest_and_plot_history ae w a cd) = (o, t) ->
  In (RunAlgo c) t ->
  exists st pre r l,
    resolve_settings ae w a cd = (Next st, [])
    /\ t = (pre ++ RunAlgo c :: l)%list /\ went_on ae w a st pre
    /\ algo_call_of (st_ticker st) (st_start_date st) (st_end_date st)
         (st_config_dict st) = (Next c, [])
    /\ after_default ae w c (st_ticker st) (st_config_dict st)
         (st_history_json_file st) = (r, l)
    /\ o = outcome_of r.
Proof.
  intros H Hin.
  destruct (run_shape ae w a cd o t H)
    as [(_ & _ & Hl)|(st & Hst & [(pre & l & -> & Hpre & Ho & Hl)
       |[(c' & l & -> & Hcall & Ha)|(pre & c' & r & l & -> & Hpre & Hc & Ha & Ho)]])].
  - not_logged Hl Hin.
  - apply in_app_or in Hin as [Hin|Hin];
      [|not_logged Hl Hin].
    by destruct (went_on_events ae w a st pre _ Hpre Hin) as [? _].
  - destruct Hin as [|Hin]; [done|].
    not_logged (after_custom_logs _ _ _ _ Ha) Hin.
  - apply in_app_or in Hin as [Hin|[[= ->]|Hin]].
    + by destruct (went_on_events ae w a st pre _ Hpre Hin) as [? _].
    + by exists st, pre, r, l.
    + by pose proof (after_default_no_execution ae w _ _ _ _ _ _ _ Ha Hin).
Qed.

End Origins.

(* ===================================================================== *)
(** ** The run configuration *)
(* ===================================================================== *)

(** C1, as the claim states it, fails: with the built-in balance 10000.0
    and a config file that sets the balance to 5000.0 (and no option that
    could override it), the balance of the finalized configuration is
    10000.0 and not the file's 5000.0. *)
Lemma C1_file_balance_is_overwritten :
  exists st,
    resolve_settings Sample.ae Sample.file_world Sample.with_config
      (build_example_algo_config "SPY" "minute") = (Next st, [])
    /\ Sample.file_config !! "balance" = Some (PFloat 5000.0)
    /\ st_config_dict st !! "balance" = Some (PFloat 10000.0)
    /\ st_config_dict st !! "balance" <> Sample.file_config !! "balance".
Proof.
  eexists. split; [vm_compute; reflexivity|].
  split; [reflexivity|]. split; [vm_compute; reflexivity|].
  vm_compute. intros H. discriminate H.
Qed.

(** C1, as amended: whenever the settings are resolved, the finalized
    balance and commission are the built-in 10000.0 and 6.0 and the
    finalized ticker is the upper-cased [-t] value (the built-in ticker
    when [-t] is empty), whatever a config file sets for them; every key
    outside the finalized ones has the config file's value. *)
Theorem C1_finalized_values (ae : consts) (w : world) (a : args)
    (cd : pydict) (st : settings) (l : list event) :
  resolve_settings ae w a cd = (Next st, l) ->
  st_config_dict st !! "balance" = Some (PFloat 10000.0)
  /\ st_config_dict st !! "commission" = Some (PFloat 6.0)
  /\ st_config_dict st !! "ticker"
     = Some (PStr (if PyStr.truthy (a_ticker a)
                   then PyStr.upper (a_ticker a) else TICKER ae))
  /\ (forall f file k,
        a_config_file a = Some f -> PyStr.truthy f = true ->
        load_json w f = Some (PDict file) -> k ∉ finalized_keys ->
        st_config_dict st !! k = file !! k).
Proof.
  intros H.
  destruct (resolve_settings_next ae w a cd st l H)
    as (_ & _ & _ & _ & cd' & -> & _ & Hfile).
  split; [apply finalize_balance|].
  split; [apply finalize_commission|].
  split; [apply finalize_ticker|].
  intros f file k Hf Ht Hj Hk.
  rewrite (Hfile f Hf Ht) in Hj. injection Hj as <-.
  by apply finalize_other.
Qed.

Lemma C1_finalized_values_witness :
  exists st,
    resolve_settings Sample.ae Sample.file_world Sample.with_config
      (build_example_algo_config "SPY" "minute") = (Next st, [])
    /\ st_config_dict st !! "balance" = Some (PFloat 10000.0)
    /\ st_config_dict st !! "commission" = Some (PFloat 6.0)
    /\ st_config_dict st !! "ticker" = Some (PStr "SPY")
    /\ st_config_dict st !! "timeseries" = Some (PStr "daily").
Proof.
  eexists. split; [vm_compute; reflexivity|].
  destruct (C1_finalized_values Sample.ae Sample.file_world
              Sample.with_config (build_example_algo_config "SPY" "minute")
              _ [] eq_refl) as (Hb & Hc & Ht & Hk).
  split; [exact Hb|]. split; [exact Hc|]. split; [exact Ht|].
  transitivity (Sample.file_config !! "timeseries"); [|reflexivity].
  apply (Hk "cfg.json" Sample.file_config "timeseries"
           eq_refl eq_refl eq_refl).
  unfold finalized_keys. rewrite !not_elem_of_cons.
  repeat split; try done. apply not_elem_of_nil.
Defined.

(* ===================================================================== *)
(** ** The two algorithm runs *)
(* ===================================================================== *)

(** In every run, [run_custom_algo] gets the balance as its commission. *)
Lemma custom_commission_is_balance (ae : consts) (w : world) (a : args)
    (cd : pydict) (o : outcome) (t : list event) (c : custom_call) :
  run (run_backtest_and_plot_history ae w a cd) = (o, t) ->
  In (RunCustomAlgo c) t ->
  cc_commission c = PFloat use_balance
  /\ cc_balance c = PFloat use_balance
  /\ cc_config_dict c !! "commission" = Some (PFloat use_commission).
Proof.
  intros H Hin.
  destruct (custom_run_inv ae w a cd o t c H Hin) as (st & Hst & [_ Hc] & _).
  destruct (resolve_settings_next ae w a cd st [] Hst)
    as (_ & _ & _ & _ & cd' & Hcd & _).
  destruct (custom_call_of_next _ _ _ _ _ _ _ _ Hc)
    as (_ & _ & -> & _ & Hb & Hcm & _).
  rewrite Hcd, finalize_balance in Hb, Hcm.
  injection Hb as <-. injection Hcm as <-.
  rewrite Hcd. by rewrite finalize_commission.
Qed.

(** C4: the claim wants the commission argument of the custom run to be
    the configuration's commission.  On [-t spy -g /opt/sa/algo.py] with
    the four locations given, the configuration passed along has
    commission 6.0 and balance 10000.0, and the commission argument is
    10000.0, the balance (line 957 reads [config_dict['balance']]). *)
Lemma C4_commission_argument_is_the_balance :
  exists c,
    In (RunCustomAlgo c)
      (run (start_backtest_with_plot_history Sample.ae Sample.good_world
              Sample.custom_args)).2
    /\ cc_config_dict c !! "commission" = Some (PFloat 6.0)
    /\ cc_config_dict c !! "balance" = Some (PFloat 10000.0)
    /\ cc_commission c = PFloat 10000.0
    /\ cc_commission c <> PFloat 6.0.
Proof.
  eexists. split; [vm_compute; left; reflexivity|].
  repeat split; try (vm_compute; reflexivity).
  vm_compute. intros H. discriminate H.
Qed.

(** C2, as the claim states it, fails: the example algorithm returns an
    envelope whose status is not SUCCESS, no remote dispatch is asked
    for, and the function returns, so the exit status is 0. *)
Lemma C2_failed_backtest_exits_with_0 :
  exists c,
    In (RunAlgo c)
      (run (start_backtest_with_plot_history Sample.ae Sample.default_fails
              Sample.plain)).2
    /\ status (run_algo Sample.default_fails c) <> SUCCESS Sample.ae
    /\ a_run_on_engine Sample.plain = false
    /\ (run (start_backtest_with_plot_history Sample.ae Sample.default_fails
               Sample.plain)).1 = Returned
    /\ exit_code (run (start_backtest_with_plot_history Sample.ae
                         Sample.default_fails Sample.plain)).1 = 0%Z.
Proof.
  eexists. split; [vm_compute; left; reflexivity|].
  repeat split; try (vm_compute; reflexivity).
  vm_compute. intros H. discriminate H.
Qed.

(** C2, as amended: when the custom run returns a status other than
    SUCCESS and [-d] is off, the process ends with exit status 1 and the
    example algorithm is not run; when the example algorithm returns a
    status other than SUCCESS, the failure is logged and the run stops
    before plotting. *)
Theorem C2_exit_status_of_failed_runs (ae : consts) (w : world) (a : args)
    (cd : pydict) (o : outcome) (t : list event) :
  run (run_backtest_and_plot_history ae w a cd) = (o, t) ->
  (forall c,
     In (RunCustomAlgo c) t ->
     status (run_custom_algo w c) <> SUCCESS ae -> a_debug a = false ->
     exit_code o = 1%Z /\ forall e, In e t -> is_run_algo e = false)
  /\ (forall c,
        In (RunAlgo c) t -> status (run_algo w c) <> SUCCESS ae ->
        In (LogError BacktestFailed (err (run_algo w c))) t
        /\ forall e, In e t -> is_plot e = false).
Proof.
  intros H. split.
  - intros c Hin Hs Hd.
    destruct (custom_run_inv ae w a cd o t c H Hin)
      as (st & _ & _ & [(l & Ha & ->)|(l & rest & Ha & ->)]);
      destruct (after_custom_cases ae a (run_custom_algo w c))
        as [[n E]|[[Hs' E]|[(_ & Hd' & E)|(_ & _ & E)]]];
      rewrite E in Ha; try congruence; injection Ha as <- <-.
    + split; [done|]. by intros e [<-|[]].
    + split; [done|]. by intros e [<-|[<-|[]]].
  - intros c Hin Hs.
    destruct (algo_run_inv ae w a cd o t c H Hin)
      as (st & pre & r & l & _ & -> & Hpre & _ & Ha & ->).
    destruct (after_default_cases ae w c (st_ticker st) (st_config_dict st)
                (st_history_json_file st)) as [[_ E]|[Hs' _]]; [|done].
    rewrite E in Ha. injection Ha as <- <-. split.
    + apply in_or_app. right. right. by left.
    + intros e [He|[<-|[<-|[]]]]%in_app_or; try done.
      by destruct (went_on_events ae w a st pre e Hpre He) as (_ & ? & _).
Qed.

Lemma C2_exit_status_of_failed_runs_witness :
  exit_code (run (start_backtest_with_plot_history Sample.ae
                    Sample.custom_fails Sample.custom_args)).1 = 1%Z
  /\ In (LogError BacktestFailed (PStr "no data"))
       (run (start_backtest_with_plot_history Sample.ae Sample.default_fails
               Sample.plain)).2.
Proof.
  split.
  - eapply proj1.
    eapply (proj1 (C2_exit_status_of_failed_runs Sample.ae Sample.custom_fails
                     Sample.custom_args
                     (build_example_algo_config "SPY" "minute") _ _
                     (surjective_pairing _))).
    + vm_compute. left. reflexivity.
    + vm_compute. intros H. discriminate H.
    + reflexivity.
  - eapply proj1.
    eapply (proj2 (C2_exit_status_of_failed_runs Sample.ae Sample.default_fails
                     Sample.plain
                     (build_example_algo_config "SPY" "minute") _ _
                     (surjective_pairing _))
              (AlgoCall (PStr "SPY")
                 (finalize_config Sample.plain "SPY"
                    (build_example_algo_config "SPY" "minute"))
                 "SPY" None None true)).
    + vm_compute. left. reflexivity.
    + vm_compute. intros H. discriminate H.
Defined.

(* ===================================================================== *)
(** ** From the history to the plot *)
(* ===================================================================== *)

(** Where a [to_json] call in the trace comes from: the example
    algorithm succeeded and its history for the ticker is a frame. *)
Lemma to_json_inv (ae : consts) (w : world) (a : args) (cd : pydict)
    (o : outcome) (t : list event) (f : string) (rows : list row) :
  run (run_backtest_and_plot_history ae w a cd) = (o, t) ->
  In (ToJson f rows) t ->
  exists st pre c r l,
    t = (pre ++ RunAlgo c :: l)%list /\ went_on ae w a st pre
    /\ present w c (st_ticker st) (st_config_dict st)
         (st_history_json_file st) = (r, l)
    /\ o = outcome_of r /\ In (ToJson f rows) l.
Proof.
  intros H Hin.
  destruct (run_shape ae w a cd o t H)
    as [(_ & _ & Hl)|(st & Hst & [(pre & l & -> & Hpre & Ho & Hl)
       |[(c' & l & -> & Hcall & Ha)|(pre & c' & r & l & -> & Hpre & Hc & Ha & Ho)]])].
  - pose proof (log_errors_only _ _ Hl Hin) as X. discriminate X.
  - apply in_app_or in Hin as [Hin|Hin].
    + by destruct (went_on_events ae w a st pre _ Hpre Hin) as (_ & _ & [?|(? & ? & _)]).
    + pose proof (log_errors_only _ _ Hl Hin) as X. discriminate X.
  - destruct Hin as [|Hin]; [done|].
    pose proof (log_errors_only _ _ (after_custom_logs _ _ _ _ _ Ha) Hin) as X.
    discriminate X.
  - apply in_app_or in Hin as [Hin|[|Hin]]; [|done|].
    + by destruct (went_on_events ae w a st pre _ Hpre Hin) as (_ & _ & [?|(? & ? & _)]).
    + destruct (after_default_cases ae w c' (st_ticker st) (st_config_dict st)
                  (st_history_json_file st)) as [[_ E]|[_ E]];
        rewrite E in Ha.
      * injection Ha as <- <-. by destruct Hin as [|[]].
      * by exists st, pre, c', r, l.
Qed.

(** C8, as the claim states it, fails: with [-f /readonly/history.json]
    and a write that raises, the run ends with the exception right after
    the [to_json] call and the plot is never called. *)
Lemma C8_failed_save_prevents_the_plot :
  to_json Sample.write_fails "/readonly/history.json" Sample.rows = false
  /\ In (ToJson "/readonly/history.json" Sample.rows)
       (run (start_backtest_with_plot_history Sample.ae Sample.write_fails
               Sample.save_args)).2
  /\ forallb (fun e => negb (is_plot e))
       (run (start_backtest_with_plot_history Sample.ae Sample.write_fails
               Sample.save_args)).2 = true
  /\ (run (start_backtest_with_plot_history Sample.ae Sample.write_fails
             Sample.save_args)).1 = Raised WriteError.
Proof.
  split; [reflexivity|]. split; [vm_compute; right; left; reflexivity|].
  split; vm_compute; reflexivity.
Qed.

(** C8, as amended: if serializing the history to the configured path
    fails, the exception is not caught: the run ends with it (exit
    status 1) and the history is not plotted. *)
Theorem C8_failed_save_stops_the_run (ae : consts) (w : world) (a : args)
    (cd : pydict) (o : outcome) (t : list event) (f : string)
    (rows : list row) :
  run (run_backtest_and_plot_history ae w a cd) = (o, t) ->
  In (ToJson f rows) t ->
  to_json w f rows = false ->
  o = Raised WriteError /\ exit_code o = 1%Z
  /\ forall e, In e t -> is_plot e = false.
Proof.
  intros H Hin Hw.
  destruct (to_json_inv ae w a cd o t f rows H Hin)
    as (st & pre & c & r & l & -> & Hpre & Hp & -> & Hl).
  assert (Hpre' : forall e, In e pre -> is_plot e = false).
  { intros e He. by destruct (went_on_events ae w a st pre e Hpre He) as (_ & ? & _). }
  destruct (present_cases w c (st_ticker st) (st_config_dict st)
              (st_history_json_file st))
    as [[_ P]|[(v & _ & P)|[(rows' & f' & _ & _ & Hw' & P)
       |[(rows' & sv & x & _ & Hs & P)|(rows' & sv & p & _ & Hs & P & _)]]]];
    rewrite P in Hp; injection Hp as <- <-; try done.
  - repeat split. intros e [He|[<-|[<-|[]]]]%in_app_or; auto.
  - destruct Hs as [[_ ->]|(f' & _ & Hw' & ->)]; [done|].
    destruct Hl as [[= -> ->]|[]]. congruence.
  - destruct Hs as [[_ ->]|(f' & _ & Hw' & ->)].
    + by destruct Hl as [|[]].
    + destruct Hl as [[= -> ->]|[|[]]]; [congruence|done].
Qed.

Lemma C8_failed_save_stops_the_run_witness :
  (run (start_backtest_with_plot_history Sample.ae Sample.write_fails
          Sample.save_args)).1 = Raised WriteError.
Proof.
  eapply proj1.
  eapply (C8_failed_save_stops_the_run Sample.ae Sample.write_fails
            Sample.save_args (build_example_algo_config "SPY" "minute") _ _
            "/readonly/history.json" Sample.rows (surjective_pairing _)).
  - vm_compute. right. left. reflexivity.
  - reflexivity.
Defined.

(** C9: the claim wants a quiet "nothing to plot" when the ticker's
    history is absent, is not a frame or has zero rows.  After a
    successful run, a history frame with zero rows makes
    [history_df['date'].iloc[0]] raise [IndexError], and a history without
    the ticker makes [trading_history_dict[ticker]] raise [KeyError]: the
    guard of lines 1182-1183 covers the second of the three cases only. *)
Lemma C9_empty_or_absent_history_raises :
  (exists c,
     In (RunAlgo c)
       (run (start_backtest_with_plot_history Sample.ae Sample.empty_history
               Sample.plain)).2
     /\ status (run_algo Sample.empty_history c) = SUCCESS Sample.ae
     /\ get_history_dataset Sample.empty_history c !! "SPY"
        = Some (HFrame []))
  /\ (run (start_backtest_with_plot_history Sample.ae Sample.empty_history
             Sample.plain)).1 = Raised IndexError
  /\ (exists c,
        In (RunAlgo c)
          (run (start_backtest_with_plot_history Sample.ae Sample.no_history
                  Sample.plain)).2
        /\ status (run_algo Sample.no_history c) = SUCCESS Sample.ae
        /\ get_history_dataset Sample.no_history c !! "SPY" = None)
  /\ (run (start_backtest_with_plot_history Sample.ae Sample.no_history
             Sample.plain)).1 = Raised (KeyError "SPY").
Proof.
  split.
  { eexists. split; [vm_compute; left; reflexivity|].
    split; vm_compute; reflexivity. }
  split; [vm_compute; reflexivity|].
  split; [|vm_compute; reflexivity].
  eexists. split; [vm_compute; left; reflexivity|].
  split; vm_compute; reflexivity.
Qed.

(** The case the guard covers: after a successful run of the example
    algorithm, when the history holds for the ticker a value that is not
    a frame (it has no [to_json]), the function returns without an error
    and nothing is plotted. *)
Theorem C9_history_without_to_json (ae : consts) (w : world) (a : args)
    (cd : pydict) (o : outcome) (t : list event) (c : algo_call)
    (v : pyval) :
  run (run_backtest_and_plot_history ae w a cd) = (o, t) ->
  In (RunAlgo c) t ->
  status (run_algo w c) = SUCCESS ae ->
  get_history_dataset w c !! resolve_ticker ae a = Some (HPlain v) ->
  o = Returned /\ exit_code o = 0%Z
  /\ forall e, In e t -> is_plot e = false.
Proof.
  intros H Hin Hs Hh.
  destruct (algo_run_inv ae w a cd o t c H Hin)
    as (st & pre & r & l & Hst & -> & Hpre & _ & Ha & ->).
  destruct (resolve_settings_next ae w a cd st [] Hst) as (_ & Htk & _).
  destruct (after_default_cases ae w c (st_ticker st) (st_config_dict st)
              (st_history_json_file st)) as [[Hs' _]|[_ E]]; [done|].
  rewrite E in Ha. unfold present, hgetitem in Ha.
  rewrite Htk, Hh in Ha. injection Ha as <- <-. repeat split.
  intros e [He|[<-|[]]]%in_app_or; [|done].
  by destruct (went_on_events ae w a st pre e Hpre He) as (_ & ? & _).
Qed.

Lemma C9_history_without_to_json_witness :
  (run (start_backtest_with_plot_history Sample.ae Sample.plain_history
          Sample.plain)).1 = Returned.
Proof.
  eapply proj1.
  eapply (C9_history_without_to_json Sample.ae Sample.plain_history
            Sample.plain (build_example_algo_config "SPY" "minute") _ _ _
            PNone (surjective_pairing _)).
  - vm_compute. left. reflexivity.
  - reflexivity.
  - reflexivity.
Defined.

(** C10, as the claim states it, fails: on [-t spy -g /opt/sa/algo.py]
    with four supported locations the validation passes and the custom
    algorithm runs; it returns a status other than SUCCESS, [-d] is off,
    and the process exits with status 1 without the example algorithm
    being run. *)
Lemma C10_failed_custom_run_skips_the_default :
  (exists st,
     resolve_settings Sample.ae Sample.custom_fails Sample.custom_args
       (build_example_algo_config "SPY" "minute") = (Next st, []))
  /\ unsupported "s3://algoready/SPY-latest.json" = false
  /\ (exists c,
        In (RunCustomAlgo c)
          (run (start_backtest_with_plot_history Sample.ae
                  Sample.custom_fails Sample.custom_args)).2)
  /\ forallb (fun e => negb (is_run_algo e))
       (run (start_backtest_with_plot_history Sample.ae Sample.custom_fails
               Sample.custom_args)).2 = true
  /\ (run (start_backtest_with_plot_history Sample.ae Sample.custom_fails
             Sample.custom_args)).1 = Exited 1.
Proof.
  split; [eexists; vm_compute; reflexivity|].
  split; [vm_compute; reflexivity|].
  split; [eexists; vm_compute; left; reflexivity|].
  split; vm_compute; reflexivity.
Qed.

(** C10, as amended: in every invocation whose settings are resolved and
    whose backtest location, if given, is supported, and in which the
    custom run, if there is one, lets the function go on (it ends the
    process on a status other than SUCCESS unless [-d] is set), the
    example algorithm is run over the ticker, the finalized
    configuration and the date bounds, also after a custom run; if its
    status is not SUCCESS the function returns before plotting. *)
Theorem C10_example_algorithm_runs (ae : consts) (w : world) (a : args)
    (cd : pydict) (st : settings) (before : list event) (o : outcome)
    (t : list event) :
  resolve_settings ae w a cd = (Next st, []) ->
  (forall loc, a_backtest_loc a = Some loc -> unsupported loc = false) ->
  custom_stage ae w a st = (Next tt, before) ->
  run (run_backtest_and_plot_history ae w a cd) = (o, t) ->
  exists c l,
    t = (before ++ RunAlgo c :: l)%list
    /\ ac_ticker c = resolve_ticker ae a
    /\ ac_algo_ticker c = PStr (resolve_ticker ae a)
    /\ ac_algo_config c = st_config_dict st
    /\ ac_start_date c = st_start_date st
    /\ ac_end_date c = st_end_date st
    /\ (status (run_algo w c) <> SUCCESS ae ->
        o = Returned /\ forall e, In e l -> is_plot e = false).
Proof.
  intros Hst Hloc Hc H.
  destruct (resolve_settings_next ae w a cd st [] Hst)
    as (_ & Htk & _ & _ & cd' & Hcd & _).
  unfold run_backtest_and_plot_history in H.
  rewrite (bind_quiet _ _ st Hst), run_bind, Hc in H.
  destruct (default_stage_cases ae w a st)
    as [(o' & l' & Hd & _ & Hl)|(c & r & l & Hcall & Ha & Hd)].
  - exfalso. unfold default_stage in Hd.
    assert (exists rq, resolve_load_config a (st_ticker st) (st_conn st)
                       = (Next rq, [])) as [rq Hq].
    { unfold resolve_load_config.
      destruct (a_backtest_loc a) as [loc|]; [|by eexists].
      destruct (PyStr.truthy loc) eqn:Ht; [|by eexists].
      destruct (resolve_channel_accepts Backtest (Some loc)) as [ch Hch].
      { intros ? [= <-]. by apply Hloc. }
      rewrite (bind_quiet _ _ ch Hch). by eexists. }
    rewrite (bind_quiet _ _ rq Hq) in Hd. unfold run_default in Hd.
    unfold algo_call_of in Hd.
    rewrite (bind_quiet _ _ (PStr (st_ticker st))) in Hd.
    2:{ apply getitem_some. rewrite Hcd, Htk. apply finalize_ticker. }
    cbn in Hd. unfold mbind, M_bind, bind in Hd.
    destruct (after_default _ _ _ _ _ _) in Hd.
    injection Hd as _ <-. discriminate Hl.
  - rewrite Hd in H. exists c, l.
    destruct (algo_call_of_next _ _ _ _ _ _ Hcall)
      as (_ & Hc1 & Hc2 & Hc3 & Hc4 & Hc5).
    rewrite Hcd, finalize_ticker in Hc3. injection Hc3 as Hc3.
    split; [by destruct r as [[]|]; injection H as _ <-|].
    rewrite Hc1, <- Hc3, Hc2, Hc4, Hc5, Htk. repeat split; try done;
      destruct (after_default_cases ae w c (st_ticker st) (st_config_dict st)
                  (st_history_json_file st)) as [[_ E]|[? _]]; try done;
      rewrite E in Ha; injection Ha as <- <-.
    + by injection H as <- _.
    + by intros e [<-|[]].
Qed.

Lemma C10_example_algorithm_runs_witness :
  exists c l,
    (run (start_backtest_with_plot_history Sample.ae Sample.good_world
            Sample.custom_args)).2
    = ((custom_stage Sample.ae Sample.good_world Sample.custom_args
          Sample.custom_settings).2 ++ RunAlgo c :: l)%list
    /\ ac_ticker c = "SPY"
    /\ ac_algo_config c = st_config_dict Sample.custom_settings.
Proof.
  destruct (C10_example_algorithm_runs Sample.ae Sample.good_world
              Sample.custom_args (build_example_algo_config "SPY" "minute")
              Sample.custom_settings
              (custom_stage Sample.ae Sample.good_world Sample.custom_args
                 Sample.custom_settings).2
              _ _ eq_refl
              ltac:(intros loc [= <-]; reflexivity)
              ltac:(vm_compute; reflexivity)
              (surjective_pairing _))
    as (c & l & Ht & Htk & _ & Hcd & _).
  exists c, l. split; [exact Ht|]. split; [exact Htk|exact Hcd].
Defined.

(* ===================================================================== *)
(** ** The row filter *)
(* ===================================================================== *)

Module FloatOrder.

Lemma SFcompare_antisym (x y : SpecFloat.spec_float) :
  SpecFloat.SFcompare x y = option_map CompOpp (SpecFloat.SFcompare y x).
Proof.
  destruct x as [sx|sx| |sx mx ex], y as [sy|sy| |sy my ey]; cbn;
    try reflexivity; try (by destruct sx); try (by destruct sy);
    try (by destruct sx, sy).
  destruct sx, sy; cbn; try reflexivity;
    rewrite (Z.compare_antisym ey ex);
    destruct (ey ?= ex)%Z; cbn; try reflexivity;
    by rewrite (Pos.compare_cont_antisym my mx Eq).
Qed.

Lemma number_compare (x : float) :
  is_number x = true ->
  SpecFloat.SFcompare (Prim2SF x) (Prim2SF x) = Some Eq.
Proof.
  unfold is_number, PrimFloat.is_nan. rewrite negb_involutive.
  rewrite FloatAxioms.eqb_spec. unfold SpecFloat.SFeqb.
  by destruct (SpecFloat.SFcompare (Prim2SF x) (Prim2SF x)) as [[]|].
Qed.

Lemma compare_numbers (x y : float) :
  is_number x = true -> is_number y = true ->
  is_Some (SpecFloat.SFcompare (Prim2SF x) (Prim2SF y)).
Proof.
  intros Hx%number_compare Hy%number_compare.
  destruct (Prim2SF x), (Prim2SF y); try done; by eexists.
Qed.

(** Between numbers, [c < x] is the negation of [x <= c]. *)
Lemma ltb_negb_leb (c x : float) :
  is_number c = true -> is_number x = true ->
  PrimFloat.ltb c x = negb (PrimFloat.leb x c).
Proof.
  intros Hc Hx. rewrite FloatAxioms.ltb_spec, FloatAxioms.leb_spec.
  unfold SpecFloat.SFltb, SpecFloat.SFleb.
  rewrite (SFcompare_antisym (Prim2SF c) (Prim2SF x)).
  destruct (compare_numbers x c Hx Hc) as [[] ->]; reflexivity.
Qed.

End FloatOrder.

Lemma keep_rows_filter (keep : row -> bool) (rows : list row) :
  keep_rows (map keep rows) rows = List.filter keep rows.
Proof.
  induction rows as [|r rows IH]; [done|]. cbn.
  rewrite IH. by destruct (keep r).
Qed.

(** The rows that reach the plot are those with [close > 0.01]. *)
Lemma plotted_rows_filter (rows : list row) :
  plotted_rows rows
  = List.filter (fun r => PrimFloat.ltb close_floor (r_close r)) rows.
Proof. apply keep_rows_filter. Qed.

(** C3, as the claim states it, fails: of the series with the close
    prices 0.0, 0.005, 0.01, 0.02 and 5.0 the filter keeps two rows, the
    one with close 0.02 and the one with close 5.0, not the last alone. *)
Lemma C3_example_keeps_two_rows :
  map r_close Sample.closes = [0.0; 0.005; 0.01; 0.02; 5.0]%float
  /\ df_filter Sample.closes = [false; false; false; true; true]
  /\ map r_close (plotted_rows Sample.closes) = [0.02; 5.0]%float
  /\ plotted_rows Sample.closes <> [Sample.bar "d5" 5.0 1.0].
Proof.
  repeat split; try (vm_compute; reflexivity).
  vm_compute. intros H. discriminate H.
Qed.

(** C3, as amended: for every history whose close prices are numbers,
    the rows the filter excludes are exactly those whose close price is
    at or below 0.01, row by row; and of the series with the close prices
    0.0, 0.005, 0.01, 0.02 and 5.0 it keeps the rows with close 0.02 and
    5.0. *)
Theorem C3_row_filter (rows : list row) :
  Forall (fun r => is_number (r_close r) = true) rows ->
  df_filter rows
  = map (fun r => negb (PrimFloat.leb (r_close r) 0.01)) rows
  /\ plotted_rows rows
     = List.filter (fun r => negb (PrimFloat.leb (r_close r) 0.01)) rows
  /\ (forall r, In r rows ->
        (In r (plotted_rows rows) <-> PrimFloat.leb (r_close r) 0.01 = false))
  /\ map r_close (plotted_rows Sample.closes) = [0.02; 5.0]%float.
Proof.
  intros Hn.
  assert (Hmask : df_filter rows
                  = map (fun r => negb (PrimFloat.leb (r_close r) 0.01)) rows).
  { unfold df_filter. apply map_ext_in. intros r Hr.
    rewrite Forall_forall in Hn.
    apply FloatOrder.ltb_negb_leb; [reflexivity|].
    apply Hn. by apply list_elem_of_In. }
  assert (Hkeep : plotted_rows rows
                  = List.filter
                      (fun r => negb (PrimFloat.leb (r_close r) 0.01)) rows).
  { unfold plotted_rows. rewrite Hmask. apply keep_rows_filter. }
  split; [exact Hmask|]. split; [exact Hkeep|]. split; [|vm_compute; reflexivity].
  intros r Hr. rewrite Hkeep, filter_In, negb_true_iff. tauto.
Qed.

Lemma C3_row_filter_witness :
  df_filter Sample.rows
  = map (fun r => negb (PrimFloat.leb (r_close r) 0.01)) Sample.rows.
Proof.
  eapply proj1. apply (C3_row_filter Sample.rows).
  repeat constructor.
Defined.

(* ===================================================================== *)
(** ** The backtest location *)
(* ===================================================================== *)

Lemma emits_ret {A} P (a : A) : emits P (mret a).
Proof. done. Qed.

Lemma emits_stop {A} P (o : outcome) : emits P (stop o : M A).
Proof. done. Qed.

Lemma emits_emit P (e : event) : P e = true -> emits P (emit e).
Proof. unfold emits. cbn. by intros ->. Qed.

Lemma emits_bind {A B} P (m : M A) (k : A -> M B) :
  emits P m -> (forall a, emits P (k a)) -> emits P (m ≫= k).
Proof.
  unfold emits. destruct m as [[a|o] l]; cbn; [|done].
  intros Hl Hk. specialize (Hk a). destruct (k a) as [r l'].
  cbn in *. by rewrite forallb_app, Hl, Hk.
Qed.

Lemma emits_quiet {A} P (m : M A) : quiet m -> emits P m.
Proof. by intros [a ->]. Qed.

Create HintDb emits.
#[export] Hint Resolve emits_ret emits_stop : emits.
#[export] Hint Extern 1 (emits _ (raise _)) => apply emits_stop : emits.
#[export] Hint Extern 1 (emits _ (sys_exit _)) => apply emits_stop : emits.
#[export] Hint Extern 1 (emits _ (emit _)) =>
  apply emits_emit; reflexivity : emits.

Ltac emits_step :=
  first
    [ solve [auto with emits]
    | match goal with
      | |- emits _ (_ ≫= _) => apply emits_bind; [|intros]
      | |- emits _ (match ?x with _ => _ end) => destruct x
      | |- emits _ (if ?b then _ else _) => destruct b
      | |- emits _ (let (_, _) := ?x in _) => destruct x
      end ].
Ltac emits_tac := repeat emits_step.

Section Rejection.

Variable ae : consts.
Variable w : world.
Variable a : args.
Hypothesis supported :
  forall loc, a_backtest_loc a = Some loc -> unsupported loc = false.

Lemma emits_backtest_channel :
  emits not_backtest_rejection (resolve_channel Backtest (a_backtest_loc a)).
Proof.
  apply emits_quiet.
  destruct (resolve_channel_accepts Backtest (a_backtest_loc a) supported)
    as [ch Hch].
  by exists ch.
Qed.

Lemma emits_other_channel c o :
  c <> Backtest -> emits not_backtest_rejection (resolve_channel c o).
Proof.
  intros Hc. unfold resolve_channel.
  destruct o as [loc|]; [|done]. destruct (PyStr.truthy loc); [|done].
  destruct (unsupported loc); [by destruct c|].
  apply emits_quiet, parse_location_total.
Qed.

Lemma emits_getitem d k : emits not_backtest_rejection (getitem d k).
Proof. unfold getitem. emits_tac. Qed.

Lemma emits_local n o : emits not_backtest_rejection (local n o).
Proof. unfold local. emits_tac. Qed.

Hint Resolve emits_backtest_channel emits_getitem emits_local : emits.
Hint Extern 1 (emits _ (resolve_channel _ _)) =>
  apply emits_other_channel; discriminate : emits.





End Rejection.







(* ===================================================================== *)
(** ** The dates *)
(* ===================================================================== *)

(** C7: the claim wants every supplied date, the run date included, to
    be rejected when it does not parse.  [-j 11/29/2018] does not parse
    as a date, and yet the run logs no error, reaches the example
    algorithm with that text under ['run_this_date'] and returns
    normally: lines 752-753 lack the [strptime] of lines 754-789. *)
Lemma C7_run_date_is_not_validated :
  PyDate.strptime "11/29/2018" = None
  /\ a_run_this_date Sample.run_date_args = Some "11/29/2018"
  /\ (exists c,
        In (RunAlgo c)
          (run (start_backtest_with_plot_history Sample.ae Sample.good_world
                  Sample.run_date_args)).2
        /\ ac_algo_config c !! "run_this_date" = Some (PStr "11/29/2018"))
  /\ forallb (fun e => negb (is_log_error e))
       (run (start_backtest_with_plot_history Sample.ae Sample.good_world
               Sample.run_date_args)).2 = true
  /\ (run (start_backtest_with_plot_history Sample.ae Sample.good_world
             Sample.run_date_args)).1 = Returned.
Proof.
  split; [reflexivity|]. split; [reflexivity|].
  split; [eexists; split; [vm_compute; left; reflexivity|vm_compute; reflexivity]|].
  split; vm_compute; reflexivity.
Qed.

(** What the function does with the three dates: a start date that does
    not parse as YYYY-MM-DD ends the run with exit status 1 and the
    start-date error before anything else happens, and so does an end
    date once the start date (if given) has parsed; "2018-11-29" is
    accepted while "2018-13-40" and "11/29/2018" are not; the run date is
    not parsed at all: whatever text is given is copied into the
    finalized configuration. *)
Theorem C7_date_arguments (ae : consts) (w : world) (a : args)
    (cd : pydict) :
  (forall s,
     a_start_date a = Some s -> PyStr.truthy s = true ->
     PyDate.strptime s = None ->
     run (run_backtest_and_plot_history ae w a cd)
     = (Exited 1, [LogError BadStartDate (PStr s)]))
  /\ (forall s,
        a_end_date a = Some s -> PyStr.truthy s = true ->
        PyDate.strptime s = None ->
        (forall s', a_start_date a = Some s' -> PyStr.truthy s' = true ->
                    is_Some (PyDate.strptime s')) ->
        run (run_backtest_and_plot_history ae w a cd)
        = (Exited 1, [LogError BadEndDate (PStr s)]))
  /\ (forall f s,
        is_Some (PyDate.strptime s) -> PyStr.truthy s = true ->
        check_date f (Some s) = (Next (Some (s ++ " 00:00:00")), []))
  /\ PyDate.strptime "2018-11-29" = Some (2018, 11, 29)%Z
  /\ PyDate.strptime "2018-13-40" = None
  /\ PyDate.strptime "11/29/2018" = None
  /\ (forall st l d,
        resolve_settings ae w a cd = (Next st, l) ->
        a_run_this_date a = Some d -> PyStr.truthy d = true ->
        st_config_dict st !! "run_this_date" = Some (PStr d)).
Proof.
  split; [|split; [|split; [|repeat split]]].
  - intros s Hs Ht Hp.
    unfold run_backtest_and_plot_history, resolve_settings, check_date.
    by rewrite Hs, Ht, Hp.
  - intros s Hs Ht Hp Hstart.
    assert (exists sd, check_date BadStartDate (a_start_date a) = (Next sd, []))
      as [sd Hsd].
    { unfold check_date. destruct (a_start_date a) as [s'|]; [|by eexists].
      destruct (PyStr.truthy s') eqn:Ht'; [|by eexists].
      destruct (Hstart s' eq_refl Ht') as [d ->]. by eexists. }
    unfold run_backtest_and_plot_history, resolve_settings.
    rewrite (bind_quiet _ _ sd Hsd). unfold check_date.
    by rewrite Hs, Ht, Hp.
  - intros f s [d Hd] Ht. unfold check_date. by rewrite Ht, Hd.
  - intros st l d H Hd Ht.
    destruct (resolve_settings_next ae w a cd st l H)
      as (_ & _ & _ & _ & cd' & -> & _).
    apply finalize_run_this_date. unfold keep_given. rewrite Hd. cbn.
    by rewrite Ht.
Qed.

Lemma C7_date_arguments_witness :
  run (start_backtest_with_plot_history Sample.ae Sample.good_world
         (Sample.cli "spy" None None None None None None
            (Some "2018-13-40") None None None false))
  = (Exited 1, [LogError BadStartDate (PStr "2018-13-40")])
  /\ run (start_backtest_with_plot_history Sample.ae Sample.good_world
            (Sample.cli "spy" None None None None None None
               (Some "2018-11-29") (Some "11/29/2018") None None false))
     = (Exited 1, [LogError BadEndDate (PStr "11/29/2018")]).
Proof.
  split.
  - apply (proj1 (C7_date_arguments Sample.ae Sample.good_world
                    (Sample.cli "spy" None None None None None None
                       (Some "2018-13-40") None None None false)
                    (build_example_algo_config "SPY" "minute"))
             "2018-13-40" eq_refl eq_refl eq_refl).
  - apply (proj1 (proj2 (C7_date_arguments Sample.ae Sample.good_world
                    (Sample.cli "spy" None None None None None None
                       (Some "2018-11-29") (Some "11/29/2018") None None false)
                    (build_example_algo_config "SPY" "minute")))
             "11/29/2018" eq_refl eq_refl eq_refl).
    intros s' [= <-] _. by eexists.
Defined.

(* ===================================================================== *)
(** ** The load request of the backtest location *)
(* ===================================================================== *)

Module LocationFacts.
Import PyStr PyStrFacts.

Lemma free_of_app (c : ascii) (x y : string) :
  free_of c (x ++ y) = free_of c x && free_of c y.
Proof.
  induction x as [|c' x IH]; rewrite ?append_nil, ?append_cons; [done|].
  cbn. rewrite IH. by rewrite andb_assoc.
Qed.

(** A text without the character [c] contains no text that has it. *)
Lemma contains_needs (c : ascii) (sub s : string) :
  free_of c sub = false -> free_of c s = true -> contains sub s = false.
Proof.
  intros Hsub. induction s as [|c' s IH]; intros Hs.
  - destruct sub; [done|reflexivity].
  - cbn [contains].
    destruct (String.prefix sub (String c' s)) eqn:Hp.
    + destruct (prefix_inv _ _ Hp) as [r Hr].
      rewrite Hr, free_of_app, Hsub in Hs. done.
    + apply IH. cbn in Hs. by apply andb_prop in Hs as [_ ?].
Qed.

Lemma contains_cons_false (sub : string) (c : ascii) (s : string) :
  String.prefix sub (String c s) = false ->
  contains sub (String c s) = contains sub s.
Proof. intros H. cbn [contains]. by rewrite H. Qed.

Lemma redis_has_no_s3 (K : string) :
  free_of "/" K = true -> contains "s3://" ("redis://" ++ K) = false.
Proof.
  intros HK.
  change ("redis://" ++ K) with
    (String "r" (String "e" (String "d" (String "i" (String "s"
      (String ":" (String "/" (String "/" K)))))))).
  rewrite !contains_cons_false by reflexivity.
  by apply (contains_needs "/").
Qed.

Lemma file_has_no_s3 (P : string) :
  free_of ":" P = true -> contains "s3://" ("file:/" ++ P) = false.
Proof.
  intros HP.
  change ("file:/" ++ P) with
    (String "f" (String "i" (String "l" (String "e" (String ":"
      (String "/" P)))))).
  rewrite !contains_cons_false by reflexivity.
  by apply (contains_needs ":").
Qed.

Lemma file_has_no_redis (P : string) :
  free_of ":" P = true -> contains "redis://" ("file:/" ++ P) = false.
Proof.
  intros HP.
  change ("file:/" ++ P) with
    (String "f" (String "i" (String "l" (String "e" (String ":"
      (String "/" P)))))).
  rewrite !contains_cons_false by reflexivity.
  by apply (contains_needs ":").
Qed.

Lemma split_s3 (B K : string) :
  free_of "/" B = true -> free_of "/" K = true ->
  split "/" ("s3://" ++ B ++ "/" ++ K) = ["s3:"; ""; B; K].
Proof.
  intros HB HK.
  change ("s3://" ++ B ++ "/" ++ K) with
    ("s3:" ++ String "/" ("" ++ String "/" (B ++ String "/" K))).
  rewrite !split_app by done. by rewrite (split_free "/" K HK).
Qed.

Lemma split_redis (K : string) :
  free_of "/" K = true -> split "/" ("redis://" ++ K) = ["redis:"; ""; K].
Proof.
  intros HK.
  change ("redis://" ++ K) with
    ("redis:" ++ String "/" ("" ++ String "/" K)).
  rewrite !split_app by done. by rewrite (split_free "/" K HK).
Qed.

Lemma split_file (P : string) :
  free_of ":" P = true -> split ":" ("file:/" ++ P) = ["file"; "/" ++ P].
Proof.
  intros HP.
  change ("file:/" ++ P) with ("file" ++ String ":" (String "/" P)).
  rewrite split_app by done.
  rewrite (split_free ":" (String "/" P)); [done|]. cbn. exact HP.
Qed.

Lemma resolve_channel_parse (c : chan_name) (loc : string) :
  truthy loc = true -> unsupported loc = false ->
  resolve_channel c (Some loc) = parse_location loc.
Proof. intros Ht Hu. unfold resolve_channel. by rewrite Ht, Hu. Qed.

End LocationFacts.

(** C5, as the claim states it, fails: "file:/data/a:b.json" holds only
    the local-file prefix, the text after its first ':' is
    "/data/a:b.json", and the load request gets "b.json", the text after
    the last ':'; likewise "redis://prices/SPY" yields the key "SPY". *)
Lemma C5_file_path_is_cut_at_the_last_colon :
  PyStr.contains "file:/" "file:/data/a:b.json" = true
  /\ PyStr.contains "s3://" "file:/data/a:b.json" = false
  /\ PyStr.contains "redis://" "file:/data/a:b.json" = false
  /\ after_first ":" "file:/data/a:b.json" = "/data/a:b.json"
  /\ (exists r,
        resolve_load_config (Sample.backtest_args "file:/data/a:b.json")
          "SPY" (resolve_conn Sample.ae Sample.plain) = (Next (Some r), [])
        /\ pr_output_file r = Some "b.json")
  /\ (exists r,
        resolve_load_config (Sample.backtest_args "redis://prices/SPY")
          "SPY" (resolve_conn Sample.ae Sample.plain) = (Next (Some r), [])
        /\ pr_redis_key r = Some "SPY").
Proof.
  repeat split; try reflexivity; eexists; split; reflexivity.
Qed.

(** C5, as amended: for every reference "s3://B/K" and "redis://K" with
    non-empty B and K free of '/', and every reference "file:/P" with P
    free of ':', the load request holds exactly (B, K), K and the path
    "/P" (the text after the ':'), and exactly one of its three channels
    is populated and enabled.  In general a local reference yields the
    text after its last ':'. *)
Theorem C5_transport_resolution (a : args) (tk : string) (cn : conn) :
  (forall B K,
     a_backtest_loc a = Some ("s3://" ++ B ++ "/" ++ K) ->
     free_of "/" B = true -> free_of "/" K = true ->
     PyStr.truthy B = true -> PyStr.truthy K = true ->
     exists r,
       resolve_load_config a tk cn = (Next (Some r), [])
       /\ pr_s3_bucket r = Some B /\ pr_s3_key r = Some K
       /\ pr_output_file r = None /\ pr_redis_key r = None
       /\ s3_active r = true /\ file_active r = false
       /\ redis_active r = false /\ active_channels r = 1)
  /\ (forall K,
        a_backtest_loc a = Some ("redis://" ++ K) ->
        free_of "/" K = true -> PyStr.truthy K = true ->
        exists r,
          resolve_load_config a tk cn = (Next (Some r), [])
          /\ pr_redis_key r = Some K
          /\ pr_output_file r = None
          /\ pr_s3_bucket r = None /\ pr_s3_key r = None
          /\ redis_active r = true /\ file_active r = false
          /\ s3_active r = false /\ active_channels r = 1)
  /\ (forall P,
        a_backtest_loc a = Some ("file:/" ++ P) ->
        free_of ":" P = true ->
        exists r,
          resolve_load_config a tk cn = (Next (Some r), [])
          /\ pr_output_file r = Some ("/" ++ P)
          /\ after_first ":" ("file:/" ++ P) = "/" ++ P
          /\ pr_redis_key r = None
          /\ pr_s3_bucket r = None /\ pr_s3_key r = None
          /\ file_active r = true /\ s3_active r = false
          /\ redis_active r = false /\ active_channels r = 1)
  /\ (forall loc,
        a_backtest_loc a = Some loc ->
        PyStr.contains "s3://" loc = false ->
        PyStr.contains "redis://" loc = false ->
        PyStr.contains "file:/" loc = true ->
        exists r,
          resolve_load_config a tk cn = (Next (Some r), [])
          /\ pr_output_file r = Some (after_last ":" loc)).
Proof.
  split; [|split; [|split]].
  - intros B K Hloc HB HK HtB HtK.
    assert (Hs3 : PyStr.contains "s3://" ("s3://" ++ B ++ "/" ++ K) = true)
      by apply PyStrFacts.contains_prefix.
    destruct (parse_location_s3 _ Hs3) as (b & Hb & Hparse).
    assert (Hk : after_last "/" ("s3://" ++ B ++ "/" ++ K) = K).
    { apply (inj Some).
      by rewrite <- PyStrFacts.last_segment, LocationFacts.split_s3. }
    rewrite (LocationFacts.split_s3 B K HB HK) in Hb.
    injection Hb as <-. rewrite Hk in Hparse.
    unfold resolve_load_config. rewrite Hloc.
    change (PyStr.truthy ("s3://" ++ B ++ "/" ++ K)) with true. cbv iota.
    rewrite LocationFacts.resolve_channel_parse, Hparse;
      [|reflexivity|unfold unsupported; by rewrite Hs3, !andb_false_r].
    rewrite (bind_quiet _ _ _ eq_refl). eexists. split; [reflexivity|].
    destruct B; [discriminate HtB|]. destruct K; [discriminate HtK|].
    by repeat split.
  - intros K Hloc HK HtK.
    pose proof (LocationFacts.redis_has_no_s3 K HK) as Hs3.
    assert (Hr : PyStr.contains "redis://" ("redis://" ++ K) = true)
      by apply PyStrFacts.contains_prefix.
    pose proof (parse_location_redis _ Hs3 Hr) as Hparse.
    assert (Hk : after_last "/" ("redis://" ++ K) = K).
    { apply (inj Some).
      by rewrite <- PyStrFacts.last_segment, LocationFacts.split_redis. }
    rewrite Hk in Hparse.
    unfold resolve_load_config. rewrite Hloc.
    change (PyStr.truthy ("redis://" ++ K)) with true. cbv iota.
    rewrite LocationFacts.resolve_channel_parse, Hparse;
      [|reflexivity|unfold unsupported; by rewrite Hr, !andb_false_r].
    rewrite (bind_quiet _ _ _ eq_refl). eexists. split; [reflexivity|].
    destruct K; [discriminate HtK|]. by repeat split.
  - intros P Hloc HP.
    pose proof (LocationFacts.file_has_no_s3 P HP) as Hs3.
    pose proof (LocationFacts.file_has_no_redis P HP) as Hr.
    assert (Hf : PyStr.contains "file:/" ("file:/" ++ P) = true)
      by apply PyStrFacts.contains_prefix.
    pose proof (parse_location_file _ Hs3 Hr Hf) as Hparse.
    assert (Hk : after_last ":" ("file:/" ++ P) = "/" ++ P).
    { apply (inj Some).
      by rewrite <- PyStrFacts.last_segment, LocationFacts.split_file. }
    rewrite Hk in Hparse.
    unfold resolve_load_config. rewrite Hloc.
    change (PyStr.truthy ("file:/" ++ P)) with true. cbv iota.
    rewrite LocationFacts.resolve_channel_parse, Hparse;
      [|reflexivity|unfold unsupported; by rewrite Hf].
    rewrite (bind_quiet _ _ _ eq_refl). eexists. split; [reflexivity|].
    split; [reflexivity|].
    split; [exact (PyStrFacts.after_first_app ":" "file" (String "/" P) eq_refl)|].
    by cbn.
  - intros loc Hloc Hs3 Hr Hf.
    pose proof (parse_location_file _ Hs3 Hr Hf) as Hparse.
    assert (Ht : PyStr.truthy loc = true).
    { destruct loc; [discriminate Hf|done]. }
    unfold resolve_load_config. rewrite Hloc, Ht.
    rewrite LocationFacts.resolve_channel_parse, Hparse;
      [|done|unfold unsupported; by rewrite Hf].
    rewrite (bind_quiet _ _ _ eq_refl). eexists. split; [reflexivity|].
    cbn. by destruct (PyStr.truthy (after_last ":" loc)).
Qed.

Lemma C5_transport_resolution_witness :
  (exists r,
     resolve_load_config (Sample.backtest_args "s3://algoready/SPY-latest.json")
       "SPY" (resolve_conn Sample.ae Sample.plain) = (Next (Some r), [])
     /\ pr_s3_bucket r = Some "algoready"
     /\ pr_s3_key r = Some "SPY-latest.json"
     /\ active_channels r = 1)
  /\ (exists r,
        resolve_load_config (Sample.backtest_args "redis://SPY-latest")
          "SPY" (resolve_conn Sample.ae Sample.plain) = (Next (Some r), [])
        /\ pr_redis_key r = Some "SPY-latest"
        /\ active_channels r = 1)
  /\ (exists r,
        resolve_load_config
          (Sample.backtest_args "file:/opt/sa/tests/datasets/algo/SPY-latest.json")
          "SPY" (resolve_conn Sample.ae Sample.plain) = (Next (Some r), [])
        /\ pr_output_file r
           = Some "/opt/sa/tests/datasets/algo/SPY-latest.json"
        /\ active_channels r = 1).
Proof.
  split; [|split].
  - destruct (proj1 (C5_transport_resolution
                (Sample.backtest_args "s3://algoready/SPY-latest.json")
                "SPY" (resolve_conn Sample.ae Sample.plain))
              "algoready" "SPY-latest.json"
              eq_refl eq_refl eq_refl eq_refl eq_refl)
      as (r & Hr & Hb & Hk & _ & _ & _ & _ & _ & Hn).
    by exists r.
  - destruct (proj1 (proj2 (C5_transport_resolution
                (Sample.backtest_args "redis://SPY-latest")
                "SPY" (resolve_conn Sample.ae Sample.plain)))
              "SPY-latest" eq_refl eq_refl eq_refl)
      as (r & Hr & Hk & _ & _ & _ & _ & _ & _ & Hn).
    by exists r.
  - destruct (proj1 (proj2 (proj2 (C5_transport_resolution
                (Sample.backtest_args
                   "file:/opt/sa/tests/datasets/algo/SPY-latest.json")
                "SPY" (resolve_conn Sample.ae Sample.plain))))
              "opt/sa/tests/datasets/algo/SPY-latest.json" eq_refl eq_refl)
      as (r & Hr & Hf & _ & _ & _ & _ & _ & _ & _ & Hn).
    by exists r.
Defined.

(* ===================================================================== *)
(** ** The settings, step by step *)
(* ===================================================================== *)

Lemma bind_ret {A B} (a : A) (k : A -> M B) : mret a ≫= k = k a.
Proof. by apply bind_quiet. Qed.

Lemma check_date_valid (f : failure) (o : option string) :
  valid_date_arg o = true -> check_date f o = (Next (date_bound o), []).
Proof.
  unfold valid_date_arg, check_date, date_bound.
  destruct o as [s|]; [|done]. destruct (PyStr.truthy s); [|done].
  by destruct (PyDate.strptime s).
Qed.

Lemma check_date_next (f : failure) (o sd : option string) (l : list event) :
  check_date f o = (Next sd, l) ->
  valid_date_arg o = true /\ sd = date_bound o.
Proof.
  unfold valid_date_arg, check_date, date_bound.
  destruct o as [s|]; [|by intros [= <- _]].
  destruct (PyStr.truthy s); [|by intros [= <- _]].
  destruct (PyDate.strptime s); [by intros [= <- _]|done].
Qed.

Lemma algo_module_ok (w : world) (a : args) :
  algo_file_ok w a = true ->
  algo_module_from_args w a = (Next (algo_arg a), []).
Proof.
  unfold algo_file_ok, algo_module_from_args, algo_arg.
  destruct (a_run_algo_in_file a) as [g|]; [|done].
  destruct (PyStr.truthy g); [|done]. by intros ->.
Qed.

Lemma algo_module_next (w : world) (a : args) (p : pyval) (l : list event) :
  algo_module_from_args w a = (Next p, l) ->
  algo_file_ok w a = true /\ p = algo_arg a.
Proof.
  unfold algo_file_ok, algo_module_from_args, algo_arg.
  destruct (a_run_algo_in_file a) as [g|]; [|by intros [= <- _]].
  destruct (PyStr.truthy g); [|by intros [= <- _]].
  destruct (path_exists w g); [by intros [= <- _]|done].
Qed.

(** A run whose settings are not resolved ends as they do. *)
Lemma run_settings_stop (ae : consts) (w : world) (a : args) (cd : pydict)
    (o : outcome) (l : list event) :
  resolve_settings ae w a cd = (Stop o, l) ->
  run (run_backtest_and_plot_history ae w a cd) = (o, l).
Proof.
  intros H. unfold run_backtest_and_plot_history. by rewrite run_bind, H.
Qed.

Section Settings.

Variable ae : consts.
Variable w : world.
Variable a : args.
Variable cd : pydict.

Hypothesis Hstart : valid_date_arg (a_start_date a) = true.
Hypothesis Hend : valid_date_arg (a_end_date a) = true.
Hypothesis Hfile : algo_file_ok w a = true.

Lemma resolve_settings_config_stop o l :
  apply_config_file w a (algo_arg a) cd = (Stop o, l) ->
  resolve_settings ae w a cd = (Stop o, l).
Proof.
  intros H. unfold resolve_settings.
  rewrite (bind_quiet _ _ _ (check_date_valid _ _ Hstart)).
  rewrite (bind_quiet _ _ _ (check_date_valid _ _ Hend)).
  rewrite (bind_quiet _ _ _ (algo_module_ok _ _ Hfile)).
  by rewrite H.
Qed.

Lemma resolve_settings_config_next p cd' :
  apply_config_file w a (algo_arg a) cd = (Next (p, cd'), []) ->
  resolve_settings ae w a cd = (Next (settings_of ae a p cd'), []).
Proof.
  intros H. unfold resolve_settings.
  rewrite (bind_quiet _ _ _ (check_date_valid _ _ Hstart)).
  rewrite (bind_quiet _ _ _ (check_date_valid _ _ Hend)).
  rewrite (bind_quiet _ _ _ (algo_module_ok _ _ Hfile)).
  by rewrite H.
Qed.

End Settings.

(** What a config file that is accepted holds. *)
Lemma apply_config_file_next (w : world) (a : args) (p0 p : pyval)
    (cd cd' : pydict) (l : list event) :
  apply_config_file w a p0 cd = (Next (p, cd'), l) ->
  l = []
  /\ ((PyStr.given (a_config_file a) = false /\ p = p0 /\ cd' = cd)
      \/ exists f,
           a_config_file a = Some f /\ PyStr.truthy f = true
           /\ path_exists w f = true
           /\ load_json w f = Some (PDict cd')
           /\ p = dict_get cd' "algo_path" p0
           /\ os_path_exists w p = (Next true, [])).
Proof.
  intros H.
  split; [exact (quiet_next _ _ _ (guard_apply_config_file w a p0 cd) H)|].
  unfold apply_config_file in H.
  destruct (a_config_file a) as [f|] eqn:Hf; cbn.
  2:{ injection H as <- <- _. by left. }
  destruct (PyStr.truthy f) eqn:Ht.
  2:{ injection H as <- <- _. by left. }
  right. exists f.
  destruct (path_exists w f) eqn:Hp; cbn in H; [|done].
  destruct (load_json w f) as [[]|]; try done.
  apply bind_next_inv in H as (found & l1 & l2 & Hfound & H & _).
  destruct found; cbn in H; [|done]. injection H as <- <- _.
  pose proof (quiet_next _ _ _ (guard_os_path_exists w _) Hfound) as ->.
  done.
Qed.

(** Everything the settings of a run that got to line 834 hold. *)
Lemma resolve_settings_inv (ae : consts) (w : world) (a : args)
    (cd : pydict) (st : settings) (l : list event) :
  resolve_settings ae w a cd = (Next st, l) ->
  valid_date_arg (a_start_date a) = true
  /\ valid_date_arg (a_end_date a) = true
  /\ algo_file_ok w a = true
  /\ exists p cd',
       apply_config_file w a (algo_arg a) cd = (Next (p, cd'), [])
       /\ st = settings_of ae a p cd'.
Proof.
  intros H. unfold resolve_settings in H.
  apply bind_next_inv in H as (sd & l1 & l2 & [Hs ->]%check_date_next & H & _).
  apply bind_next_inv in H as (ed & l3 & l4 & [He ->]%check_date_next & H & _).
  apply bind_next_inv in H as (p & l5 & l6 & [Hf ->]%algo_module_next & H & _).
  apply bind_next_inv in H as ([p' cd'] & l7 & l8 & Hc & H & _).
  injection H as <- _. repeat split; try done. exists p', cd'.
  split; [|done].
  by rewrite (proj1 (apply_config_file_next _ _ _ _ _ _ _ Hc)) in Hc.
Qed.

(* ===================================================================== *)
(** ** Files that are missing or not usable *)
(* ===================================================================== *)

(** X2: when the dates are accepted and the file named by [-g] does not
    exist, the run logs the missing algo module and exits with status 1
    (lines 790-797); nothing else is logged and no algorithm runs. *)
Theorem X2_missing_algo_module (ae : consts) (w : world) (a : args)
    (cd : pydict) (g : string) :
  valid_date_arg (a_start_date a) = true ->
  valid_date_arg (a_end_date a) = true ->
  a_run_algo_in_file a = Some g -> PyStr.truthy g = true ->
  path_exists w g = false ->
  run (run_backtest_and_plot_history ae w a cd)
  = (Exited 1, [LogError MissingAlgoModule (PStr g)]).
Proof.
  intros Hs He Hg Ht Hp. apply run_settings_stop. unfold resolve_settings.
  rewrite (bind_quiet _ _ _ (check_date_valid _ _ Hs)).
  rewrite (bind_quiet _ _ _ (check_date_valid _ _ He)).
  unfold algo_module_from_args. by rewrite Hg, Ht, Hp.
Qed.

Lemma X2_missing_algo_module_witness :
  run (start_backtest_with_plot_history Sample.ae
         (Case.only_paths [] Sample.good_world) Case.module_args)
  = (Exited 1, [LogError MissingAlgoModule (PStr "/opt/sa/algo.py")]).
Proof.
  apply (X2_missing_algo_module Sample.ae
           (Case.only_paths [] Sample.good_world) Case.module_args
           (build_example_algo_config "SPY" "minute") "/opt/sa/algo.py"
           eq_refl eq_refl eq_refl eq_refl eq_refl).
Defined.

(** X3: when the dates and the [-g] file are accepted and the file
    named by [-c] does not exist, the run logs the missing config file
    and exits with status 1 (lines 798-803). *)
Theorem X3_missing_config_file (ae : consts) (w : world) (a : args)
    (cd : pydict) (f : string) :
  valid_date_arg (a_start_date a) = true ->
  valid_date_arg (a_end_date a) = true ->
  algo_file_ok w a = true ->
  a_config_file a = Some f -> PyStr.truthy f = true ->
  path_exists w f = false ->
  run (run_backtest_and_plot_history ae w a cd)
  = (Exited 1, [LogError MissingConfigFile (PStr f)]).
Proof.
  intros Hs He Hg Hf Ht Hp. apply run_settings_stop.
  apply resolve_settings_config_stop; try done.
  unfold apply_config_file. by rewrite Hf, Ht, Hp.
Qed.

Lemma X3_missing_config_file_witness :
  run (start_backtest_with_plot_history Sample.ae
         (Case.only_paths ["/opt/sa/algo.py"] Sample.good_world)
         Case.module_and_config)
  = (Exited 1, [LogError MissingConfigFile (PStr "cfg.json")]).
Proof.
  apply (X3_missing_config_file Sample.ae
           (Case.only_paths ["/opt/sa/algo.py"] Sample.good_world)
           Case.module_and_config
           (build_example_algo_config "SPY" "minute") "cfg.json"
           eq_refl eq_refl eq_refl eq_refl eq_refl eq_refl).
Defined.

(** X4: the [algo_path] of the config file replaces the [-g] module,
    and it is checked on its own: when it names a path that does not
    exist the run logs it and exits with status 1, also when the file
    of [-g] exists (lines 806-813). *)
Theorem X4_missing_algo_module_of_config (ae : consts) (w : world)
    (a : args) (cd d : pydict) (f p : string) :
  valid_date_arg (a_start_date a) = true ->
  valid_date_arg (a_end_date a) = true ->
  algo_file_ok w a = true ->
  a_config_file a = Some f -> PyStr.truthy f = true ->
  path_exists w f = true ->
  load_json w f = Some (PDict d) ->
  d !! "algo_path" = Some (PStr p) ->
  path_exists w p = false ->
  run (run_backtest_and_plot_history ae w a cd)
  = (Exited 1, [LogError MissingAlgoModuleFromConfig (PStr p)]).
Proof.
  intros Hs He Hg Hf Ht Hp Hj Hd Hq. apply run_settings_stop.
  apply resolve_settings_config_stop; try done.
  unfold apply_config_file, dict_get. rewrite Hf, Ht, Hp, Hj, Hd. cbn.
  by rewrite Hq.
Qed.

Lemma X4_missing_algo_module_of_config_witness :
  run (start_backtest_with_plot_history Sample.ae
         (Case.only_paths ["/opt/sa/algo.py"; "cfg.json"]
            (Case.config_world
               (PDict {[ "algo_path" := PStr "/opt/sa/gone.py" ]})))
         Case.module_and_config)
  = (Exited 1, [LogError MissingAlgoModuleFromConfig
                  (PStr "/opt/sa/gone.py")]).
Proof.
  apply (X4_missing_algo_module_of_config Sample.ae
           (Case.only_paths ["/opt/sa/algo.py"; "cfg.json"]
              (Case.config_world
                 (PDict {[ "algo_path" := PStr "/opt/sa/gone.py" ]})))
           Case.module_and_config
           (build_example_algo_config "SPY" "minute")
           {[ "algo_path" := PStr "/opt/sa/gone.py" ]}
           "cfg.json" "/opt/sa/gone.py"
           eq_refl eq_refl eq_refl eq_refl eq_refl eq_refl eq_refl);
    vm_compute; reflexivity.
Defined.

(** X5: a config file that exists but cannot be used ends the run with
    an exception nothing catches, before anything is logged or run:
    [AttributeError] when its JSON is not an object
    ([config_dict.get] on line 806), and [TypeError] when it is an object
    without [algo_path] and there is no [-g] module
    ([os.path.exists(None)] on line 809). *)
Theorem X5_unusable_config_file (ae : consts) (w : world) (a : args)
    (cd : pydict) (f : string) :
  valid_date_arg (a_start_date a) = true ->
  valid_date_arg (a_end_date a) = true ->
  algo_file_ok w a = true ->
  a_config_file a = Some f -> PyStr.truthy f = true ->
  path_exists w f = true ->
  (forall v, load_json w f = Some v -> (forall d, v <> PDict d) ->
     run (run_backtest_and_plot_history ae w a cd)
     = (Raised AttributeError, []))
  /\ (forall d, load_json w f = Some (PDict d) ->
        d !! "algo_path" = None -> algo_arg a = PNone ->
        run (run_backtest_and_plot_history ae w a cd)
        = (Raised TypeError, [])).
Proof.
  intros Hs He Hg Hf Ht Hp. split.
  - intros v Hj Hv. apply run_settings_stop.
    apply resolve_settings_config_stop; try done.
    unfold apply_config_file. rewrite Hf, Ht, Hp, Hj. cbn.
    destruct v; try done. by destruct (Hv d).
  - intros d Hj Hd Ha. apply run_settings_stop.
    apply resolve_settings_config_stop; try done.
    unfold apply_config_file, dict_get. rewrite Hf, Ht, Hp, Hj, Hd, Ha.
    done.
Qed.

Lemma X5_unusable_config_file_witness :
  run (start_backtest_with_plot_history Sample.ae
         (Case.config_world (PList [])) Sample.with_config)
  = (Raised AttributeError, [])
  /\ run (start_backtest_with_plot_history Sample.ae
            (Case.config_world (PDict {[ "timeseries" := PStr "day" ]}))
            Sample.with_config)
     = (Raised TypeError, []).
Proof.
  split.
  - apply (proj1 (X5_unusable_config_file Sample.ae
                    (Case.config_world (PList [])) Sample.with_config
                    (build_example_algo_config "SPY" "minute") "cfg.json"
                    eq_refl eq_refl eq_refl eq_refl eq_refl eq_refl)
             (PList []) eq_refl).
    intros d H. discriminate H.
  - apply (proj2 (X5_unusable_config_file Sample.ae
                    (Case.config_world
                       (PDict {[ "timeseries" := PStr "day" ]}))
                    Sample.with_config
                    (build_example_algo_config "SPY" "minute") "cfg.json"
                    eq_refl eq_refl eq_refl eq_refl eq_refl eq_refl)
             {[ "timeseries" := PStr "day" ]} eq_refl);
      vm_compute; reflexivity.
Defined.

(* ===================================================================== *)
(** ** How a run ends *)
(* ===================================================================== *)

Lemma loud_ret {A} (a : A) : loud (mret a).
Proof. intros c l H. discriminate H. Qed.

Lemma loud_raise {A} (e : exn) : loud (raise e : M A).
Proof. intros c l H. discriminate H. Qed.

Lemma loud_returned {A} : loud (stop Returned : M A).
Proof. intros c l H. discriminate H. Qed.

Lemma loud_emit (e : event) : loud (emit e).
Proof. intros c l H. discriminate H. Qed.

Lemma loud_log_exit {A} (f : failure) (d : pyval) :
  loud (emit (LogError f d);; sys_exit 1 : M A).
Proof. intros c l [= <- <-]. split; [done|]. by exists [], f, d. Qed.

Lemma loud_bind {A B} (m : M A) (k : A -> M B) :
  loud m -> (forall a, loud (k a)) -> loud (m ≫= k).
Proof.
  intros Hm Hk c l. destruct m as [[a|o] l1];
    [|intros [= -> <-]; exact (Hm c l1 eq_refl)].
  unfold mbind, M_bind, bind. specialize (Hk a).
  destruct (k a) as [r l2]. intros [= -> <-].
  destruct (Hk c l2 eq_refl) as (-> & l' & f & d & ->).
  split; [done|]. exists (l1 ++ l')%list, f, d. by rewrite app_assoc.
Qed.

Create HintDb loud.
#[export] Hint Resolve loud_ret loud_raise loud_returned loud_emit
  loud_log_exit : loud.

Ltac loud_step :=
  first
    [ solve [auto with loud]
    | match goal with
      | |- loud (_ ≫= _) => apply loud_bind; [|intros]
      | |- loud (match ?x with _ => _ end) => destruct x
      | |- loud (if ?b then _ else _) => destruct b
      | |- loud (let (_, _) := ?x in _) => destruct x
      end ].
Ltac loud_tac := repeat loud_step.

Lemma loud_resolve_channel (c : chan_name) (o : option string) :
  loud (resolve_channel c o).
Proof. unfold resolve_channel, parse_location, item. loud_tac. Qed.
#[export] Hint Resolve loud_resolve_channel : loud.

Lemma loud_run (ae : consts) (w : world) (a : args) (cd : pydict) :
  loud (run_backtest_and_plot_history ae w a cd).
Proof.
  unfold run_backtest_and_plot_history.
  apply loud_bind.
  { unfold resolve_settings, check_date, algo_module_from_args,
      apply_config_file, os_path_exists.
    loud_tac. }
  intros st. apply loud_bind.
  { unfold custom_stage, run_custom, custom_call_of, after_custom, getitem,
      local.
    loud_tac. }
  intros _. unfold default_stage, resolve_load_config, run_default,
    algo_call_of, after_default, present, hgetitem, save_history,
    plot_history, iloc_first, iloc_last, hgetitem, getitem.
  loud_tac.
Qed.

(** X14: from the parsed options on (lines 638-1243, that is once
    [parser.parse_args()] on line 637 has returned; argparse's own exits
    on a usage error or on [-h] come before and are no part of this), a
    run returns, ends with an exception nothing catches, or exits;
    whenever it exits, the status is 1 and the last thing it did was to
    log an error: every [sys.exit] of these lines is [sys.exit(1)] right
    after a [log.error]. *)
Theorem X14_exit_is_1_after_an_error (ae : consts) (w : world) (a : args)
    (cd : pydict) :
  (run (run_backtest_and_plot_history ae w a cd)).1 = Returned
  \/ (exists e, (run (run_backtest_and_plot_history ae w a cd)).1 = Raised e)
  \/ ((run (run_backtest_and_plot_history ae w a cd)).1 = Exited 1
      /\ exists t f d,
           (run (run_backtest_and_plot_history ae w a cd)).2
           = (t ++ [LogError f d])%list).
Proof.
  pose proof (loud_run ae w a cd) as H.
  destruct (run_backtest_and_plot_history ae w a cd) as [[[]|[|c|e]] l];
    cbn; [by left|by left| |right; left; by exists e].
  destruct (H c l eq_refl) as [-> Hl]. right. by right.
Qed.

(* ===================================================================== *)
(** ** What reaches the algorithms *)
(* ===================================================================== *)

(** The arguments of [run_custom_algo] that come from the config with a
    default (lines 938-951). *)
Lemma custom_call_of_defaults (a : args) (cn : conn) (sd ed : option string)
    (p : pyval) (cd : pydict) (c : custom_call) (l : list event) :
  custom_call_of a cn sd ed p cd = (Next c, l) ->
  cc_name c = dict_get cd "name" (PStr "missing-algo-name")
  /\ cc_auto_fill c = dict_get cd "auto_fill" (PBool true)
  /\ cc_timeseries c = dict_get cd "timeseries" (PStr "minute")
  /\ cc_trade_strategy c = dict_get cd "trade_strategy" (PStr "count")
  /\ resolve_channel Backtest (a_backtest_loc a) = (Next (cc_load c), []).
Proof.
  intros H. unfold custom_call_of in H.
  apply bind_next_inv in H as (c1 & l1 & ? & H1 & H & _).
  apply bind_next_inv in H as (c2 & ? & ? & _ & H & _).
  apply bind_next_inv in H as (c3 & ? & ? & _ & H & _).
  apply bind_next_inv in H as (c4 & ? & ? & _ & H & _).
  apply bind_next_inv in H as (v1 & ? & ? & _ & H & _).
  apply bind_next_inv in H as (v2 & ? & ? & _ & H & _).
  apply bind_next_inv in H as (v3 & ? & ? & _ & H & _).
  injection H as <- _. cbn. repeat split.
  by rewrite (quiet_next _ _ _ (guard_resolve_channel _ _) H1) in H1.
Qed.

Lemma dict_get_finalize (a : args) (tk : string) (cd : pydict) (k : string)
    (v : pyval) :
  k ∉ finalized_keys ->
  dict_get (finalize_config a tk cd) k v = dict_get cd k v.
Proof. intros Hk. unfold dict_get. by rewrite finalize_other. Qed.

(** X1: an algorithm runs only when the start and the end date, if
    given, parsed; the date bounds both runs receive are the given date
    followed by [" 00:00:00"], and [None] for a date that is not given
    (lines 754-789, 1010-1011 and 1161-1162). *)
Theorem X1_date_bounds (ae : consts) (w : world) (a : args) (cd : pydict)
    (o : outcome) (t : list event) :
  run (run_backtest_and_plot_history ae w a cd) = (o, t) ->
  (forall c, In (RunCustomAlgo c) t ->
     valid_date_arg (a_start_date a) = true
     /\ valid_date_arg (a_end_date a) = true
     /\ cc_start_date c = date_bound (a_start_date a)
     /\ cc_end_date c = date_bound (a_end_date a))
  /\ (forall c, In (RunAlgo c) t ->
        valid_date_arg (a_start_date a) = true
        /\ valid_date_arg (a_end_date a) = true
        /\ ac_start_date c = date_bound (a_start_date a)
        /\ ac_end_date c = date_bound (a_end_date a)).
Proof.
  intros H. split; intros c Hin.
  - destruct (custom_run_inv ae w a cd o t c H Hin) as (st & Hst & [_ Hc] & _).
    destruct (resolve_settings_inv _ _ _ _ _ _ Hst)
      as (Hs & He & _ & p & cd' & _ & ->).
    destruct (custom_call_of_next _ _ _ _ _ _ _ _ Hc)
      as (_ & _ & _ & _ & _ & _ & Hsd & Hed).
    done.
  - destruct (algo_run_inv ae w a cd o t c H Hin)
      as (st & pre & r & l & Hst & _ & _ & Hc & _).
    destruct (resolve_settings_inv _ _ _ _ _ _ Hst)
      as (Hs & He & _ & p & cd' & _ & ->).
    destruct (algo_call_of_next _ _ _ _ _ _ Hc) as (_ & _ & _ & _ & Hsd & Hed).
    done.
Qed.

Lemma X1_date_bounds_witness :
  exists c,
    In (RunAlgo c)
      (run (run_backtest_and_plot_history Sample.ae Sample.good_world
              Case.dated_args Case.small_config)).2
    /\ ac_start_date c = Some "2018-11-01 00:00:00"
    /\ ac_end_date c = None.
Proof.
  exists (AlgoCall (PStr "SPY")
            (finalize_config Case.dated_args "SPY" Case.small_config)
            "SPY" (Some "2018-11-01 00:00:00") None true).
  assert (Hin : In (RunAlgo
                      (AlgoCall (PStr "SPY")
                         (finalize_config Case.dated_args "SPY"
                            Case.small_config)
                         "SPY" (Some "2018-11-01 00:00:00") None true))
                  (run (run_backtest_and_plot_history Sample.ae
                          Sample.good_world Case.dated_args
                          Case.small_config)).2)
    by (vm_compute; left; reflexivity).
  split; [exact Hin|].
  destruct (proj2 (X1_date_bounds Sample.ae Sample.good_world
                     Case.dated_args Case.small_config _ _
                     (surjective_pairing _)) _ Hin) as (_ & _ & Hs & He).
  split; [exact Hs|exact He].
Defined.

(** X6: the module [run_custom_algo] loads and the config-derived
    arguments.  With a config file the module is the file's [algo_path]
    (the [-g] value only when the file has no such key), and [name],
    [auto_fill], [timeseries] and [trade_strategy] are the file's values,
    with the defaults ['missing-algo-name'], [True], ['minute'] and
    ['count'] for a key the file lacks; without a config file the module
    is the [-g] value and the four come from the [config_dict] the
    function was called with (lines 798-808 and 938-951). *)
Theorem X6_custom_run_arguments (ae : consts) (w : world) (a : args)
    (cd : pydict) (o : outcome) (t : list event) (c : custom_call) :
  run (run_backtest_and_plot_history ae w a cd) = (o, t) ->
  In (RunCustomAlgo c) t ->
  exists src,
    ((PyStr.given (a_config_file a) = false /\ src = cd
      /\ cc_mod_path c = algo_arg a)
     \/ (exists f, a_config_file a = Some f /\ PyStr.truthy f = true
                   /\ load_json w f = Some (PDict src)
                   /\ cc_mod_path c = dict_get src "algo_path" (algo_arg a)))
    /\ truth (cc_mod_path c) = true
    /\ cc_name c = dict_get src "name" (PStr "missing-algo-name")
    /\ cc_auto_fill c = dict_get src "auto_fill" (PBool true)
    /\ cc_timeseries c = dict_get src "timeseries" (PStr "minute")
    /\ cc_trade_strategy c = dict_get src "trade_strategy" (PStr "count").
Proof.
  intros H Hin.
  destruct (custom_run_inv ae w a cd o t c H Hin) as (st & Hst & [Ht Hc] & _).
  destruct (resolve_settings_inv _ _ _ _ _ _ Hst)
    as (_ & _ & _ & p & src & Hcfg & ->).
  destruct (custom_call_of_next _ _ _ _ _ _ _ _ Hc) as (_ & Hp & _).
  destruct (custom_call_of_defaults _ _ _ _ _ _ _ _ Hc)
    as (Hn & Hf & Hts & Hs & _).
  cbn in Hp, Hn, Hf, Hts, Hs, Ht.
  rewrite dict_get_finalize in Hn, Hf, Hts, Hs
    by (apply (bool_decide_unpack _); vm_compute; exact I).
  exists src. rewrite Hp. repeat split; try done.
  destruct (apply_config_file_next _ _ _ _ _ _ _ Hcfg)
    as [_ [(Hg & -> & ->)|(f & Hf' & Htf & _ & Hj & -> & _)]];
    [by left|right; by exists f].
Qed.

Lemma X6_custom_run_arguments_witness :
  exists c,
    In (RunCustomAlgo c)
      (run (run_backtest_and_plot_history Sample.ae
              (Case.config_world (PDict Case.other_config))
              Case.module_and_config Case.small_config)).2
    /\ cc_mod_path c = PStr "/opt/sa/other.py"
    /\ cc_timeseries c = PStr "daily"
    /\ cc_trade_strategy c = PStr "count".
Proof.
  assert (exists c,
            In (RunCustomAlgo c)
              (run (run_backtest_and_plot_history Sample.ae
                      (Case.config_world (PDict Case.other_config))
                      Case.module_and_config Case.small_config)).2)
    as [c Hin] by (eexists; vm_compute; left; reflexivity).
  exists c. split; [exact Hin|].
  destruct (X6_custom_run_arguments Sample.ae
              (Case.config_world (PDict Case.other_config))
              Case.module_and_config Case.small_config _ _ c
              (surjective_pairing _) Hin)
    as (src & [(Hg & _)|(f & _ & _ & Hj & Hp)] & _ & _ & _ & Hts & Hs);
    [discriminate Hg|].
  injection Hj as <-. rewrite Hp, Hts, Hs. by vm_compute.
Defined.

(* ===================================================================== *)
(** ** After the example algorithm *)
(* ===================================================================== *)

Lemma plot_history_next (w : world) (d : gmap string hval) (tk : string)
    (cd : pydict) (rows : list row) (l : list event) :
  plot_history w d tk cd rows = (Next tt, l) ->
  exists r0 rest rl name ts,
    rows = r0 :: rest /\ PyStr.from_end rows 1 = Some rl
    /\ d !! "algo_name" = Some name /\ cd !! "timeseries" = Some ts
    /\ l = [Plot (plot_of w tk name ts rows (r_date r0) (r_date rl))].
Proof.
  unfold plot_history, iloc_first, iloc_last, hgetitem, getitem.
  destruct rows as [|r0 rest]; [done|].
  destruct (PyStr.from_end (r0 :: rest) 1) as [rl|] eqn:E; [|done].
  destruct (d !! "algo_name") as [name|]; [|done].
  destruct (cd !! "timeseries") as [ts|]; [|done].
  intros [= <-]. by exists r0, rest, rl, name, ts.
Qed.

(** A history that was presented to the end. *)
Lemma present_next (w : world) (c : algo_call) (tk : string) (cd : pydict)
    (hj : option string) (l : list event) :
  present w c tk cd hj = (Next tt, l) ->
  exists rows sv r0 rest rl name ts,
    get_history_dataset w c !! tk = Some (HFrame rows)
    /\ saved w hj rows sv
    /\ rows = r0 :: rest /\ PyStr.from_end rows 1 = Some rl
    /\ get_history_dataset w c !! "algo_name" = Some name
    /\ cd !! "timeseries" = Some ts
    /\ l = (sv ++ [Plot (plot_of w tk name ts rows (r_date r0) (r_date rl))])%list.
Proof.
  unfold present, hgetitem.
  destruct (get_history_dataset w c !! tk) as [[rows|v]|] eqn:E; [|done..].
  rewrite (bind_quiet _ _ (HFrame rows) eq_refl). intros H.
  apply bind_next_inv in H as ([] & sv & l2 & Hs & Hp & ->).
  destruct (plot_history_next _ _ _ _ _ _ Hp)
    as (r0 & rest & rl & name & ts & Hr & Hl & Hn & Hts & ->).
  exists rows, sv, r0, rest, rl, name, ts. repeat split; try done.
  destruct (save_history_cases w hj rows)
    as [[-> Hs']|[(f & -> & Hj & Hs')|(f & -> & Hj & Hs')]];
    rewrite Hs' in Hs; [|  |done].
  - injection Hs as <-. by left.
  - injection Hs as <-. right. by exists f.
Qed.

(** A history that was not: nothing is drawn. *)
Lemma present_stop (w : world) (c : algo_call) (tk : string) (cd : pydict)
    (hj : option string) (o : outcome) (l : list event) :
  present w c tk cd hj = (Stop o, l) -> forall e, In e l -> is_plot e = false.
Proof.
  intros H e He.
  destruct (present_cases w c tk cd hj)
    as [[_ P]|[(v & _ & P)|[(rows & f & _ & _ & _ & P)
       |[(rows & sv & x & _ & Hs & P)|(rows & sv & p & _ & Hs & P & _)]]]];
    rewrite P in H; [| | | |done]; injection H as <- <-; try done.
  - by destruct He as [<-|[]].
  - destruct Hs as [[_ ->]|(f & _ & _ & ->)]; [done|by destruct He as [<-|[]]].
Qed.

Section Presented.

Variable ae : consts.
Variable w : world.

(** Where an event that is neither a logged error nor the call of an
    algorithm comes from: the example algorithm succeeded and its history
    was presented. *)
Lemma presented_inv a cd o t e :
  run (run_backtest_and_plot_history ae w a cd) = (o, t) ->
  In e t -> is_log_error e = false -> is_execution e = false ->
  exists st pre c r l,
    resolve_settings ae w a cd = (Next st, [])
    /\ t = (pre ++ RunAlgo c :: l)%list /\ went_on ae w a st pre
    /\ algo_call_of (st_ticker st) (st_start_date st) (st_end_date st)
         (st_config_dict st) = (Next c, [])
    /\ status (run_algo w c) = SUCCESS ae
    /\ present w c (st_ticker st) (st_config_dict st)
         (st_history_json_file st) = (r, l)
    /\ o = outcome_of r /\ In e l.
Proof.
  intros H Hin Hle Hex.
  assert (Hnot : forall l, forallb is_log_error l = true -> In e l -> False).
  { intros l Hl Hl'. by rewrite (log_errors_only _ _ Hl Hl') in Hle. }
  assert (Hpre : forall st pre, went_on ae w a st pre -> In e pre -> False).
  { intros st pre Hp Hp'.
    destruct (went_on_events ae w a st pre _ Hp Hp')
      as (_ & _ & [X|(c & -> & _)]); [by rewrite X in Hle|done]. }
  destruct (run_shape ae w a cd o t H)
    as [(_ & _ & Hl)|(st & Hst & [(pre & l & -> & Hp & Ho & Hl)
       |[(c' & l & -> & Hcall & Ha)|(pre & c' & r & l & -> & Hp & Hc & Ha & Ho)]])].
  - destruct (Hnot _ Hl Hin).
  - apply in_app_or in Hin as [Hin|Hin];
      [destruct (Hpre _ _ Hp Hin)|destruct (Hnot _ Hl Hin)].
  - destruct Hin as [<-|Hin]; [done|].
    destruct (Hnot _ (after_custom_logs _ _ _ _ _ Ha) Hin).
  - apply in_app_or in Hin as [Hin|[<-|Hin]];
      [destruct (Hpre _ _ Hp Hin)|done|].
    destruct (after_default_cases ae w c' (st_ticker st) (st_config_dict st)
                (st_history_json_file st)) as [[_ E]|[Hs E]];
      rewrite E in Ha.
    + injection Ha as <- <-. destruct Hin as [<-|[]]. done.
    + by exists st, pre, c', r, l.
Qed.

End Presented.

(** X7: with a config file that has no ['timeseries'] key nothing is
    ever plotted: the file replaces the configuration as a whole (line
    805), and line 1207 reads [config_dict['timeseries']] without a
    default, unlike line 945. *)
Theorem X7_no_plot_without_timeseries (ae : consts) (w : world) (a : args)
    (cd d : pydict) (f : string) (o : outcome) (t : list event) :
  a_config_file a = Some f -> PyStr.truthy f = true ->
  load_json w f = Some (PDict d) ->
  d !! "timeseries" = None ->
  run (run_backtest_and_plot_history ae w a cd) = (o, t) ->
  forallb (fun e => negb (is_plot e)) t = true.
Proof.
  intros Hf Ht Hj Hd H. apply forallb_forall. intros e Hin.
  destruct e as [| | | |p]; try done. exfalso.
  destruct (presented_inv ae w a cd o t _ H Hin eq_refl eq_refl)
    as (st & pre & c & r & l & Hst & _ & _ & _ & _ & Hp & _ & Hl).
  destruct r as [[]|o'].
  2:{ by pose proof (present_stop _ _ _ _ _ _ _ Hp _ Hl). }
  destruct (present_next _ _ _ _ _ _ Hp)
    as (rows & sv & r0 & rest & rl & name & ts & _ & _ & _ & _ & _ & Hts & _).
  destruct (resolve_settings_inv _ _ _ _ _ _ Hst)
    as (_ & _ & _ & p' & src & Hcfg & ->).
  cbn in Hts. rewrite finalize_other in Hts
    by (apply (bool_decide_unpack _); vm_compute; exact I).
  destruct (apply_config_file_next _ _ _ _ _ _ _ Hcfg)
    as [_ [(Hg & _)|(f' & Hf' & _ & _ & Hj' & _)]].
  - unfold PyStr.given in Hg. rewrite Hf in Hg. congruence.
  - congruence.
Qed.

Lemma X7_no_plot_without_timeseries_witness :
  forallb (fun e => negb (is_plot e))
    (run (run_backtest_and_plot_history Sample.ae
            (Case.config_world (PDict Case.module_only))
            (Case.config_and_outputs false) Case.small_config)).2 = true.
Proof.
  eapply (X7_no_plot_without_timeseries Sample.ae
           (Case.config_world (PDict Case.module_only))
           (Case.config_and_outputs false) Case.small_config
           Case.module_only "cfg.json"
           _ _ eq_refl eq_refl eq_refl);
    [vm_compute; reflexivity|apply surjective_pairing].
Defined.

(* ===================================================================== *)
(** ** The custom path *)
(* ===================================================================== *)

Lemma after_custom_unbound (ae : consts) (a : args) (res : envelope)
    (n : string) :
  first_unbound a = Some n ->
  after_custom ae a res = (Stop (Raised (UnboundLocalError n)), []).
Proof.
  unfold first_unbound, after_custom, local, PyStr.given.
  destruct (a_algo_extract_loc a) as [[|? ?]|]; cbn; try by intros [= <-].
  destruct (a_algo_history_loc a) as [[|? ?]|]; cbn; try by intros [= <-].
  destruct (a_algo_report_loc a) as [[|? ?]|]; cbn; by intros [= <-].
Qed.

Lemma after_custom_bound (ae : consts) (a : args) (res : envelope) :
  first_unbound a = None ->
  after_custom ae a res
  = if a_debug a then
      if (status res =? SUCCESS ae)%Z then mret tt
      else emit (LogError CustomAlgoNotSuccess (err res))
    else
      if (status res =? SUCCESS ae)%Z then mret tt
      else emit (LogError CustomAlgoFailed (err res));; sys_exit 1.
Proof.
  unfold first_unbound, after_custom, local, PyStr.given.
  destruct (a_algo_extract_loc a) as [[|? ?]|]; cbn; try done.
  destruct (a_algo_history_loc a) as [[|? ?]|]; cbn; try done.
  destruct (a_algo_report_loc a) as [[|? ?]|]; cbn; try done.
  by destruct (a_debug a), (status res =? SUCCESS ae)%Z.
Qed.

(** X8: a custom run without all of [-e], [-p] and [-o] does not get
    past its own log line: lines 1034-1039 read [algo_extract_loc],
    [algo_history_loc] and [algo_report_loc], which are bound only under
    [if args.<option>:], so the run ends with [UnboundLocalError] for the
    first of them that is missing, right after [run_custom_algo]
    returned and whatever its status. *)
Theorem X8_custom_run_needs_the_three_outputs (ae : consts) (w : world)
    (a : args) (cd : pydict) (o : outcome) (t : list event)
    (c : custom_call) (n : string) :
  run (run_backtest_and_plot_history ae w a cd) = (o, t) ->
  In (RunCustomAlgo c) t ->
  first_unbound a = Some n ->
  o = Raised (UnboundLocalError n) /\ t = [RunCustomAlgo c].
Proof.
  intros H Hin Hn.
  destruct (custom_run_inv ae w a cd o t c H Hin)
    as (st & _ & _ & [(l & Ha & ->)|(l & rest & Ha & ->)]);
    rewrite (after_custom_unbound ae a _ n Hn) in Ha; [|done].
  by injection Ha as <- <-.
Qed.

Lemma X8_custom_run_needs_the_three_outputs_witness :
  exists c,
    run (run_backtest_and_plot_history Sample.ae Sample.good_world
           Case.module_args Case.small_config)
    = (Raised (UnboundLocalError "algo_extract_loc"), [RunCustomAlgo c]).
Proof.
  assert (exists c,
            In (RunCustomAlgo c)
              (run (run_backtest_and_plot_history Sample.ae Sample.good_world
                      Case.module_args Case.small_config)).2)
    as [c Hin] by (eexists; vm_compute; left; reflexivity).
  exists c.
  destruct (X8_custom_run_needs_the_three_outputs Sample.ae
              Sample.good_world Case.module_args Case.small_config _ _ c
              "algo_extract_loc" (surjective_pairing _) Hin eq_refl)
    as [Ho Ht].
  etrans; [apply surjective_pairing|]. exact (f_equal2 pair Ho Ht).
Defined.

Lemma resolve_channel_rejected (c : chan_name) (o : option string)
    (loc : string) :
  rejected o = Some loc ->
  resolve_channel c o
  = (Stop (Exited 1), [LogError (InvalidLocation c) (PStr loc)]).
Proof.
  unfold rejected, resolve_channel. destruct o as [s|]; [|done].
  destruct (PyStr.truthy s); [|done]. cbn.
  destruct (unsupported s); [|done]. by intros [= <-].
Qed.

Lemma resolve_channel_passes (c : chan_name) (o : option string) :
  rejected o = None -> exists ch, resolve_channel c o = (Next ch, []).
Proof.
  unfold rejected, resolve_channel. destruct o as [s|]; [|by eexists].
  destruct (PyStr.truthy s); [|by eexists]. cbn.
  destruct (unsupported s); [done|]. intros _. apply parse_location_total.
Qed.

(** X9: in a run that uses a custom module (line 837), the four
    locations are checked in the order [-b], [-p], [-o], [-e]: the first
    one that is given and holds none of ["file:/"], ["s3://"],
    ["redis://"] ends the run with its own error and exit status 1 before
    anything runs; when none is rejected, [run_custom_algo] is the first
    thing that happens. *)
Theorem X9_custom_location_checks (ae : consts) (w : world) (a : args)
    (cd : pydict) (st : settings) :
  resolve_settings ae w a cd = (Next st, []) ->
  truth (st_algo_mod_path st) = true ->
  match first_rejected a with
  | Some (ch, loc) =>
      run (run_backtest_and_plot_history ae w a cd)
      = (Exited 1, [LogError (InvalidLocation ch) (PStr loc)])
  | None =>
      exists c l,
        (run (run_backtest_and_plot_history ae w a cd)).2
        = RunCustomAlgo c :: l
  end.
Proof.
  intros Hst Ht.
  assert (Hrun : run (run_backtest_and_plot_history ae w a cd)
                 = match custom_stage ae w a st with
                   | (Stop o, l) => (o, l)
                   | (Next _, l) =>
                       let (o, l') := run (default_stage ae w a st) in
                       (o, (l ++ l')%list)
                   end).
  { unfold run_backtest_and_plot_history. rewrite run_bind, Hst.
    rewrite run_bind.
    destruct (custom_stage ae w a st) as [[[]|o] l]; [|done].
    by destruct (run (default_stage ae w a st)). }
  rewrite Hrun. unfold custom_stage. rewrite Ht.
  unfold run_custom, custom_call_of, first_rejected.
  destruct (rejected (a_backtest_loc a)) as [loc|] eqn:Eb.
  { by rewrite (resolve_channel_rejected Backtest _ _ Eb). }
  destruct (resolve_channel_passes Backtest _ Eb) as [c1 ->].
  rewrite (bind_quiet _ _ c1 eq_refl).
  destruct (rejected (a_algo_history_loc a)) as [loc|] eqn:Eh.
  { by rewrite (resolve_channel_rejected History _ _ Eh). }
  destruct (resolve_channel_passes History _ Eh) as [c2 ->].
  rewrite (bind_quiet _ _ c2 eq_refl).
  destruct (rejected (a_algo_report_loc a)) as [loc|] eqn:Er.
  { by rewrite (resolve_channel_rejected Report _ _ Er). }
  destruct (resolve_channel_passes Report _ Er) as [c3 ->].
  rewrite (bind_quiet _ _ c3 eq_refl).
  destruct (rejected (a_algo_extract_loc a)) as [loc|] eqn:Ee.
  { by rewrite (resolve_channel_rejected Extract _ _ Ee). }
  destruct (resolve_channel_passes Extract _ Ee) as [c4 ->].
  rewrite (bind_quiet _ _ c4 eq_refl).
  destruct (resolve_settings_inv _ _ _ _ _ _ Hst)
    as (_ & _ & _ & p & src & _ & ->).
  cbn [st_config_dict settings_of].
  rewrite (getitem_some _ _ _ (finalize_ticker _ _ _)).
  rewrite (bind_quiet _ _ _ eq_refl).
  rewrite (getitem_some _ _ _ (finalize_balance _ _ _)).
  repeat rewrite (bind_quiet _ _ _ eq_refl). rewrite bind_ret.
  match goal with
  | |- context [emit (RunCustomAlgo ?c)] => set (call := c)
  end.
  destruct (after_custom ae a (run_custom_algo w call)) as [[[]|o] l] eqn:E.
  - destruct (run (default_stage ae w a _)) as [o' l'].
    by exists call, (l ++ l')%list.
  - by exists call, l.
Qed.

Lemma X9_custom_location_checks_witness :
  run (run_backtest_and_plot_history Sample.ae Sample.good_world
         Case.two_bad_locations Case.small_config)
  = (Exited 1, [LogError (InvalidLocation History) (PStr "ftp://history")]).
Proof.
  exact (X9_custom_location_checks Sample.ae Sample.good_world
           Case.two_bad_locations Case.small_config
           (settings_of Sample.ae Case.two_bad_locations
              (PStr "/opt/sa/algo.py") Case.small_config)
           ltac:(vm_compute; reflexivity) eq_refl).
Defined.

(** Once the custom path got to [run_custom_algo], the rest of the
    function gets to [run_algo]: the backtest location was accepted
    before and the config has its ticker. *)
Lemma default_stage_after_custom (ae : consts) (w : world) (a : args)
    (st : settings) (c : custom_call) :
  custom_call_at a st c ->
  exists c' r l,
    algo_call_of (st_ticker st) (st_start_date st) (st_end_date st)
      (st_config_dict st) = (Next c', [])
    /\ after_default ae w c' (st_ticker st) (st_config_dict st)
         (st_history_json_file st) = (r, l)
    /\ default_stage ae w a st = (r, RunAlgo c' :: l).
Proof.
  intros [_ Hc].
  destruct (custom_call_of_defaults _ _ _ _ _ _ _ _ Hc) as (_ & _ & _ & _ & Hb).
  destruct (custom_call_of_next _ _ _ _ _ _ _ _ Hc) as (_ & _ & _ & Htk & _).
  assert (exists q, resolve_load_config a (st_ticker st) (st_conn st)
                    = (Next q, [])) as [q Hq].
  { unfold resolve_load_config.
    destruct (a_backtest_loc a) as [loc|]; [|by eexists].
    destruct (PyStr.truthy loc) eqn:Ht; [|by eexists].
    rewrite (bind_quiet _ _ _ Hb). by eexists. }
  destruct (default_stage_cases ae w a st)
    as [(o & l & Hd & _ & Hl)|(c' & r & l & H1 & H2 & H3)];
    [|by exists c', r, l].
  unfold default_stage, run_default, algo_call_of in Hd.
  rewrite (bind_quiet _ _ _ Hq), (getitem_some _ _ _ Htk) in Hd.
  rewrite (bind_quiet _ _ _ eq_refl), bind_ret in Hd.
  unfold mbind, M_bind, bind, emit in Hd.
  destruct (after_default _ _ _ _ _ _) in Hd. injection Hd as _ <-. done.
Qed.

(** X11: under [-d] a custom run whose status is not SUCCESS does not
    end the run: the failure is logged and the example algorithm is
    called next (lines 1066-1079; without [-d] line 1090 exits). *)
Theorem X11_debug_goes_on_after_a_failed_custom_run (ae : consts)
    (w : world) (a : args) (cd : pydict) (o : outcome) (t : list event)
    (c : custom_call) :
  run (run_backtest_and_plot_history ae w a cd) = (o, t) ->
  In (RunCustomAlgo c) t ->
  first_unbound a = None ->
  a_debug a = true ->
  status (run_custom_algo w c) <> SUCCESS ae ->
  exists d c' l,
    t = RunCustomAlgo c :: LogError CustomAlgoNotSuccess d :: RunAlgo c' :: l.
Proof.
  intros H Hin Hn Hd Hs.
  destruct (custom_run_inv ae w a cd o t c H Hin) as (st & Hst & Hc & _).
  destruct (default_stage_after_custom ae w a st c Hc)
    as (c' & r & l & _ & _ & Hdef).
  exists (err (run_custom_algo w c)), c', l. revert H.
  unfold run_backtest_and_plot_history. rewrite run_bind, Hst, run_bind.
  destruct Hc as [Ht Hc]. unfold custom_stage, run_custom.
  rewrite Ht, (bind_quiet _ _ _ Hc), (after_custom_bound _ _ _ Hn), Hd.
  apply Z.eqb_neq in Hs. rewrite Hs, Hdef.
  destruct r as [[]|o']; cbn; by intros [= _ <-].
Qed.

Lemma X11_debug_goes_on_after_a_failed_custom_run_witness :
  exists c d c' l,
    (run (run_backtest_and_plot_history Sample.ae
            (Sample.world_of (Some (PDict Case.other_config)) Sample.failed
               Sample.ok (Sample.history (HFrame Sample.rows)) true)
            (Case.config_and_outputs true) Case.small_config)).2
    = RunCustomAlgo c :: LogError CustomAlgoNotSuccess d :: RunAlgo c' :: l.
Proof.
  assert (exists c,
            In (RunCustomAlgo c)
              (run (run_backtest_and_plot_history Sample.ae
                      (Sample.world_of (Some (PDict Case.other_config))
                         Sample.failed Sample.ok
                         (Sample.history (HFrame Sample.rows)) true)
                      (Case.config_and_outputs true) Case.small_config)).2)
    as [c Hin] by (eexists; vm_compute; left; reflexivity).
  exists c.
  exact (X11_debug_goes_on_after_a_failed_custom_run Sample.ae
           (Sample.world_of (Some (PDict Case.other_config)) Sample.failed
              Sample.ok (Sample.history (HFrame Sample.rows)) true)
           (Case.config_and_outputs true) Case.small_config _ _ c
           (surjective_pairing _) Hin eq_refl eq_refl
           ltac:(intros X; discriminate X)).
Defined.

(** X16: when both algorithms run in one invocation the custom one
    comes first, only logged errors lie between the two calls, and both
    get the same finalized configuration, the same ticker and the same
    date bounds (lines 952-962 and 1154-1163). *)
Theorem X16_both_runs_share_their_inputs (ae : consts) (w : world)
    (a : args) (cd : pydict) (o : outcome) (t : list event)
    (c : custom_call) (c' : algo_call) :
  run (run_backtest_and_plot_history ae w a cd) = (o, t) ->
  In (RunCustomAlgo c) t -> In (RunAlgo c') t ->
  (exists l1 l2, t = (RunCustomAlgo c :: l1 ++ RunAlgo c' :: l2)%list
                 /\ forallb is_log_error l1 = true)
  /\ ac_algo_config c' = cc_config_dict c
  /\ ac_algo_ticker c' = cc_ticker c
  /\ cc_ticker c = PStr (ac_ticker c')
  /\ ac_start_date c' = cc_start_date c
  /\ ac_end_date c' = cc_end_date c.
Proof.
  intros H Hc Hc'.
  destruct (algo_run_inv ae w a cd o t c' H Hc')
    as (st & pre & r & l & Hst & -> & Hpre & Hcall' & Ha & _).
  assert (Hin : In (RunCustomAlgo c) pre).
  { apply in_app_or in Hc as [Hc|[Hc|Hc]]; [done|done|].
    by pose proof (after_default_no_execution ae w _ _ _ _ _ _ _ Ha Hc). }
  destruct Hpre as [->|(c0 & l1 & -> & Hcall & Hl1)]; [done|].
  pose proof (after_custom_logs _ _ _ _ _ Hl1) as Hlog.
  destruct Hin as [[= ->]|Hin].
  2:{ by pose proof (log_errors_only _ _ Hlog Hin). }
  destruct Hcall as [_ Hcall].
  destruct (custom_call_of_next _ _ _ _ _ _ _ _ Hcall)
    as (_ & _ & Hcd & Htk & _ & _ & Hsd & Hed).
  destruct (algo_call_of_next _ _ _ _ _ _ Hcall')
    as (_ & Htk' & Hcd' & Htk'' & Hsd' & Hed').
  destruct (resolve_settings_inv _ _ _ _ _ _ Hst)
    as (_ & _ & _ & p & src & _ & ->).
  cbn in *. rewrite finalize_ticker in Htk, Htk''.
  injection Htk as <-. injection Htk'' as <-.
  split; [by exists l1, l|]. by rewrite Hcd, Hcd', Htk', Hsd, Hsd', Hed, Hed'.
Qed.

Lemma X16_both_runs_share_their_inputs_witness :
  exists c c',
    In (RunCustomAlgo c)
      (run (run_backtest_and_plot_history Sample.ae Sample.good_world
              Sample.custom_args Case.small_config)).2
    /\ In (RunAlgo c')
         (run (run_backtest_and_plot_history Sample.ae Sample.good_world
                 Sample.custom_args Case.small_config)).2
    /\ ac_algo_config c' = cc_config_dict c
    /\ cc_ticker c = PStr (ac_ticker c').
Proof.
  assert (exists c c',
            In (RunCustomAlgo c)
              (run (run_backtest_and_plot_history Sample.ae Sample.good_world
                      Sample.custom_args Case.small_config)).2
            /\ In (RunAlgo c')
                 (run (run_backtest_and_plot_history Sample.ae
                         Sample.good_world Sample.custom_args
                         Case.small_config)).2)
    as (c & c' & Hc & Hc').
  { do 2 eexists. vm_compute. split; [left; reflexivity|].
    right. left. reflexivity. }
  exists c, c'. split; [exact Hc|]. split; [exact Hc'|].
  destruct (X16_both_runs_share_their_inputs Sample.ae Sample.good_world
              Sample.custom_args Case.small_config _ _ c c'
              (surjective_pairing _) Hc Hc')
    as (_ & Hcd & _ & Htk & _).
  split; [exact Hcd|exact Htk].
Defined.

(* ===================================================================== *)
(** ** The saved history and the plot *)
(* ===================================================================== *)

Lemma saved_no_plot (w : world) (hj : option string) (rows : list row)
    (sv : list event) (e : event) :
  saved w hj rows sv -> In e sv -> is_plot e = false.
Proof.
  intros [[_ ->]|(f & _ & _ & ->)]; [done|]. by intros [<-|[]].
Qed.

(** X12: the plot is drawn at most once, as the last thing a run does,
    and the run then returns normally.  It comes after an example run
    whose status is SUCCESS, shows the frame the history holds for the
    ticker, which has a first and a last row, with the row filter
    [close > 0.01] of that frame; title, labels, x column and date format
    are the ones lines 1196-1243 build from the ticker, the history's
    [algo_name], the first and last date and the config's
    ['timeseries']. *)
Theorem X12_where_the_plot_comes_from (ae : consts) (w : world) (a : args)
    (cd : pydict) (o : outcome) (t : list event) (p : plot_call) :
  run (run_backtest_and_plot_history ae w a cd) = (o, t) ->
  In (Plot p) t ->
  o = Returned
  /\ exists t' c rows r0 rest rl name ts,
       t = (t' ++ [Plot p])%list
       /\ forallb (fun e => negb (is_plot e)) t' = true
       /\ In (RunAlgo c) t'
       /\ status (run_algo w c) = SUCCESS ae
       /\ get_history_dataset w c !! ac_ticker c = Some (HFrame rows)
       /\ rows = r0 :: rest /\ PyStr.from_end rows 1 = Some rl
       /\ get_history_dataset w c !! "algo_name" = Some name
       /\ ac_algo_config c !! "timeseries" = Some ts
       /\ p = plot_of w (ac_ticker c) name ts rows (r_date r0) (r_date rl).
Proof.
  intros H Hin.
  destruct (presented_inv ae w a cd o t _ H Hin eq_refl eq_refl)
    as (st & pre & c & r & l & Hst & -> & Hpre & Hc & Hs & Hp & -> & Hl).
  destruct r as [[]|o'].
  2:{ by pose proof (present_stop _ _ _ _ _ _ _ Hp _ Hl). }
  destruct (present_next _ _ _ _ _ _ Hp)
    as (rows & sv & r0 & rest & rl & name & ts
        & Hh & Hsv & Hr & Hrl & Hn & Hts & ->).
  destruct (algo_call_of_next _ _ _ _ _ _ Hc) as (_ & Htk & Hcd & _).
  split; [done|].
  assert (Hp' : p = plot_of w (st_ticker st) name ts rows (r_date r0)
                      (r_date rl)).
  { apply in_app_or in Hl as [Hl|[[= <-]|[]]]; [|done].
    by pose proof (saved_no_plot _ _ _ _ _ Hsv Hl). }
  exists (pre ++ RunAlgo c :: sv)%list, c, rows, r0, rest, rl, name, ts.
  rewrite Htk, Hcd. repeat split; try done.
  - rewrite <- app_assoc, <- app_comm_cons. by rewrite Hp'.
  - apply forallb_forall. intros e [He|[<-|He]]%in_app_or; [|done|].
    + by destruct (went_on_events ae w a st pre e Hpre He) as (_ & -> & _).
    + by rewrite (saved_no_plot _ _ _ _ _ Hsv He).
  - apply in_or_app. right. by left.
Qed.

Lemma X12_where_the_plot_comes_from_witness :
  exists p t' rows,
    run (run_backtest_and_plot_history Sample.ae Sample.good_world
           Sample.plain Case.small_config)
    = (Returned, (t' ++ [Plot p])%list)
    /\ forallb (fun e => negb (is_plot e)) t' = true
    /\ pc_df p = rows /\ pc_df_filter p = df_filter rows.
Proof.
  assert (exists p,
            In (Plot p)
              (run (run_backtest_and_plot_history Sample.ae Sample.good_world
                      Sample.plain Case.small_config)).2)
    as [p Hin] by (eexists; vm_compute; right; left; reflexivity).
  destruct (X12_where_the_plot_comes_from Sample.ae Sample.good_world
              Sample.plain Case.small_config _ _ p
              (surjective_pairing _) Hin)
    as (Ho & t' & c & rows & r0 & rest & rl & name & ts
        & Ht & Hnp & _ & _ & _ & _ & _ & _ & _ & Hp).
  exists p, t', rows. split.
  { etrans; [apply surjective_pairing|]. exact (f_equal2 pair Ho Ht). }
  split; [exact Hnp|]. rewrite Hp. split; reflexivity.
Defined.

Lemma present_to_json (w : world) (c : algo_call) (tk : string)
    (cd : pydict) (hj : option string) (r : step unit) (l : list event)
    (f : string) (rows : list row) :
  present w c tk cd hj = (r, l) -> In (ToJson f rows) l ->
  hj = Some f /\ get_history_dataset w c !! tk = Some (HFrame rows).
Proof.
  intros H Hin.
  destruct (present_cases w c tk cd hj)
    as [[_ P]|[(v & _ & P)|[(rows' & f' & Hh & -> & _ & P)
       |[(rows' & sv & x & Hh & Hs & P)|(rows' & sv & p & Hh & Hs & P & _)]]]];
    rewrite P in H; injection H as <- <-; try done.
  - by destruct Hin as [[= <- <-]|[]].
  - destruct Hs as [[_ ->]|(f' & -> & _ & ->)]; [done|].
    by destruct Hin as [[= <- <-]|[]].
  - destruct Hs as [[_ ->]|(f' & -> & _ & ->)];
      [by destruct Hin as [|[]]|].
    by destruct Hin as [[= <- <-]|[|[]]].
Qed.

Lemma present_saves (w : world) (c : algo_call) (tk : string)
    (cd : pydict) (f : string) (r : step unit) (l : list event)
    (rows : list row) :
  present w c tk cd (Some f) = (r, l) ->
  get_history_dataset w c !! tk = Some (HFrame rows) ->
  In (ToJson f rows) l.
Proof.
  intros H Hh.
  destruct (present_cases w c tk cd (Some f))
    as [[Hh' P]|[(v & Hh' & P)|[(rows' & f' & Hh' & [= <-] & _ & P)
       |[(rows' & sv & x & Hh' & Hs & P)|(rows' & sv & p & Hh' & Hs & P & _)]]]];
    rewrite P in H; injection H as <- <-; rewrite Hh in Hh';
    try done; injection Hh' as <-.
  - by left.
  - destruct Hs as [[? _]|(f' & [= <-] & _ & ->)]; [done|by left].
  - destruct Hs as [[? _]|(f' & [= <-] & _ & ->)]; [done|by left].
Qed.

(** X13: the history is written exactly when [-f] is given and the
    example run, with status SUCCESS, has a frame for the ticker: then
    [to_json] gets that path and that frame, before anything is read from
    the frame, so also when it has no rows; and [to_json] is never
    called otherwise (lines 1165-1192). *)
Theorem X13_when_the_history_is_written (ae : consts) (w : world)
    (a : args) (cd : pydict) (o : outcome) (t : list event) :
  run (run_backtest_and_plot_history ae w a cd) = (o, t) ->
  (forall f rows,
     In (ToJson f rows) t ->
     a_history_json_file a = Some f /\ PyStr.truthy f = true
     /\ exists c,
          In (RunAlgo c) t /\ status (run_algo w c) = SUCCESS ae
          /\ get_history_dataset w c !! ac_ticker c = Some (HFrame rows))
  /\ (forall c rows f,
        In (RunAlgo c) t -> status (run_algo w c) = SUCCESS ae ->
        get_history_dataset w c !! ac_ticker c = Some (HFrame rows) ->
        a_history_json_file a = Some f -> PyStr.truthy f = true ->
        In (ToJson f rows) t).
Proof.
  intros H. split.
  - intros f rows Hin.
    destruct (presented_inv ae w a cd o t _ H Hin eq_refl eq_refl)
      as (st & pre & c & r & l & Hst & -> & _ & Hc & Hs & Hp & _ & Hl).
    destruct (present_to_json _ _ _ _ _ _ _ _ _ Hp Hl) as [Hj Hh].
    destruct (algo_call_of_next _ _ _ _ _ _ Hc) as (_ & Htk & _).
    destruct (resolve_settings_inv _ _ _ _ _ _ Hst)
      as (_ & _ & _ & p & src & _ & ->).
    cbn in Hj, Htk, Hh. unfold keep_given, PyStr.given in Hj.
    destruct (a_history_json_file a) as [f'|]; [|done].
    destruct (PyStr.truthy f') eqn:Ht; [|done]. injection Hj as ->.
    repeat split; try done. exists c. rewrite Htk.
    repeat split; try done. apply in_or_app. right. by left.
  - intros c rows f Hin Hs Hh Hf Ht.
    destruct (algo_run_inv ae w a cd o t c H Hin)
      as (st & pre & r & l & Hst & -> & _ & Hc & Ha & _).
    destruct (algo_call_of_next _ _ _ _ _ _ Hc) as (_ & Htk & _).
    destruct (after_default_cases ae w c (st_ticker st) (st_config_dict st)
                (st_history_json_file st)) as [[Hs' _]|[_ E]]; [done|].
    rewrite E in Ha.
    destruct (resolve_settings_inv _ _ _ _ _ _ Hst)
      as (_ & _ & _ & p & src & _ & ->).
    cbn in Ha, Htk. unfold keep_given, PyStr.given in Ha.
    rewrite Hf, Ht in Ha. rewrite Htk in Hh.
    apply in_or_app. right. right.
    exact (present_saves _ _ _ _ _ _ _ _ Ha Hh).
Qed.

Lemma X13_when_the_history_is_written_witness :
  In (ToJson "/readonly/history.json" [])
    (run (run_backtest_and_plot_history Sample.ae Sample.empty_history
            Sample.save_args Case.small_config)).2.
Proof.
  assert (exists c,
            In (RunAlgo c)
              (run (run_backtest_and_plot_history Sample.ae
                      Sample.empty_history Sample.save_args
                      Case.small_config)).2
            /\ ac_ticker c = "SPY")
    as (c & Hin & Htk) by (eexists; vm_compute; split; [left|]; reflexivity).
  apply (proj2 (X13_when_the_history_is_written Sample.ae
                  Sample.empty_history Sample.save_args Case.small_config
                  _ _ (surjective_pairing _))
           c [] "/readonly/history.json" Hin eq_refl);
    [rewrite Htk; vm_compute; reflexivity|reflexivity|reflexivity].
Defined.

Lemma plot_history_some (w : world) (d : gmap string hval) (tk : string)
    (cd : pydict) (body : list row) (rl : row) (name : hval) (ts : pyval) :
  d !! "algo_name" = Some name -> cd !! "timeseries" = Some ts ->
  plot_history w d tk cd (body ++ [rl])
  = (Next tt,
     [Plot (plot_of w tk name ts (body ++ [rl])%list
              (r_date (hd rl body)) (r_date rl))]).
Proof.
  intros Hn Hts. unfold plot_history, iloc_last, hgetitem, getitem.
  rewrite PyStrFacts.from_end_last, Hn, Hts.
  by destruct body.
Qed.

Lemma resolve_load_config_passes (a : args) (tk : string) (cn : conn) :
  rejected (a_backtest_loc a) = None ->
  exists q, resolve_load_config a tk cn = (Next q, []).
Proof.
  intros H. unfold resolve_load_config.
  destruct (a_backtest_loc a) as [loc|] eqn:E; [|by eexists].
  destruct (PyStr.truthy loc) eqn:Ht; [|by eexists].
  destruct (resolve_channel_passes Backtest (Some loc) H) as [ch Hch].
  rewrite (bind_quiet _ _ _ Hch). by eexists.
Qed.

Lemma after_default_plots (ae : consts) (w : world) (c : algo_call)
    (tk : string) (cfg : pydict) (hj : option string) (body : list row)
    (rl : row) (name : hval) (ts : pyval) :
  status (run_algo w c) = SUCCESS ae ->
  get_history_dataset w c !! tk = Some (HFrame (body ++ [rl])) ->
  get_history_dataset w c !! "algo_name" = Some name ->
  cfg !! "timeseries" = Some ts ->
  (forall f, hj = Some f -> to_json w f (body ++ [rl]) = true) ->
  after_default ae w c tk cfg hj
  = (Next tt,
     (match hj with
      | Some f => [ToJson f (body ++ [rl])%list]
      | None => []
      end
      ++ [Plot (plot_of w tk name ts (body ++ [rl])%list
                 (r_date (hd rl body)) (r_date rl))])%list).
Proof.
  intros Hst Hh Hn Hts Hj.
  unfold after_default. apply Z.eqb_eq in Hst. rewrite Hst. cbn [negb].
  unfold present, hgetitem. rewrite Hh, bind_ret.
  rewrite (plot_history_some _ _ _ _ _ _ _ _ Hn Hts).
  unfold save_history. destruct hj as [f|]; [|done].
  by rewrite (Hj f eq_refl).
Qed.

(** X15: the plain run.  Without [-g] and [-c], with dates that parse
    and a backtest location that is not rejected, if the example run has
    status SUCCESS, its history holds a frame with at least one row for
    the ticker and an [algo_name], the config has a ['timeseries'], and
    writing the history (when [-f] is given) succeeds, then the run
    returns normally having called [run_algo], then [to_json] when [-f]
    is given, then the plot, and nothing else. *)
Theorem X15_plain_run_plots (ae : consts) (w : world) (a : args)
    (cd : pydict) (body : list row) (rl : row) (name : hval) (ts : pyval) :
  let ticker := resolve_ticker ae a in
  let config := finalize_config a ticker cd in
  let c := {| ac_algo_ticker := PStr ticker;
              ac_algo_config := config;
              ac_ticker := ticker;
              ac_start_date := date_bound (a_start_date a);
              ac_end_date := date_bound (a_end_date a);
              ac_raise_on_err := true |} in
  let rows := (body ++ [rl])%list in
  valid_date_arg (a_start_date a) = true ->
  valid_date_arg (a_end_date a) = true ->
  PyStr.given (a_run_algo_in_file a) = false ->
  PyStr.given (a_config_file a) = false ->
  rejected (a_backtest_loc a) = None ->
  status (run_algo w c) = SUCCESS ae ->
  get_history_dataset w c !! ticker = Some (HFrame rows) ->
  get_history_dataset w c !! "algo_name" = Some name ->
  cd !! "timeseries" = Some ts ->
  (forall f, keep_given (a_history_json_file a) = Some f ->
             to_json w f rows = true) ->
  run (run_backtest_and_plot_history ae w a cd)
  = (Returned,
     (RunAlgo c
      :: match keep_given (a_history_json_file a) with
         | Some f => [ToJson f rows]
         | None => []
         end
      ++ [Plot (plot_of w ticker name ts rows
                 (r_date (hd rl body)) (r_date rl))])%list).
Proof.
  intros ticker config c rows Hs He Hg Hc Hb Hst Hh Hn Hts Hj.
  subst ticker config c rows.
  assert (Hok : algo_file_ok w a = true /\ algo_arg a = PNone).
  { unfold algo_file_ok, algo_arg, PyStr.given in *.
    destruct (a_run_algo_in_file a) as [g|]; [|done]. by rewrite Hg. }
  destruct Hok as [Hok Harg].
  assert (Hcfg : apply_config_file w a (algo_arg a) cd = (Next (PNone, cd), [])).
  { unfold apply_config_file, PyStr.given in *. rewrite Harg.
    destruct (a_config_file a) as [f|]; [|done]. by rewrite Hc. }
  pose proof (resolve_settings_config_next ae w a cd Hs He Hok _ _ Hcfg)
    as Hset.
  unfold run_backtest_and_plot_history. rewrite run_bind, Hset, run_bind.
  unfold custom_stage, default_stage. cbn [settings_of st_algo_mod_path truth
    st_ticker st_conn st_start_date st_end_date st_config_dict
    st_history_json_file].
  destruct (resolve_load_config_passes a (resolve_ticker ae a)
              (resolve_conn ae a) Hb) as [q Hq].
  rewrite (bind_quiet _ _ _ Hq).
  unfold run_default, algo_call_of.
  rewrite (getitem_some _ _ _ (finalize_ticker a (resolve_ticker ae a) cd)).
  rewrite (bind_quiet _ _ _ eq_refl), bind_ret.
  unfold mbind at 1, M_bind at 1, bind at 1, emit.
  rewrite (after_default_plots ae w _ _ _ _ body rl name ts Hst Hh Hn);
    [done| |done].
  rewrite finalize_other; [done|].
  apply (bool_decide_unpack _). vm_compute. exact I.
Qed.

Lemma X15_plain_run_plots_witness :
  exists c p,
    run (run_backtest_and_plot_history Sample.ae Sample.good_world
           Sample.save_args Case.small_config)
    = (Returned,
       [RunAlgo c; ToJson "/readonly/history.json" Sample.rows; Plot p]).
Proof.
  do 2 eexists.
  apply (X15_plain_run_plots Sample.ae Sample.good_world Sample.save_args
           Case.small_config
           [Sample.bar "2018-11-29 09:30:00" 273.5 10000.0]
           (Sample.bar "2018-11-29 09:31:00" 273.75 9994.0)
           (HPlain (PStr "backtest")) (PStr "minute")
           eq_refl eq_refl eq_refl eq_refl eq_refl eq_refl);
    [vm_compute; reflexivity|vm_compute; reflexivity|vm_compute; reflexivity|].
  intros f _. reflexivity.
Defined.

(* ===================================================================== *)
(** ** Options that are not read *)
(* ===================================================================== *)

Lemma check_date_invalid (f : failure) (o : option string) :
  valid_date_arg o = false ->
  exists s, check_date f o = (Stop (Exited 1), [LogError f (PStr s)]).
Proof.
  unfold valid_date_arg, check_date.
  destruct o as [s|]; [|done]. destruct (PyStr.truthy s); [|done].
  destruct (PyDate.strptime s); [done|]. by exists s.
Qed.

(** The run without a custom module, from the values it reads. *)
Lemma plain_run (ae : consts) (w : world) (a : args) (cd : pydict) :
  PyStr.given (a_run_algo_in_file a) = false ->
  PyStr.given (a_config_file a) = false ->
  run (run_backtest_and_plot_history ae w a cd)
  = run (sd ← check_date BadStartDate (a_start_date a);
         ed ← check_date BadEndDate (a_end_date a);
         match rejected (a_backtest_loc a) with
         | Some loc =>
             emit (LogError (InvalidLocation Backtest) (PStr loc));;
             sys_exit 1
         | None =>
             run_default ae w (resolve_ticker ae a) sd ed
               (finalize_config a (resolve_ticker ae a) cd)
               (keep_given (a_history_json_file a))
         end).
Proof.
  intros Hg Hc. f_equal.
  unfold run_backtest_and_plot_history, resolve_settings.
  assert (Hmod : algo_module_from_args w a = (Next PNone, [])).
  { unfold algo_module_from_args, PyStr.given in *.
    destruct (a_run_algo_in_file a) as [g|]; [|done]. by rewrite Hg. }
  assert (Hcfg : apply_config_file w a PNone cd = (Next (PNone, cd), [])).
  { unfold apply_config_file, PyStr.given in *.
    destruct (a_config_file a) as [f|]; [|done]. by rewrite Hc. }
  destruct (check_date BadStartDate (a_start_date a)) as [[sd|o1] l1] eqn:E1;
    [|done].
  pose proof (quiet_next _ _ _ (guard_check_date _ _) E1) as ->.
  rewrite !(bind_quiet _ _ sd eq_refl).
  destruct (check_date BadEndDate (a_end_date a)) as [[ed|o2] l2] eqn:E2;
    [|done].
  pose proof (quiet_next _ _ _ (guard_check_date _ _) E2) as ->.
  rewrite !(bind_quiet _ _ ed eq_refl).
  rewrite (bind_quiet _ _ _ Hmod), (bind_quiet _ _ _ Hcfg), bind_ret.
  unfold custom_stage, default_stage. cbn [st_algo_mod_path truth st_ticker
    st_conn st_start_date st_end_date st_config_dict st_history_json_file].
  rewrite bind_ret.
  destruct (rejected (a_backtest_loc a)) as [loc|] eqn:Eb.
  - unfold resolve_load_config.
    unfold rejected in Eb. destruct (a_backtest_loc a) as [loc'|]; [|done].
    destruct (PyStr.truthy loc') eqn:Ht; [|done]. cbn in Eb.
    destruct (unsupported loc') eqn:Hu; [|done]. injection Eb as ->.
    by rewrite (resolve_channel_rejects Backtest loc Ht Hu).
  - destruct (resolve_load_config_passes a (resolve_ticker ae a)
                (resolve_conn ae a) Eb) as [q Hq].
    by rewrite (bind_quiet _ _ _ Hq).
Qed.

(** X17: without a custom module (no [-g], no [-c]) a run is
    determined by [-t], [-s], [-n], [-f], [-j], [-d], the four flags
    copied into the config and the rejection of [-b]: the output
    locations [-p], [-o] and [-e] (which are only looked at under
    [if algo_mod_path:], so that an unsupported one goes unnoticed), the
    connection options and the text of an accepted [-b] have no effect on
    what is run, written and plotted. *)
Theorem X17_what_the_plain_run_reads (ae : consts) (w : world)
    (a a' : args) (cd : pydict) :
  PyStr.given (a_run_algo_in_file a) = false ->
  PyStr.given (a_config_file a) = false ->
  PyStr.given (a_run_algo_in_file a') = false ->
  PyStr.given (a_config_file a') = false ->
  same_plain_inputs a a' ->
  run (run_backtest_and_plot_history ae w a cd)
  = run (run_backtest_and_plot_history ae w a' cd).
Proof.
  intros Hg Hc Hg' Hc'
    (Htk & Hs & He & Hf & Hj & H1 & H2 & H3 & H4 & _ & Hb).
  rewrite (plain_run ae w a cd Hg Hc), (plain_run ae w a' cd Hg' Hc').
  assert (Hcd : forall tk, finalize_config a tk cd = finalize_config a' tk cd).
  { intros tk. unfold finalize_config. by rewrite Hj, H1, H2, H3, H4. }
  unfold resolve_ticker. by rewrite Htk, Hs, He, Hf, Hb, Hcd.
Qed.

Lemma X17_what_the_plain_run_reads_witness :
  run (run_backtest_and_plot_history Sample.ae Sample.good_world
         Case.unread_options Case.small_config)
  = run (run_backtest_and_plot_history Sample.ae Sample.good_world
           Sample.plain Case.small_config).
Proof.
  apply (X17_what_the_plain_run_reads Sample.ae Sample.good_world
           Case.unread_options Sample.plain Case.small_config
           eq_refl eq_refl eq_refl eq_refl).
  repeat split; reflexivity.
Defined.

(* ===================================================================== *)
(** ** What a location is cut into *)
(* ===================================================================== *)

(** The items of [s.split(sep)] hold no separator. *)
Lemma split_items_free (sep : ascii) (s x : string) :
  In x (PyStr.split sep s) -> free_of sep x = true.
Proof.
  revert x. induction s as [|c s IH]; intros x; cbn [PyStr.split].
  - by intros [<-|[]].
  - destruct (Ascii.eqb c sep) eqn:Hc.
    + intros [<-|Hx]; [done|by apply IH].
    + destruct (PyStr.split sep s) as [|h t] eqn:E;
        [by destruct (PyStrFacts.split_nonempty sep s)|].
      intros [<-|Hx].
      * cbn. rewrite Hc. cbn. apply IH. by left.
      * apply IH. by right.
Qed.

(** The text is its items joined by the separator: cutting the last
    item off leaves the text before the last separator. *)
Lemma split_snoc (sep : ascii) (s : string) (l : list string) (x : string) :
  PyStr.split sep s = (l ++ [x])%list -> l <> [] ->
  exists pre, s = pre ++ String sep x /\ PyStr.split sep pre = l.
Proof.
  revert l. induction s as [|c s IH]; intros l; cbn [PyStr.split].
  - destruct l as [|? [|? ?]]; done.
  - destruct (Ascii.eqb_spec c sep) as [->|Hc].
    + destruct l as [|h l]; [done|]. intros [= <- Hs] _.
      destruct l as [|h' l].
      * destruct (PyStrFacts.split_single sep s x Hs) as [_ ->].
        by exists "".
      * destruct (IH (h' :: l) Hs) as (pre & -> & Hpre); [done|].
        exists (String sep pre). split; [done|].
        by rewrite PyStrFacts.split_cons_sep, Hpre.
    + destruct (PyStr.split sep s) as [|h t] eqn:E;
        [by destruct (PyStrFacts.split_nonempty sep s)|].
      destruct l as [|h0 l]; [done|]. intros [= <- Ht] _.
      destruct (IH (h :: l)) as (pre & -> & Hpre); [by rewrite Ht|done|].
      exists (String c pre). split; [done|].
      cbn [PyStr.split]. apply Ascii.eqb_neq in Hc. by rewrite Hc, Hpre.
Qed.

Lemma append_append (x y z : string) : (x ++ y) ++ z = x ++ y ++ z.
Proof.
  induction x as [|c x IH]; [done|].
  rewrite !PyStrFacts.append_cons. by rewrite IH.
Qed.

Lemma list_last_two {A} (l : list A) :
  3 <= length l -> exists l' x y, l' <> [] /\ l = (l' ++ [x; y])%list.
Proof.
  intros H. destruct l as [|y l _] using rev_ind; [cbn in H; lia|].
  destruct l as [|x l _] using rev_ind; [cbn in H; lia|].
  rewrite !length_app in H. cbn in H.
  exists l, x, y. split; [destruct l; [cbn in H; lia|done]|].
  by rewrite <- app_assoc.
Qed.

(** X19: what the [if]/[elif] chain of lines 853-859 (and its three
    copies) makes of a location, whatever the text.  With ["s3://"]
    inside, the location ends in [/bucket/key], where bucket and key hold
    no ['/']: the bucket is the item before the last one, so for
    ["s3://bucket/dir/key"] it is ["dir"].  Otherwise, with ["redis://"]
    inside, the key is the text after the last ['/'].  Otherwise, with
    ["file:/"] inside, the path is the text after the last [':'].  One
    transport at most is set, in this order of precedence, and none of
    the index expressions raises. *)
Theorem X19_location_segments (loc : string) :
  (PyStr.contains "s3://" loc = true ->
   exists pre b k,
     loc = pre ++ "/" ++ b ++ "/" ++ k
     /\ free_of "/" b = true /\ free_of "/" k = true
     /\ parse_location loc
        = (Next (Channel (Some b) (Some k) None None), []))
  /\ (PyStr.contains "s3://" loc = false ->
      PyStr.contains "redis://" loc = true ->
      exists pre k,
        loc = pre ++ "/" ++ k /\ free_of "/" k = true
        /\ parse_location loc = (Next (Channel None None (Some k) None), []))
  /\ (PyStr.contains "s3://" loc = false ->
      PyStr.contains "redis://" loc = false ->
      PyStr.contains "file:/" loc = true ->
      exists pre p,
        loc = pre ++ ":" ++ p /\ free_of ":" p = true
        /\ parse_location loc = (Next (Channel None None None (Some p)), [])).
Proof.
  split; [|split].
  - intros H.
    destruct (list_last_two _ (PyStrFacts.split_s3_length loc H))
      as (l & b & k & Hl & Hs).
    assert (Hs' : PyStr.split "/" loc = ((l ++ [b]) ++ [k])%list)
      by (by rewrite <- app_assoc).
    destruct (split_snoc "/" loc _ k Hs') as (pre1 & -> & Hpre1);
      [by destruct l|].
    destruct (split_snoc "/" pre1 l b Hpre1 Hl) as (pre & -> & _).
    exists pre, b, k. split; [by rewrite append_append|].
    assert (Hb : free_of "/" b = true).
    { apply (split_items_free "/" ((pre ++ String "/" b) ++ String "/" k)).
      rewrite Hs. apply in_or_app. right. by left. }
    assert (Hk : free_of "/" k = true).
    { apply (split_items_free "/" ((pre ++ String "/" b) ++ String "/" k)).
      rewrite Hs. apply in_or_app. right. right. by left. }
    repeat split; try done.
    unfold parse_location, item. rewrite H, Hs.
    rewrite PyStrFacts.from_end_last_but_one.
    change (l ++ [b; k])%list with (l ++ [b] ++ [k])%list.
    by rewrite app_assoc, PyStrFacts.from_end_last.
  - intros H1 H2.
    assert (2 <= length (PyStr.split "/" loc)) as Hlen.
    { clear H1. induction loc as [|c s IH]; [done|].
      cbn [PyStr.contains] in H2.
      destruct (String.prefix "redis://" (String c s)) eqn:Hp.
      - destruct (PyStrFacts.prefix_inv _ _ Hp) as [r ->].
        change ("redis://" ++ r) with
          (String "r" (String "e" (String "d" (String "i" (String "s"
            (String ":" (String "/" (String "/" r)))))))).
        cbn [PyStr.split Ascii.eqb Bool.eqb].
        pose proof (PyStrFacts.split_nonempty "/" r).
        destruct (PyStr.split "/" r); [done|]. cbn. lia.
      - specialize (IH H2).
        pose proof (PyStrFacts.split_length_cons "/" c s). lia. }
    destruct (PyStr.split "/" loc) as [|k l _] eqn:Hs using rev_ind;
      [cbn in Hlen; lia|].
    destruct (split_snoc "/" loc l k Hs) as (pre & -> & _).
    { destruct l; [cbn in Hlen; lia|done]. }
    exists pre, k.
    assert (Hk : free_of "/" k = true).
    { apply (split_items_free "/" (pre ++ String "/" k)).
      rewrite Hs. apply in_or_app. right. by left. }
    repeat split; try done.
    unfold parse_location, item.
    by rewrite H1, H2, Hs, PyStrFacts.from_end_last.
  - intros H1 H2 H3.
    assert (2 <= length (PyStr.split ":" loc)) as Hlen.
    { clear H1 H2. induction loc as [|c s IH]; [done|].
      cbn [PyStr.contains] in H3.
      destruct (String.prefix "file:/" (String c s)) eqn:Hp.
      - destruct (PyStrFacts.prefix_inv _ _ Hp) as [r ->].
        change ("file:/" ++ r) with
          (String "f" (String "i" (String "l" (String "e"
            (String ":" (String "/" r)))))).
        cbn [PyStr.split Ascii.eqb Bool.eqb].
        pose proof (PyStrFacts.split_nonempty ":" r).
        destruct (PyStr.split ":" r); [done|]. cbn. lia.
      - specialize (IH H3).
        pose proof (PyStrFacts.split_length_cons ":" c s). lia. }
    destruct (PyStr.split ":" loc) as [|p l _] eqn:Hs using rev_ind;
      [cbn in Hlen; lia|].
    destruct (split_snoc ":" loc l p Hs) as (pre & -> & _).
    { destruct l; [cbn in Hlen; lia|done]. }
    exists pre, p.
    assert (Hp : free_of ":" p = true).
    { apply (split_items_free ":" (pre ++ String ":" p)).
      rewrite Hs. apply in_or_app. right. by left. }
    repeat split; try done.
    unfold parse_location, item.
    by rewrite H1, H2, H3, Hs, PyStrFacts.from_end_last.
Qed.

Lemma X19_location_segments_witness :
  exists b k,
    parse_location "s3://bucket/dir/key.json"
    = (Next (Channel (Some b) (Some k) None None), [])
    /\ b = "dir" /\ k = "key.json".
Proof.
  destruct (proj1 (X19_location_segments "s3://bucket/dir/key.json") eq_refl)
    as (pre & b & k & _ & _ & _ & Hp).
  exists b, k. split; [exact Hp|].
  assert (Hq : parse_location "s3://bucket/dir/key.json"
               = (Next (Channel (Some "dir") (Some "key.json") None None), []))
    by reflexivity.
  rewrite Hq in Hp. injection Hp as <- <-. split; reflexivity.
Defined.

(* ===================================================================== *)
(** ** The entry point *)
(* ===================================================================== *)

(** X20: from the entry point the configuration is the example one for
    ['SPY'] on the minute series (line 1258), and no option but [-c]
    changes that: without a config file, whatever [-t] is, the example
    algorithm gets the [-t] ticker with ['positions'] that hold ['SPY']
    only, a custom run gets the name ['backtest'], the minute series, the
    ['count'] strategy and [auto_fill] on, and a plot uses the ['minute']
    column with the minute date format. *)
Theorem X20_entry_point_configuration (ae : consts) (w : world) (a : args)
    (o : outcome) (t : list event) :
  PyStr.given (a_config_file a) = false ->
  run (start_backtest_with_plot_history ae w a) = (o, t) ->
  (forall c, In (RunAlgo c) t ->
     ac_ticker c = resolve_ticker ae a
     /\ ac_algo_ticker c = PStr (resolve_ticker ae a)
     /\ ac_algo_config c !! "timeseries" = Some (PStr "minute")
     /\ ac_algo_config c !! "positions"
        = Some (PDict {[ "SPY" :=
                  PDict (<["shares" := PInt 10]> (
                         <["buys" := PList []]> (
                         <["sells" := PList []]> ∅))) ]}))
  /\ (forall c, In (RunCustomAlgo c) t ->
        cc_name c = PStr "backtest"
        /\ cc_timeseries c = PStr "minute"
        /\ cc_trade_strategy c = PStr "count"
        /\ cc_auto_fill c = PBool true)
  /\ (forall p, In (Plot p) t ->
        pc_date_col p = "minute"
        /\ pc_date_format p = "%d %H:%M:%S" ++ PyStr.nl ++ "%b").
Proof.
  intros Hc H. unfold start_backtest_with_plot_history in H.
  assert (Hcfg : forall st,
            resolve_settings ae w a (build_example_algo_config "SPY" "minute")
            = (Next st, []) ->
            exists p, st = settings_of ae a p
                             (build_example_algo_config "SPY" "minute")).
  { intros st Hst.
    destruct (resolve_settings_inv _ _ _ _ _ _ Hst)
      as (_ & _ & _ & p & src & Hcfg & ->).
    destruct (apply_config_file_next _ _ _ _ _ _ _ Hcfg)
      as [_ [(_ & _ & ->)|(f & Hf & Ht & _)]]; [by exists p|].
    unfold PyStr.given in Hc. rewrite Hf in Hc. congruence. }
  split; [|split].
  - intros c Hin.
    destruct (algo_run_inv ae w a _ o t c H Hin)
      as (st & pre & r & l & Hst & _ & _ & Hcall & _).
    destruct (Hcfg st Hst) as [p ->].
    destruct (algo_call_of_next _ _ _ _ _ _ Hcall)
      as (_ & Htk & Hcd & Htk' & _).
    cbn in Htk, Hcd, Htk'. rewrite finalize_ticker in Htk'.
    injection Htk' as <-. rewrite Hcd.
    rewrite !finalize_other
      by (apply (bool_decide_unpack _); vm_compute; exact I).
    repeat split; try done; vm_compute; reflexivity.
  - intros c Hin.
    destruct (custom_run_inv ae w a _ o t c H Hin) as (st & Hst & [_ Hcall] & _).
    destruct (Hcfg st Hst) as [p ->].
    destruct (custom_call_of_defaults _ _ _ _ _ _ _ _ Hcall)
      as (-> & -> & -> & -> & _).
    cbn [st_config_dict settings_of].
    rewrite !dict_get_finalize
      by (apply (bool_decide_unpack _); vm_compute; exact I).
    repeat split; vm_compute; reflexivity.
  - intros p Hin.
    destruct (presented_inv ae w a _ o t _ H Hin eq_refl eq_refl)
      as (st & pre & c & r & l & Hst & _ & _ & _ & _ & Hp & _ & Hl).
    destruct (Hcfg st Hst) as [p' ->].
    destruct r as [[]|o'].
    2:{ by pose proof (present_stop _ _ _ _ _ _ _ Hp _ Hl). }
    destruct (present_next _ _ _ _ _ _ Hp)
      as (rows & sv & r0 & rest & rl & name & ts
          & _ & Hsv & _ & _ & _ & Hts & ->).
    cbn [st_config_dict settings_of] in Hts.
    rewrite finalize_other in Hts
      by (apply (bool_decide_unpack _); vm_compute; exact I).
    assert (ts = PStr "minute") as ->.
    { vm_compute in Hts. by injection Hts as <-. }
    apply in_app_or in Hl as [Hl|[[= <-]|[]]]; [|done].
    by pose proof (saved_no_plot _ _ _ _ _ Hsv Hl).
Qed.

Lemma X20_entry_point_configuration_witness :
  exists c,
    In (RunAlgo c)
      (run (start_backtest_with_plot_history Sample.ae Sample.good_world
              Case.other_ticker)).2
    /\ ac_ticker c = "QQQ"
    /\ ac_algo_config c !! "timeseries" = Some (PStr "minute").
Proof.
  assert (exists c,
            In (RunAlgo c)
              (run (start_backtest_with_plot_history Sample.ae
                      Sample.good_world Case.other_ticker)).2)
    as [c Hin] by (eexists; vm_compute; left; reflexivity).
  exists c. split; [exact Hin|].
  destruct (proj1 (X20_entry_point_configuration Sample.ae Sample.good_world
                     Case.other_ticker _ _ eq_refl (surjective_pairing _))
              c Hin) as (Htk & _ & Hts & _).
  split; [exact Htk|exact Hts].
Defined.

(* ===================================================================== *)
(** ** The order of the calls *)
(* ===================================================================== *)

Lemma ordered_logs (n : nat) (l t : list event) :
  forallb is_log_error l = true -> ordered n (l ++ t) = ordered n t.
Proof.
  induction l as [|e l IH]; [done|]. cbn [forallb].
  intros [He Hl]%andb_prop. destruct e; try done. cbn. by apply IH.
Qed.

Lemma ordered_only_logs (n : nat) (l : list event) :
  forallb is_log_error l = true -> ordered n l = true.
Proof.
  intros H. rewrite <- (app_nil_r l). by rewrite (ordered_logs n l [] H).
Qed.

Lemma ordered_went_on (ae : consts) (w : world) (a : args) (st : settings)
    (pre t : list event) :
  went_on ae w a st pre -> ordered 1 t = true -> ordered 0 (pre ++ t) = true.
Proof.
  intros [->|(c & l & -> & _ & Ha)] Ht.
  - cbn [app]. revert Ht. clear. revert t.
    assert (H : forall n t, ordered (S n) t = true -> ordered n t = true).
    { intros n t. revert n. induction t as [|e t IH]; [done|]. intros n.
      cbn [ordered]. destruct (stage e) as [|s]; [apply IH|].
      intros [Hs Ht]%andb_prop. apply Nat.ltb_lt in Hs.
      rewrite Ht, andb_true_r. apply Nat.ltb_lt. lia. }
    apply H.
  - cbn. by rewrite (ordered_logs 1 l t (after_custom_logs _ _ _ _ _ Ha)).
Qed.

(** X10: in every run the calls come in the order [run_custom_algo],
    [run_algo], [to_json], plot, and each happens at most once; logged
    errors may lie between them. *)
Theorem X10_calls_come_in_order (ae : consts) (w : world) (a : args)
    (cd : pydict) :
  ordered 0 (run (run_backtest_and_plot_history ae w a cd)).2 = true.
Proof.
  destruct (run (run_backtest_and_plot_history ae w a cd)) as [o t] eqn:H.
  cbn [snd].
  destruct (run_shape ae w a cd o t H)
    as [(_ & _ & Hl)|(st & Hst & [(pre & l & -> & Hp & Ho & Hl)
       |[(c' & l & -> & Hcall & Ha)|(pre & c' & r & l & -> & Hp & Hc & Ha & Ho)]])].
  - by apply ordered_only_logs.
  - apply (ordered_went_on _ _ _ _ _ _ Hp). by apply ordered_only_logs.
  - cbn. apply ordered_only_logs. exact (after_custom_logs _ _ _ _ _ Ha).
  - apply (ordered_went_on _ _ _ _ _ _ Hp). cbn.
    destruct (after_default_cases ae w c' (st_ticker st) (st_config_dict st)
                (st_history_json_file st)) as [[_ E]|[_ E]];
      rewrite E in Ha; [by injection Ha as <- <-|].
    destruct (present_cases w c' (st_ticker st) (st_config_dict st)
                (st_history_json_file st))
      as [[_ P]|[(v & _ & P)|[(rows & f & _ & _ & _ & P)
         |[(rows & sv & x & _ & Hs & P)|(rows & sv & p & _ & Hs & P & _)]]]];
      rewrite P in Ha; injection Ha as <- <-; try done;
      by destruct Hs as [[_ ->]|(f & _ & _ & ->)].
Qed.

(* ===================================================================== *)
(** ** Options given as the empty string *)
(* ===================================================================== *)

Lemma bind_cong {A B} (m m' : M A) (k k' : A -> M B) :
  m = m' -> (forall x, k x = k' x) -> m ≫= k = m' ≫= k'.
Proof.
  intros <- H. destruct m as [[x|o] l]; [|done].
  unfold mbind, M_bind, bind. by rewrite H.
Qed.

Ltac by_option o :=
  unfold keep_given, PyStr.given; destruct o as [[|? ?]|]; reflexivity.

Lemma keep_given_idem (o : option string) :
  keep_given (keep_given o) = keep_given o.
Proof. by_option o. Qed.

Lemma override_keep_given (o : option string) (d : pyval) :
  override (keep_given o) d = override o d.
Proof. unfold override. by_option o. Qed.

Lemma check_date_keep_given (f : failure) (o : option string) :
  check_date f (keep_given o) = check_date f o.
Proof. unfold check_date. by_option o. Qed.

Lemma resolve_channel_keep_given (c : chan_name) (o : option string) :
  resolve_channel c (keep_given o) = resolve_channel c o.
Proof. unfold resolve_channel. by_option o. Qed.

Lemma local_keep_given (n : string) (o : option string) :
  local n (keep_given o) = local n o.
Proof. unfold local. by_option o. Qed.

Section EmptyOptions.

Variable ae : consts.
Variable w : world.
Variable a : args.

Lemma resolve_conn_empty :
  resolve_conn ae (without_empty_options a) = resolve_conn ae a.
Proof.
  unfold resolve_conn, without_empty_options. cbn.
  by rewrite !override_keep_given.
Qed.

Lemma finalize_config_empty tk cd :
  finalize_config (without_empty_options a) tk cd = finalize_config a tk cd.
Proof.
  unfold finalize_config, without_empty_options. cbn.
  by rewrite keep_given_idem.
Qed.

Lemma algo_module_empty :
  algo_module_from_args w (without_empty_options a)
  = algo_module_from_args w a.
Proof.
  unfold algo_module_from_args, without_empty_options. cbn.
  by_option (a_run_algo_in_file a).
Qed.

Lemma apply_config_file_empty p cd :
  apply_config_file w (without_empty_options a) p cd
  = apply_config_file w a p cd.
Proof.
  unfold apply_config_file, without_empty_options. cbn.
  by_option (a_config_file a).
Qed.

Lemma resolve_settings_empty cd :
  resolve_settings ae w (without_empty_options a) cd
  = resolve_settings ae w a cd.
Proof.
  unfold resolve_settings.
  apply bind_cong; [apply check_date_keep_given|intros sd].
  apply bind_cong; [apply check_date_keep_given|intros ed].
  apply bind_cong; [apply algo_module_empty|intros p].
  apply bind_cong; [apply apply_config_file_empty|intros [p' cd']].
  rewrite resolve_conn_empty, finalize_config_empty.
  change (a_history_json_file (without_empty_options a))
    with (keep_given (a_history_json_file a)).
  by rewrite keep_given_idem.
Qed.

Lemma custom_stage_empty st :
  custom_stage ae w (without_empty_options a) st = custom_stage ae w a st.
Proof.
  unfold custom_stage. destruct (truth (st_algo_mod_path st)); [|done].
  unfold run_custom, custom_call_of.
  apply bind_cong; [|intros c].
  { apply bind_cong; [apply resolve_channel_keep_given|intros c1].
    apply bind_cong; [apply resolve_channel_keep_given|intros c2].
    apply bind_cong; [apply resolve_channel_keep_given|intros c3].
    apply bind_cong; [apply resolve_channel_keep_given|intros c4].
    done. }
  apply bind_cong; [done|intros _].
  unfold after_custom.
  apply bind_cong; [apply local_keep_given|intros _].
  apply bind_cong; [apply local_keep_given|intros _].
  apply bind_cong; [apply local_keep_given|intros _].
  done.
Qed.

Lemma default_stage_empty st :
  default_stage ae w (without_empty_options a) st = default_stage ae w a st.
Proof.
  unfold default_stage. apply bind_cong; [|done].
  unfold resolve_load_config, without_empty_options. cbn.
  by_option (a_backtest_loc a).
Qed.

End EmptyOptions.

(** X18: an option given as the empty string is an option not given:
    every option is read under [if args.<option>:], so the run is the
    same as without it.  In particular an empty [-s] or [-n] is not
    parsed as a date, an empty [-g] or [-c] names no file, and an empty
    location is not rejected. *)
Theorem X18_empty_options_are_not_given (ae : consts) (w : world)
    (a : args) (cd : pydict) :
  run_backtest_and_plot_history ae w (without_empty_options a) cd
  = run_backtest_and_plot_history ae w a cd.
Proof.
  unfold run_backtest_and_plot_history.
  apply bind_cong; [apply resolve_settings_empty|intros st].
  apply bind_cong; [apply custom_stage_empty|intros _].
  apply default_stage_empty.
Qed.
